(** * RehabiDesk sensor streaming pipeline

    A shallow embedding of the physiological-signal pipeline of the
    dashboard: the CSV transport written by the simulators
    ([simulator.py], and the copy embedded at the end of [app.py]), the
    polling readers of [app.py], the waveform synthesizers and the
    peak-based BPM computation of [sensors.py].

    Number model.  The transport stores decimal numerals
    ([f"{ecg:.4f}"], [f"{imu[0]:.2f}"]), so the values the readers see
    are rationals ([Q]).  The synthesizers use [np.sin] and [np.exp]; they
    are embedded over the reals ([R]).  In both cases binary64 rounding is
    not modelled.  Draws of [np.random.normal] and the wall clock are
    inputs of the embedded functions. *)

From Stdlib Require Import String List Arith Bool Lia.
From Stdlib Require Import QArith Qabs.
From Stdlib Require Import Reals Lra Psatz.
From Stdlib Require DecimalString DecimalNat.
Import ListNotations.

Local Open Scope string_scope.
Local Open Scope nat_scope.
Local Open Scope list_scope.

(** ** Data model *)

(** One data row of the stream file, columns in the order of the header
    written by [init_stream_file]. *)
Record Sample := mkSample {
  timestamp : string;
  ecg : Q;
  accel_x : Q;
  accel_y : Q;
  accel_z : Q;
  gyro_x : Q;
  gyro_y : Q;
  gyro_z : Q;
  status_ecg : string;
  status_imu : string
}.

(** A line of the stream file: the header row or a data row. *)
Inductive Line :=
| HeaderLine
| RowLine (s : Sample).

(** The file system as far as the pipeline sees it: [None] when
    [STREAM_FILE] does not exist, otherwise its lines. *)
Definition StreamFile := option (list Line).

Definition NORMAL := "NORMAL".
Definition RED_FLAG_ARRHYTHMIA := "RED_FLAG_ARRHYTHMIA".
Definition RED_FLAG_FATIGUE := "RED_FLAG_FATIGUE".

(** Python's [xs[-n:]] for [n > 0]: the last [n] elements, all of them when
    the list is shorter. *)
Definition slice_last {A} (n : nat) (xs : list A) : list A :=
  skipn (length xs - n) xs.

(** What one loop iteration takes from outside: the elapsed time, the text
    of [datetime.now()], and the draws of [np.random.normal] in the order
    the generators make them. *)
Record Tick := mkTick {
  current_time : R;
  now : string;
  draw_noise : R;
  draw_accel_y : R;
  draw_accel_z : R;
  draw_gyro_y : R;
  draw_gyro_z : R
}.

(** The environment of a producer: the tick of each iteration and the two
    number formats of the row, [f"{x:.4f}"] and [f"{x:.2f}"], read back as
    the decimal they print. *)
Record Environment := mkEnv {
  tick : nat -> Tick;
  fmt4 : R -> Q;
  fmt2 : R -> Q
}.

(** State of a producer loop: the stream file and [sample_count]. *)
Record ProducerState := mkProducer {
  stream : StreamFile;
  sample_count : nat
}.

(** Option bind, for code that stops at the first exception. *)
Definition bind {A B} (x : option A) (f : A -> option B) : option B :=
  match x with
  | Some a => f a
  | None => None
  end.

Fixpoint iterate {A} (f : A -> option A) (n : nat) (a : A) : option A :=
  match n with
  | O => Some a
  | S k => bind (iterate f k a) f
  end.

(** The rows of the first [n] iterations, oldest first, when iteration [i]
    writes [row i]. *)
Definition produced (row : nat -> Sample) (n : nat) : list Sample :=
  map row (seq 0 n).

(** The 7-tuple returned by [generate_imu_sample]. *)
Record ImuSample := mkImu {
  imu_accel_x : R;
  imu_accel_y : R;
  imu_accel_z : R;
  imu_gyro_x : R;
  imu_gyro_y : R;
  imu_gyro_z : R;
  imu_status : string
}.

Definition Rltb (x y : R) : bool := if Rlt_dec x y then true else false.
Definition Rleb (x y : R) : bool := if Rle_dec x y then true else false.

(** [x % y] on floats: [x - y * floor (x / y)]. *)
Definition fmod (x y : R) : R := (x - y * IZR (Int_part (x / y)))%R.

(** ** Reading the transport *)

(** A data line as a row of the data frame. A header line in data position
    is not something either producer writes; it is a read error here. *)
Definition row_of_line (l : Line) : option Sample :=
  match l with
  | HeaderLine => None
  | RowLine s => Some s
  end.

Fixpoint rows_of_lines (ls : list Line) : option (list Sample) :=
  match ls with
  | [] => Some []
  | l :: rest =>
      bind (row_of_line l) (fun s =>
      bind (rows_of_lines rest) (fun ss => Some (s :: ss)))
  end.

(** [pd.read_csv(STREAM_FILE)]: the first line names the columns, the others
    are the rows.  [None] is an exception (missing file, empty file, or a
    file whose columns are not the expected ones). *)
Definition read_csv (f : StreamFile) : option (list Sample) :=
  match f with
  | Some (HeaderLine :: ls) => rows_of_lines ls
  | _ => None
  end.

(** [df.tail(n)] *)
Definition tail (n : nat) (rows : list Sample) : list Sample :=
  slice_last n rows.

Definition path_exists (f : StreamFile) : bool :=
  match f with
  | Some _ => true
  | None => false
  end.

(** Python's [max] on a list of numbers: the first of the largest elements;
    [None] is the [ValueError] on an empty list. *)
Fixpoint max_from (m : Q) (xs : list Q) : Q :=
  match xs with
  | [] => m
  | x :: rest => max_from (if Qlt_le_dec m x then x else m) rest
  end.

Definition py_max (xs : list Q) : option Q :=
  match xs with
  | [] => None
  | x :: rest => Some (max_from x rest)
  end.

(** [f"{x:.1f}"], read back as the decimal it prints: [x] rounded to the
    nearest tenth, a tie going to the even digit. *)
Definition round_half_even (x : Q) : Z :=
  let n := Qnum x in
  let d := Zpos (Qden x) in
  let q := (n / d)%Z in
  let r := (n mod d)%Z in
  if (2 * r <? d)%Z then q
  else if (d <? 2 * r)%Z then (q + 1)%Z
  else if Z.even q then q else (q + 1)%Z.

Definition format_1f (x : Q) : Q :=
  (inject_Z (round_half_even (x * 10)) / 10)%Q.

(** [(df['status_ecg'] == 'RED_FLAG_ARRHYTHMIA').any()] and its IMU twin. *)
Definition any_arrhythmia (df : list Sample) : bool :=
  existsb (fun s => (status_ecg s =? RED_FLAG_ARRHYTHMIA)%string) df.

Definition any_fatigue (df : list Sample) : bool :=
  existsb (fun s => (status_imu s =? RED_FLAG_FATIGUE)%string) df.

(** ** simulator.py: the producer with a sliding window *)

Module Simulator.

Definition MAX_SAMPLES : nat := 250.

(** [init_stream_file]: opens with mode ['w'], so prior content is lost. *)
Definition init_stream_file (_ : StreamFile) : StreamFile :=
  Some [HeaderLine].

Section Synthesis.
Local Open Scope R_scope.

(** The lines of [generate_ecg_sample] below [heart_rate = base_bpm / 60.0],
    for a heart rate that [1.0 / heart_rate] can be divided by. *)
Definition ecg_sample (heart_rate t noise : R) : R * string :=
  let beat_period := 1 / heart_rate in
  let t_in_beat := fmod t beat_period in
  let normalized_t := t_in_beat / beat_period in
  let ecg :=
    if Rleb 0 normalized_t && Rltb normalized_t 0.12 then
      let p_phase := normalized_t / 0.12 in
      0.12 * sin (PI * p_phase)
    else if Rleb 0.15 normalized_t && Rltb normalized_t 0.30 then
      let qrs_phase := (normalized_t - 0.15) / 0.15 in
      if Rltb qrs_phase 0.1 then
        - 0.05 * sin (PI * (qrs_phase / 0.1))
      else if Rltb qrs_phase 0.4 then
        let r_inner := (qrs_phase - 0.1) / 0.3 in
        1 * sin (PI * r_inner)
      else
        let s_inner := (qrs_phase - 0.4) / 0.6 in
        - 0.1 * sin (PI * s_inner)
    else if Rleb 0.40 normalized_t && Rltb normalized_t 0.65 then
      let t_phase := (normalized_t - 0.40) / 0.25 in
      0.25 * sin (PI * t_phase)
    else 0 in
  (ecg + noise, NORMAL).

(** [generate_ecg_sample(t, base_bpm=75)]; [noise] is the draw of
    [np.random.normal(0, 0.01)].  [None] is the [ZeroDivisionError] of
    [1.0 / heart_rate] at [base_bpm = 0]. *)
Definition generate_ecg_sample (t base_bpm noise : R) : option (R * string) :=
  let heart_rate := base_bpm / 60 in
  if Req_dec_T heart_rate 0 then None
  else Some (ecg_sample heart_rate t noise).

(** [generate_imu_sample(t, exercise_phase)]; [n_y] and [n_z] are the
    draws of [np.random.normal(0, 0.2)] and [np.random.normal(0, 0.1)]. *)
Definition generate_imu_sample (t : R) (exercise_phase : string)
           (n_y n_z : R) : ImuSample :=
  let movement_freq := 0.3 in
  let cycle_time := t * movement_freq in
  let base_angle :=
    if (exercise_phase =? "extension")%string
    then 45 + 15 * sin (2 * PI * cycle_time)
    else 60 + 35 * sin (2 * PI * cycle_time) in
  let angle := Rmax 0 (Rmin 100 base_angle) in
  let accel_x := angle in
  let accel_y := n_y in
  let accel_z := 9.81 + n_z in
  mkImu accel_x accel_y accel_z 0 0 0 NORMAL.

End Synthesis.

(** [(sample_count // 100) % 2 == 0] *)
Definition exercise_phase (sample_count : nat) : string :=
  if (sample_count / 100) mod 2 =? 0 then "extension" else "flexion".

(** The row of [writer.writerow] at iteration [i], given what the two
    generators returned; the three gyro columns are the literal ["0"]. *)
Definition writerow (env : Environment) (i : nat) (ecg_status : R * string)
           (imu : ImuSample) : Sample :=
  let k := tick env i in
  let '(ecg, status_ecg) := ecg_status in
  mkSample (now k) (fmt4 env ecg)
           (fmt2 env (imu_accel_x imu)) (fmt2 env (imu_accel_y imu))
           (fmt2 env (imu_accel_z imu))
           0 0 0 status_ecg (imu_status imu).

(** The sample of iteration [i]: the phase comes from [sample_count], the
    ECG from the default [base_bpm = 75].  [None] when a generator
    raises. *)
Definition sample (env : Environment) (i : nat) : option Sample :=
  let k := tick env i in
  let exercise_phase := exercise_phase i in
  bind (generate_ecg_sample (current_time k) 75 (draw_noise k))
       (fun ecg_status =>
  let imu := generate_imu_sample (current_time k) exercise_phase
                                 (draw_accel_y k) (draw_accel_z k) in
  Some (writerow env i ecg_status imu)).

(** The row that iteration [i] writes: at 75 beats per minute the heart
    rate is 1.25 and [generate_ecg_sample] returns. *)
Definition row (env : Environment) (i : nat) : Sample :=
  let k := tick env i in
  writerow env i
    (ecg_sample (75 / 60) (current_time k) (draw_noise k))
    (generate_imu_sample (current_time k) (exercise_phase i)
                         (draw_accel_y k) (draw_accel_z k)).

(** The read-rewrite-append of the loop body.  [None] is an exception:
    [open(STREAM_FILE, 'r')] on a missing file, or [lines[0]] on an empty
    one. *)
Definition rewrite_window (f : StreamFile) (new_row : Sample)
  : option StreamFile :=
  match f with
  | None => None
  | Some lines =>
      match lines with
      | [] => None
      | header :: _ =>
          Some (Some (header ::
                      (if MAX_SAMPLES <? length lines
                       then slice_last (MAX_SAMPLES - 1) lines
                       else tl lines)
                      ++ [RowLine new_row]))
      end
  end.

(** One iteration of [while True]: the generators are called first, then
    the file is rewritten and the count incremented. *)
Definition loop_body (env : Environment) (st : ProducerState)
  : option ProducerState :=
  bind (sample env (sample_count st)) (fun new_row =>
  bind (rewrite_window (stream st) new_row)
       (fun f => Some (mkProducer f (S (sample_count st))))).

(** [run_simulator], observed after [n] iterations. *)
Definition run_simulator (env : Environment) (n : nat) (f : StreamFile)
  : option ProducerState :=
  iterate (loop_body env) n (mkProducer (init_stream_file f) 0).

End Simulator.

(** ** app.py: the embedded producer *)

Module App.

(** [init_stream_file] of app.py, the same as the one of simulator.py. *)
Definition init_stream_file (_ : StreamFile) : StreamFile :=
  Some [HeaderLine].

Section Synthesis.
Local Open Scope R_scope.

(** The lines of [generate_ecg_sample] below [heart_rate = base_bpm / 60.0],
    for a heart rate that [1.0 / heart_rate] can be divided by. *)
Definition ecg_sample (heart_rate t noise : R) : R * string :=
  let ecg := 0.5 * sin (2 * PI * heart_rate * t) in
  let qrs_time := fmod t (1 / heart_rate) in
  let ecg :=
    if Rltb 0.1 qrs_time && Rltb qrs_time 0.2
    then ecg + 0.8 * exp (- ((qrs_time - 0.15) ^ 2) / 0.001)
    else ecg in
  let ecg := ecg + noise in
  let status :=
    if Rltb 0.12 (Rabs noise) then RED_FLAG_ARRHYTHMIA else NORMAL in
  (ecg, status).

(** [generate_ecg_sample(t, base_bpm)]; [noise] is the draw of
    [np.random.normal(0, 0.05)].  [None] is the [ZeroDivisionError] of
    [1.0 / heart_rate] at [base_bpm = 0]. *)
Definition generate_ecg_sample (t base_bpm noise : R) : option (R * string) :=
  let heart_rate := base_bpm / 60 in
  if Req_dec_T heart_rate 0 then None
  else Some (ecg_sample heart_rate t noise).

(** [generate_imu_sample(t, exercise_phase)]; the four last arguments
    are the draws [np.random.normal(0, 2)], [(10, 1)], [(0, 1)] and
    [(0, 1)]. *)
Definition generate_imu_sample (t : R) (exercise_phase : string)
           (accel_y accel_z gyro_y gyro_z : R) : ImuSample :=
  let angle :=
    if (exercise_phase =? "extension")%string
    then Rmin 90 (45 * sin (0.5 * t) + 45)
    else Rmax 0 (90 - 45 * sin (0.5 * t)) in
  let accel_x := angle in
  let gyro_x := 20 * cos (0.5 * t) in
  let status :=
    if Rltb 5 (Rabs accel_y) || Rltb 3 (Rabs gyro_y)
    then RED_FLAG_FATIGUE else NORMAL in
  mkImu accel_x accel_y accel_z gyro_x gyro_y gyro_z status.

End Synthesis.

(** [(sample_count // 20) % 2 == 0] *)
Definition exercise_phase (sample_count : nat) : string :=
  if (sample_count / 20) mod 2 =? 0 then "extension" else "flexion".

(** The row of [writer.writerow] at iteration [i], given what the two
    generators returned. *)
Definition writerow (env : Environment) (i : nat) (ecg_status : R * string)
           (imu_data : ImuSample) : Sample :=
  let k := tick env i in
  let '(ecg, status_ecg) := ecg_status in
  mkSample (now k) (fmt4 env ecg)
           (fmt2 env (imu_accel_x imu_data)) (fmt2 env (imu_accel_y imu_data))
           (fmt2 env (imu_accel_z imu_data)) (fmt2 env (imu_gyro_x imu_data))
           (fmt2 env (imu_gyro_y imu_data)) (fmt2 env (imu_gyro_z imu_data))
           status_ecg (imu_status imu_data).

(** [base_bpm = 75 + 10 * np.sin(0.1 * current_time)] *)
Definition base_bpm (current_time : R) : R :=
  (75 + 10 * sin (0.1 * current_time))%R.

(** The sample of iteration [i]: the phase comes from [sample_count], the
    heart rate from the clock.  [None] when a generator raises. *)
Definition sample (env : Environment) (i : nat) : option Sample :=
  let k := tick env i in
  let exercise_phase := exercise_phase i in
  bind (generate_ecg_sample (current_time k) (base_bpm (current_time k))
                            (draw_noise k))
       (fun ecg_status =>
  let imu_data := generate_imu_sample (current_time k) exercise_phase
                    (draw_accel_y k) (draw_accel_z k)
                    (draw_gyro_y k) (draw_gyro_z k) in
  Some (writerow env i ecg_status imu_data)).

(** The row that iteration [i] writes: [base_bpm] is between 65 and 85,
    so [generate_ecg_sample] returns. *)
Definition row (env : Environment) (i : nat) : Sample :=
  let k := tick env i in
  writerow env i
    (ecg_sample (base_bpm (current_time k) / 60)%R (current_time k)
                (draw_noise k))
    (generate_imu_sample (current_time k) (exercise_phase i)
                         (draw_accel_y k) (draw_accel_z k)
                         (draw_gyro_y k) (draw_gyro_z k)).

(** [open(STREAM_FILE, 'a')] followed by [writerow]: the file is created
    when missing and no line is ever removed. *)
Definition append_row (f : StreamFile) (new_row : Sample) : StreamFile :=
  match f with
  | None => Some [RowLine new_row]
  | Some lines => Some (lines ++ [RowLine new_row])
  end.

(** One iteration of [while True]: the generators are called first, then
    the row is appended and the count incremented.  [None] is an exception
    in the body, on which [except ... break] ends the loop. *)
Definition loop_body (env : Environment) (st : ProducerState)
  : option ProducerState :=
  bind (sample env (sample_count st)) (fun new_row =>
  Some (mkProducer (append_row (stream st) new_row)
                   (S (sample_count st)))).

Definition run_simulator (env : Environment) (n : nat) (f : StreamFile)
  : option ProducerState :=
  iterate (loop_body env) n (mkProducer (init_stream_file f) 0).

(** *** The polling readers *)

(** Title of the dashboard figure: ["Alerta: Arritmia Detectada"] or
    ["Ritmo Cardíaco Normal"]. *)
Inductive DashboardTitle := AlertaArritmiaDetectada | RitmoCardiacoNormal.

Record DashboardFigure := mkDashboardFigure {
  dash_x : list nat;
  dash_y : list Q;
  dash_line_color : string;
  dash_title : DashboardTitle
}.

(** The two outputs of [update_main_dashboard_auto]: both
    [dash.no_update], or the figure and the text
    [f"Frecuencia Cardíaca: {bpm:.1f} BPM"], kept as the one-decimal
    number it prints. *)
Inductive DashboardOutput :=
| DashNoUpdate
| DashUpdate (fig : DashboardFigure) (bpm : Q).

(** The [try] block of [update_main_dashboard_auto]; [None] is an
    exception raised inside it. *)
Definition dashboard_try (f : StreamFile) : option DashboardOutput :=
  bind (read_csv f) (fun rows =>
  let df := tail 50 rows in
  match df with
  | [] => Some DashNoUpdate
  | _ :: _ =>
      let y_data := map ecg df in
      let is_warning := any_arrhythmia df in
      let line_color := if is_warning then "#ef4444" else "#2ebf7f" in
      let fig :=
        mkDashboardFigure (seq 0 (length y_data)) y_data line_color
          (if is_warning then AlertaArritmiaDetectada
           else RitmoCardiacoNormal) in
      bind (py_max y_data) (fun m =>
      let bpm := (75 + m * 5)%Q in
      Some (DashUpdate fig (format_1f bpm)))
  end).

Definition update_main_dashboard_auto (n : nat) (pathname : string)
           (f : StreamFile) : DashboardOutput :=
  if negb (pathname =? "/")%string || negb (path_exists f)
  then DashNoUpdate
  else match dashboard_try f with
       | Some out => out
       | None => DashNoUpdate
       end.

(** The alerts of the doctor's monitor: the critical one names the
    patient. *)
Inductive Alert :=
| AlertaCriticaArritmia (patient : string)
| AvisoFatiga.

Record DoctorFigure := mkDoctorFigure {
  doctor_x : list string;
  doctor_y : list Q;
  doctor_line_color : string
}.

Inductive MonitorOutput :=
| MonitorNoUpdate
| MonitorUpdate (alerts : list Alert) (fig : DoctorFigure).

(** [not selected_patient]: the store holds [None] or a user name. *)
Definition falsy (selected_patient : option string) : bool :=
  match selected_patient with
  | None => true
  | Some name => (name =? "")%string
  end.

Definition monitor_try (selected_patient : string) (f : StreamFile)
  : option MonitorOutput :=
  bind (read_csv f) (fun rows =>
  let df := tail 100 rows in
  let alerts := [] in
  let alerts :=
    if any_arrhythmia df
    then alerts ++ [AlertaCriticaArritmia selected_patient] else alerts in
  let alerts :=
    if any_fatigue df then alerts ++ [AvisoFatiga] else alerts in
  let line_color := if any_arrhythmia df then "red" else "green" in
  let fig := mkDoctorFigure (map timestamp df) (map ecg df) line_color in
  Some (MonitorUpdate alerts fig)).

Definition monitor_patient_health (n : nat)
           (selected_patient : option string) (f : StreamFile)
  : MonitorOutput :=
  if falsy selected_patient || negb (path_exists f)
  then MonitorNoUpdate
  else match selected_patient with
       | None => MonitorNoUpdate
       | Some name =>
           match monitor_try name f with
           | Some out => out
           | None => MonitorNoUpdate
           end
       end.

(** Status messages of the exercise modal. *)
Inductive EcgMsg := ArritmiaDetectada | RitmoNormal.
Inductive ImuMsg := FatigaDetectada | MovimientoFluido.

Record LiveFigure := mkLiveFigure {
  live_x : list nat;
  live_y : list (option Q);
  live_line_color : string
}.

(** The four outputs of [update_sensor_charts]: two empty figures with
    ["Esperando datos..."]; two [dash.no_update] with ["Recolectando..."];
    the two charts with their messages; two [dash.no_update] with
    ["Error"]. *)
Inductive SensorOutput :=
| SensorWaiting
| SensorCollecting
| SensorCharts (fig_ecg fig_imu : LiveFigure) (ecg_msg : EcgMsg)
               (imu_msg : ImuMsg)
| SensorError.

(** [while len(y) < 50: y.insert(0, None)] *)
Definition pad_front (ys : list Q) : list (option Q) :=
  repeat None (50 - length ys) ++ map Some ys.

Definition sensor_try (f : StreamFile) : option SensorOutput :=
  bind (read_csv f) (fun rows =>
  let df := tail 50 rows in
  if (length df =? 0) || (length df <? 2) then Some SensorCollecting
  else
    let x_vals := seq 0 50 in
    let y_ecg := pad_front (map ecg df) in
    let y_imu := pad_front (map accel_x df) in
    let has_arrhythmia := any_arrhythmia df in
    let fig_ecg :=
      mkLiveFigure x_vals y_ecg
        (if has_arrhythmia then "#ef4444" else "#10b981") in
    let has_fatigue := any_fatigue df in
    let fig_imu :=
      mkLiveFigure x_vals y_imu
        (if has_fatigue then "#f59e0b" else "#3b82f6") in
    let ecg_msg := if has_arrhythmia then ArritmiaDetectada else RitmoNormal in
    let imu_msg := if has_fatigue then FatigaDetectada else MovimientoFluido in
    Some (SensorCharts fig_ecg fig_imu ecg_msg imu_msg)).

Definition update_sensor_charts (n : nat) (is_open : bool) (f : StreamFile)
  : SensorOutput :=
  if negb is_open || negb (path_exists f) then SensorWaiting
  else match sensor_try f with
       | Some out => out
       | None => SensorError
       end.

End App.

(** ** sensors.py: BPM from R-R intervals *)

Module Sensors.

(** A numpy float: a finite value, an infinity or [nan].  Signed zeros
    are not told apart. *)
Inductive npfloat :=
| Finite (q : Q)
| PosInf
| NegInf
| NaN.

Definition total (xs : list Q) : Q := fold_left Qplus xs 0%Q.

(** Sum over count, for a non-empty list. *)
Definition average (xs : list Q) : Q :=
  (total xs / inject_Z (Z.of_nat (length xs)))%Q.

(** [np.mean]: [nan] (with a warning, no exception) on an empty array. *)
Definition np_mean (xs : list Q) : npfloat :=
  match xs with
  | [] => NaN
  | _ :: _ => Finite (average xs)
  end.

(** [a / b] for a Python number [a] and a numpy float [b]: a division by
    zero gives an infinity or [nan] with a warning, never an exception. *)
Definition np_rdiv (a : Q) (b : npfloat) : npfloat :=
  match b with
  | Finite q =>
      if Qeq_bool q 0 then
        match Qcompare a 0 with
        | Gt => PosInf
        | Lt => NegInf
        | Eq => NaN
        end
      else Finite (a / q)
  | PosInf | NegInf => Finite 0
  | NaN => NaN
  end.

Definition calculate_bpm (rr_intervals : list Q) : npfloat :=
  if 0 <? length rr_intervals
  then np_rdiv 60 (np_mean rr_intervals)
  else Finite 0.

(** [np.diff] *)
Fixpoint np_diff (xs : list Q) : list Q :=
  match xs with
  | a :: (b :: _) as rest => (b - a)%Q :: np_diff rest
  | _ => []
  end.

(** [t[peaks]]: [None] is the [IndexError] of an index out of bounds. *)
Fixpoint take (t : list Q) (peaks : list nat) : option (list Q) :=
  match peaks with
  | [] => Some []
  | i :: rest =>
      bind (nth_error t i) (fun x =>
      bind (take t rest) (fun xs => Some (x :: xs)))
  end.

(** [ecg - np.mean(ecg)]; on an empty array the result is empty. *)
Definition center (ecg : list Q) : list Q :=
  match np_mean ecg with
  | Finite m => map (fun x => (x - m)%Q) ecg
  | _ => []
  end.

Section Estimator.

(** [scipy.signal.find_peaks(x, distance, prominence)], first
    component of its result: the indices of the accepted peaks. *)
Variable find_peaks : list Q -> nat -> Q -> list nat.

(** [load_ecg_and_compute_bpm], from the data frame read from
    [filepath], one pair per row for the columns ["Time"] and
    ["ECG"]. *)
Definition load_ecg_and_compute_bpm (df : list (Q * Q))
  : option (list Q * list Q * npfloat) :=
  let t := map fst df in
  let ecg := map snd df in
  let ecg := center ecg in
  let peaks := find_peaks ecg 50 0.5%Q in
  bind (take t peaks) (fun t_peaks =>
  let rr_intervals := np_diff t_peaks in
  let bpm := calculate_bpm rr_intervals in
  Some (t, ecg, bpm)).

End Estimator.

(** A plain detector of strict local maxima, ignoring [distance] and
    [prominence]; it stands in for scipy's in the examples. *)
Fixpoint local_maxima_from (i : nat) (xs : list Q) : list nat :=
  match xs with
  | a :: ((b :: c :: _) as rest) =>
      if Qlt_le_dec a b
      then (if Qlt_le_dec c b then S i :: local_maxima_from (S i) rest
            else local_maxima_from (S i) rest)
      else local_maxima_from (S i) rest
  | _ => []
  end.

Definition local_maxima (x : list Q) (distance : nat) (prominence : Q)
  : list nat :=
  local_maxima_from 0 x.

End Sensors.

(** Which outputs of the readers show the arrhythmia flag. *)
Definition dashboard_reports_arrhythmia (o : App.DashboardOutput) : bool :=
  match o with
  | App.DashUpdate fig _ =>
      match App.dash_title fig with
      | App.AlertaArritmiaDetectada => true
      | App.RitmoCardiacoNormal => false
      end
  | App.DashNoUpdate => false
  end.

Definition is_arrhythmia_alert (a : App.Alert) : bool :=
  match a with
  | App.AlertaCriticaArritmia _ => true
  | App.AvisoFatiga => false
  end.

Definition monitor_reports_arrhythmia (o : App.MonitorOutput) : bool :=
  match o with
  | App.MonitorUpdate alerts _ => existsb is_arrhythmia_alert alerts
  | App.MonitorNoUpdate => false
  end.

Definition sensor_reports_arrhythmia (o : App.SensorOutput) : bool :=
  match o with
  | App.SensorCharts _ _ App.ArritmiaDetectada _ => true
  | _ => false
  end.

(** The other phase. *)
Definition toggle (phase : string) : string :=
  if (phase =? "extension")%string then "flexion" else "extension".

(** The stream file that holds the header and the given rows. *)
Definition stream_of_rows (rows : list Sample) : StreamFile :=
  Some (HeaderLine :: map RowLine rows).

(** Consecutive values increase. *)
Definition increasing (xs : list Q) : Prop :=
  forall i a b, nth_error xs i = Some a -> nth_error xs (S i) = Some b ->
                (a < b)%Q.

(** Which outputs of the readers show the fatigue flag. *)
Definition is_fatigue_alert (a : App.Alert) : bool :=
  match a with
  | App.AvisoFatiga => true
  | App.AlertaCriticaArritmia _ => false
  end.

Definition monitor_reports_fatigue (o : App.MonitorOutput) : bool :=
  match o with
  | App.MonitorUpdate alerts _ => existsb is_fatigue_alert alerts
  | App.MonitorNoUpdate => false
  end.

Definition sensor_reports_fatigue (o : App.SensorOutput) : bool :=
  match o with
  | App.SensorCharts _ _ _ App.FatigaDetectada => true
  | _ => false
  end.

(** ** sensors.py and utils.py: scores, risk and recommendations *)

(** A questionnaire entry of the patient history, as far as these functions
    read it: the four numeric answers, each possibly missing from the
    dictionary. *)
Record Questionnaire := mkQuestionnaire {
  q_pain : option Q;
  q_mobility : option Q;
  q_fatigue : option Q;
  q_sleep : option Q
}.

(** [patient_data]: a dictionary whose key ['questionnaires'] may be
    missing; the argument itself may be [None]. *)
Record PatientData := mkPatientData {
  questionnaires : option (list Questionnaire)
}.

(** [not patient_data or not patient_data.get('questionnaires')] *)
Definition no_questionnaires (patient_data : option PatientData) : bool :=
  match patient_data with
  | None => true
  | Some d =>
      match questionnaires d with
      | None | Some [] => true
      | Some (_ :: _) => false
      end
  end.

(** [patient_data['questionnaires']] once the test above has passed. *)
Definition history (patient_data : option PatientData) : list Questionnaire :=
  match patient_data with
  | Some d =>
      match questionnaires d with
      | Some qs => qs
      | None => []
      end
  | None => []
  end.

(** [d.get(key, 5)] *)
Definition get_or_5 (v : option Q) : Q :=
  match v with
  | Some x => x
  | None => 5
  end.

(** [[q[key] for q in qs]]: [None] is the [KeyError] of a missing key. *)
Fixpoint column (key : Questionnaire -> option Q) (qs : list Questionnaire)
  : option (list Q) :=
  match qs with
  | [] => Some []
  | q :: rest =>
      bind (key q) (fun x =>
      bind (column key rest) (fun xs => Some (x :: xs)))
  end.

(** Python's [max(a, b)] and [min(a, b)] on two numbers. *)
Definition max2 (a b : Q) : Q := if Qlt_le_dec a b then b else a.
Definition min2 (a b : Q) : Q := if Qlt_le_dec b a then b else a.

Record Factors := mkFactors {
  factor_pain : Q;
  factor_mobility : Q;
  factor_fatigue : Q;
  factor_sleep : Q
}.

(** The dictionary returned by [calculate_rehabilitation_score]; the
    results without data have no ["color"] and empty ["factors"]. *)
Record ScoreResult := mkScoreResult {
  score : Q;
  level : string;
  color : option string;
  factors : option Factors
}.

(** The weighted total, before rounding and classification. *)
Definition total_score (avg_pain avg_mobility avg_fatigue avg_sleep : Q) : Q :=
  (let pain_score := max2 0 (100 - (avg_pain * 10)) in
   let mobility_score := avg_mobility * 10 in
   let fatigue_score := max2 0 (100 - (avg_fatigue * 10)) in
   let sleep_score := 100 - Qabs (8 - avg_sleep) * 12.5 in
   let sleep_score := max2 0 (min2 100 sleep_score) in
   pain_score * 0.3 + mobility_score * 0.35 + fatigue_score * 0.2
   + sleep_score * 0.15)%Q.

(** The [if]/[elif] chain on [total_score]: level and colour. *)
Definition classify (total : Q) : string * string :=
  if Qle_bool 80 total then ("Excelente progreso", "#2ebf7f")
  else if Qle_bool 60 total then ("Buen progreso", "#10b981")
  else if Qle_bool 40 total then ("Progreso moderado", "#f59e0b")
  else if Qle_bool 20 total then ("Progreso lento", "#ef4444")
  else ("Requiere atención", "#dc2626").

(** An exercise of [generate_exercise_recommendations]. *)
Record Exercise := mkExercise {
  ex_name : string;
  ex_reps : string;
  ex_intensity : string;
  ex_notes : string
}.

Definition advanced_exercises : list Exercise :=
  [mkExercise "Sentadillas asistidas" "3 × 15" "Moderada"
     "Excelente progreso. Aumentar carga gradualmente.";
   mkExercise "Estocadas controladas" "3 × 10 por pierna" "Moderada-Alta"
     "Mantener alineación de rodilla sobre tobillo.";
   mkExercise "Extensiones de rodilla con resistencia" "3 × 12" "Moderada"
     "Usar banda elástica o peso ligero."].

Definition intermediate_exercises : list Exercise :=
  [mkExercise "Puente de glúteos" "3 × 12" "Baja-Moderada"
     "Fortalecer cadena posterior sin impacto.";
   mkExercise "Flexión de rodilla pasiva" "2 × 15" "Baja"
     "Mejorar rango de movimiento.";
   mkExercise "Elevación de pierna recta" "3 × 10" "Baja"
     "Activación de cuádriceps."].

Definition gentle_exercises : list Exercise :=
  [mkExercise "Movilizaciones pasivas" "2 × 10 minutos" "Muy Baja"
     "Reducir rigidez sin dolor.";
   mkExercise "Isométricos de cuádriceps" "10 × 10 segundos" "Muy Baja"
     "Contracciones sin movimiento.";
   mkExercise "Crioterapia" "3 × 15 minutos" "N/A"
     "Reducir inflamación y dolor."].

(** The three branches on the latest pain and mobility. *)
Definition exercises_for (pain mobility : Q) : list Exercise :=
  if Qle_bool pain 3 && Qle_bool 7 mobility then advanced_exercises
  else if Qle_bool pain 5 && Qle_bool 5 mobility then intermediate_exercises
  else gentle_exercises.

(** The dictionary returned by [get_risk_level]; ["recommendations"] is
    missing from the result without data in sensors.py. *)
Record RiskResult := mkRiskResult {
  risk_level : string;
  risk_message : string;
  risk_color : string;
  risk_recommendations : option (list string)
}.

(** The three branches of [get_risk_level]; [high_message] is the text of
    the first one, which the two files spell differently. *)
Definition risk_for (high_message : string) (pain mobility fatigue : Q)
  : RiskResult :=
  if Qle_bool 8 pain || Qle_bool mobility 2 then
    mkRiskResult "high" high_message "#dc2626"
      (Some ["Contactar al fisioterapeuta urgentemente";
             "Reducir actividad física";
             "Aplicar protocolos de manejo del dolor"])
  else if Qle_bool 6 pain || Qle_bool mobility 4 || Qle_bool 8 fatigue then
    mkRiskResult "medium" "⚡ Riesgo moderado - Monitoreo cercano" "#f59e0b"
      (Some ["Ajustar intensidad de ejercicios";
             "Aumentar frecuencia de evaluaciones";
             "Considerar terapias complementarias"])
  else
    mkRiskResult "low" "✅ Progreso normal - Continuar plan" "#2ebf7f"
      (Some ["Mantener rutina actual";
             "Progresar gradualmente";
             "Seguir indicaciones del fisioterapeuta"]).

Section Scores.

(** Python's [round(x, 1)]. *)
Variable round1 : Q -> Q.

(** What both versions of [calculate_rehabilitation_score] return once the
    four means are known. *)
Definition score_result (avg_pain avg_mobility avg_fatigue avg_sleep : Q)
  : ScoreResult :=
  let total := total_score avg_pain avg_mobility avg_fatigue avg_sleep in
  let '(level, color) := classify total in
  mkScoreResult (round1 total) level (Some color)
    (Some (mkFactors (round1 avg_pain) (round1 avg_mobility)
                     (round1 avg_fatigue) (round1 avg_sleep))).

(** The four means of the try block: [None] is a [KeyError]. *)
Definition means (recent_questionnaires : list Questionnaire)
  : option (Q * Q * Q * Q) :=
  bind (column q_pain recent_questionnaires) (fun pains =>
  bind (column q_mobility recent_questionnaires) (fun mobilities =>
  bind (column q_fatigue recent_questionnaires) (fun fatigues =>
  bind (column q_sleep recent_questionnaires) (fun sleeps =>
  Some (Sensors.average pains, Sensors.average mobilities,
        Sensors.average fatigues, Sensors.average sleeps))))).

End Scores.

(** The second half of sensors.py: a missing answer raises. *)
Module SensorsScores.

(** [None] is the [KeyError] that leaves the function. *)
Definition calculate_rehabilitation_score (round1 : Q -> Q)
           (patient_data : option PatientData) : option ScoreResult :=
  if no_questionnaires patient_data
  then Some (mkScoreResult 0 "Sin datos" None None)
  else
    let recent_questionnaires := firstn 5 (history patient_data) in
    bind (means recent_questionnaires) (fun '(p, m, f, s) =>
    Some (score_result round1 p m f s)).

Definition generate_exercise_recommendations
           (patient_data : option PatientData) : option (list Exercise) :=
  if no_questionnaires patient_data then Some []
  else
    match history patient_data with
    | [] => None
    | latest :: _ =>
        bind (q_pain latest) (fun pain =>
        bind (q_mobility latest) (fun mobility =>
        Some (exercises_for pain mobility)))
    end.

Definition get_risk_level (patient_data : option PatientData)
  : option RiskResult :=
  if no_questionnaires patient_data
  then Some (mkRiskResult "unknown" "Sin datos suficientes" "#6b7280" None)
  else
    match history patient_data with
    | [] => None
    | latest :: _ =>
        bind (q_pain latest) (fun pain =>
        bind (q_mobility latest) (fun mobility =>
        bind (q_fatigue latest) (fun fatigue =>
        Some (risk_for "⚠ Riesgo alto - Requiere atención inmediata"
                pain mobility fatigue))))
    end.

End SensorsScores.

(** utils.py: the same functions, with a handler and defaults. *)
Module Utils.

Definition calculate_rehabilitation_score (round1 : Q -> Q)
           (patient_data : option PatientData) : ScoreResult :=
  if no_questionnaires patient_data
  then mkScoreResult 0 "Sin datos" None None
  else
    let recent_questionnaires := firstn 5 (history patient_data) in
    match means recent_questionnaires with
    | Some (p, m, f, s) => score_result round1 p m f s
    | None => mkScoreResult 0 "Error en datos" None None
    end.

Definition generate_exercise_recommendations
           (patient_data : option PatientData) : list Exercise :=
  if no_questionnaires patient_data then []
  else
    match history patient_data with
    | [] => []
    | latest :: _ =>
        let pain := get_or_5 (q_pain latest) in
        let mobility := get_or_5 (q_mobility latest) in
        exercises_for pain mobility
    end.

Definition get_risk_level (patient_data : option PatientData) : RiskResult :=
  if no_questionnaires patient_data
  then mkRiskResult "unknown" "Sin datos suficientes" "#6b7280" (Some [])
  else
    match history patient_data with
    | [] => mkRiskResult "unknown" "Sin datos suficientes" "#6b7280" (Some [])
    | latest :: _ =>
        let pain := get_or_5 (q_pain latest) in
        let mobility := get_or_5 (q_mobility latest) in
        let fatigue := get_or_5 (q_fatigue latest) in
        risk_for "⚠️ Riesgo alto - Requiere atención inmediata"
          pain mobility fatigue
    end.

End Utils.

(** Rank of a risk level, for comparisons. *)
Definition risk_rank (r : RiskResult) : nat :=
  if (risk_level r =? "high")%string then 2
  else if (risk_level r =? "medium")%string then 1
  else 0.

(** ** app.py: the store of users, patients and appointments *)

Module Db.

(** A Python dictionary with string keys: its items in insertion order,
    the keys distinct. *)
Definition Dict (V : Type) := list (string * V).

(** [d.get(k)] *)
Fixpoint get {V} (d : Dict V) (k : string) : option V :=
  match d with
  | [] => None
  | (k', v) :: rest => if (k' =? k)%string then Some v else get rest k
  end.

(** [d[k] = v]: in place for a known key, at the end for a new one. *)
Fixpoint set {V} (d : Dict V) (k : string) (v : V) : Dict V :=
  match d with
  | [] => [(k, v)]
  | (k', v') :: rest =>
      if (k' =? k)%string then (k', v) :: rest else (k', v') :: set rest k v
  end.

(** [del d[k]] *)
Definition del {V} (d : Dict V) (k : string) : Dict V :=
  filter (fun item => negb (fst item =? k)%string) d.

(** [d.update(new)] *)
Definition update {V} (d new : Dict V) : Dict V :=
  fold_left (fun acc item => set acc (fst item) (snd item)) new d.

(** [str(n)] *)
Definition str (n : nat) : string :=
  DecimalString.NilZero.string_of_uint (Nat.to_uint n).

(** A user as [add_user] stores it; ['profile'] is added later by
    [save_user_profile]. *)
Record User := mkUser {
  password : string;
  role : string;
  full_name : string;
  member_since : string;
  profile : option (Dict string)
}.

(** An entry of [_PATIENT_INFO_DB] as [add_patient] writes it; [None] is
    Python's [None]. *)
Record PatientInfo := mkPatientInfo {
  diagnosis : string;
  doctor_user : option string;
  physio_user : option string;
  info_full_name : option string
}.

(** An appointment: a dictionary of texts. *)
Definition Appointment := Dict string.

(** An item of the list offered to a doctor for association. *)
Record Candidate := mkCandidate {
  cand_username : string;
  cand_full_name : string;
  is_unassigned : bool
}.

Section Store.

(** The entries of the questionnaire and exercise histories, which the
    methods below store without reading. *)
Variable Entry : Type.

(** The five global stores. *)
Record DB := mkDB {
  users : Dict User;
  appointments : list Appointment;
  patient_info : Dict PatientInfo;
  questionnaire_history : Dict (list Entry);
  exercise_history : Dict (list Entry)
}.

(** Memory and disk: [disk] is what [DB_FILE] holds, [None] before the
    first write; [writable] tells whether opening it for writing
    succeeds. *)
Record World := mkWorld {
  db : DB;
  disk : option DB;
  writable : bool
}.

Definition with_db (w : World) (d : DB) : World :=
  mkWorld d (disk w) (writable w).

(** [save_data]: a failure to write is caught and printed. *)
Definition save_data (w : World) : World :=
  if writable w then mkWorld (db w) (Some (db w)) (writable w) else w.

(** [add_user]; [now] is [datetime.now().isoformat()]. *)
Definition add_user (w : World) (username password role full_name now : string)
           (initial_save : bool) : World :=
  match get (users (db w)) username with
  | Some _ => w
  | None =>
      let d := db w in
      let w' :=
        with_db w
          (mkDB (set (users d) username
                     (mkUser password role full_name now None))
                (appointments d) (patient_info d)
                (questionnaire_history d) (exercise_history d)) in
      if initial_save then save_data w' else w'
  end.

Definition authenticate_user (w : World) (username password : string)
  : option User :=
  match get (users (db w)) username with
  | Some user =>
      if (Db.password user =? password)%string then Some user else None
  | None => None
  end.

Definition add_patient (w : World) (username diagnosis : string)
           (doctor_user physio_user : option string) (initial_save : bool)
  : World :=
  let d := db w in
  let current_info :=
    mkPatientInfo diagnosis doctor_user physio_user
      (option_map Db.full_name (get (users d) username)) in
  let w' :=
    with_db w
      (mkDB (users d) (appointments d)
            (set (patient_info d) username current_info)
            (questionnaire_history d) (exercise_history d)) in
  if initial_save then save_data w' else w'.

Definition disassociate_patient (w : World) (patient_username : string)
  : World * bool :=
  match get (patient_info (db w)) patient_username with
  | Some _ =>
      let d := db w in
      (save_data
         (with_db w
            (mkDB (users d) (appointments d)
                  (del (patient_info d) patient_username)
                  (questionnaire_history d) (exercise_history d))),
       true)
  | None => (w, false)
  end.

(** [patient_info.get('doctor_user') == doctor_username] *)
Definition is_doctor_of (doctor_username : string) (info : PatientInfo) : bool :=
  match Db.doctor_user info with
  | Some d => (d =? doctor_username)%string
  | None => false
  end.

Definition get_unassigned_patients_or_unassigned_to_doctor
           (w : World) (doctor_username : string) : list Candidate :=
  flat_map
    (fun item =>
       let '(user_name, user_data) := item in
       if (Db.role user_data =? "paciente")%string then
         let patient_info := get (patient_info (db w)) user_name in
         match patient_info with
         | None =>
             [mkCandidate user_name (Db.full_name user_data) true]
         | Some info =>
             match Db.doctor_user info with
             | None =>
                 [mkCandidate user_name (Db.full_name user_data) true]
             | Some d =>
                 if negb (d =? doctor_username)%string
                 then [mkCandidate user_name (Db.full_name user_data) false]
                 else []
             end
         end
       else [])
    (users (db w)).

Definition get_all_patients_for_doctor (w : World) (doctor_username : string)
  : list (string * option string) :=
  let assigned_patients :=
    map (fun item => (fst item, info_full_name (snd item)))
        (filter (fun item => is_doctor_of doctor_username (snd item))
                (patient_info (db w))) in
  match assigned_patients with
  | [] =>
      if (doctor_username =? "dr.garcia")%string
      then [("paciente.torn", Some "Torn Benson")]
      else assigned_patients
  | _ :: _ => assigned_patients
  end.

Definition with_appointments (w : World) (apps : list Appointment) : World :=
  let d := db w in
  with_db w
    (mkDB (users d) apps (patient_info d)
          (questionnaire_history d) (exercise_history d)).

Definition schedule_appointment (w : World) (data : Appointment) : World :=
  let apps := appointments (db w) in
  let data := set data "id" (String.append "appt-" (str (length apps + 1))) in
  let data :=
    set data "status"
        (match get data "status" with
         | Some s => s
         | None => "scheduled"
         end) in
  save_data (with_appointments w (apps ++ [data])).

(** The loop of [update_appointment]: [None] is the [KeyError] of an
    appointment without ['id'] met before a match; [Some None] means that
    no appointment has the id. *)
Fixpoint update_first (apps : list Appointment) (appointment_id : string)
         (updated_data : Dict string) : option (option (list Appointment)) :=
  match apps with
  | [] => Some None
  | appt :: rest =>
      match get appt "id" with
      | None => None
      | Some i =>
          if (i =? appointment_id)%string
          then Some (Some (update appt updated_data :: rest))
          else
            match update_first rest appointment_id updated_data with
            | None => None
            | Some None => Some None
            | Some (Some rest') => Some (Some (appt :: rest'))
            end
      end
  end.

Definition update_appointment (w : World) (appointment_id : string)
           (updated_data : Dict string) : option World :=
  match update_first (appointments (db w)) appointment_id updated_data with
  | None => None
  | Some None => Some w
  | Some (Some apps) => Some (save_data (with_appointments w apps))
  end.

(** The comprehension of [delete_appointment]: [None] is the [KeyError]
    of an appointment without ['id']. *)
Fixpoint without_id (apps : list Appointment) (appointment_id : string)
  : option (list Appointment) :=
  match apps with
  | [] => Some []
  | appt :: rest =>
      match get appt "id" with
      | None => None
      | Some i =>
          match without_id rest appointment_id with
          | None => None
          | Some rest' =>
              if negb (i =? appointment_id)%string
              then Some (appt :: rest') else Some rest'
          end
      end
  end.

Definition delete_appointment (w : World) (appointment_id : string)
  : option (World * bool) :=
  let initial_len := length (appointments (db w)) in
  match without_id (appointments (db w)) appointment_id with
  | None => None
  | Some apps =>
      let w' := with_appointments w apps in
      if length apps <? initial_len
      then Some (save_data w', true)
      else Some (w', false)
  end.

(** The outputs of the [login] callback, by its feedback: the prompt to
    click, the request to fill every field, the rejection, or the
    redirection to ["/"] with the session of this user and role. *)
Inductive LoginOutput :=
| LoginPrompt
| LoginIncomplete
| LoginRejected
| LoginAccepted (user role : string).

(** [not value], for a field that holds [None] or a text. *)
Definition blank (value : option string) : bool :=
  match value with
  | None => true
  | Some s => (s =? "")%string
  end.

(** [login]; [n_clicks] is [None] or a count. *)
Definition login (w : World) (n_clicks : option nat)
           (username password role : option string) : LoginOutput :=
  match n_clicks with
  | None | Some 0 => LoginPrompt
  | Some (S _) =>
      if blank username || blank password || blank role then LoginIncomplete
      else
        match username, password, role with
        | Some u, Some p, Some r =>
            match authenticate_user w u p with
            | None => LoginRejected
            | Some user_data =>
                if negb (Db.role user_data =? r)%string then LoginRejected
                else LoginAccepted u r
            end
        | _, _, _ => LoginIncomplete
        end
  end.

End Store.

Arguments users {Entry}.
Arguments appointments {Entry}.
Arguments patient_info {Entry}.
Arguments db {Entry}.
Arguments disk {Entry}.
Arguments writable {Entry}.
Arguments save_data {Entry}.
Arguments add_user {Entry}.
Arguments authenticate_user {Entry}.
Arguments add_patient {Entry}.
Arguments disassociate_patient {Entry}.
Arguments get_unassigned_patients_or_unassigned_to_doctor {Entry}.
Arguments get_all_patients_for_doctor {Entry}.
Arguments schedule_appointment {Entry}.
Arguments update_appointment {Entry}.
Arguments delete_appointment {Entry}.
Arguments login {Entry}.
Arguments with_appointments {Entry}.

(** The ids of the stored appointments, in order. *)
Definition ids (apps : list Appointment) : list (option string) :=
  map (fun appt => get appt "id") apps.

(** [appt.get('id') == appointment_id] *)
Definition has_id (appointment_id : string) (appt : Appointment) : bool :=
  match get appt "id" with
  | Some i => (i =? appointment_id)%string
  | None => false
  end.

(** Every appointment has the key ['id'], as [schedule_appointment]
    ensures for those it stores. *)
Definition all_have_id (apps : list Appointment) : Prop :=
  Forall (fun appt => get appt "id" <> None) apps.

(** Scheduling several appointments in turn. *)
Definition schedule_all {Entry} (w : World Entry) (datas : list Appointment)
  : World Entry :=
  fold_left schedule_appointment datas w.

(** The usernames [get_all_patients_for_doctor] finds in the store, before
    its fallback for ["dr.garcia"]. *)
Definition assigned_to {Entry} (w : World Entry) (doctor_username : string)
  : list string :=
  map fst (filter (fun item => is_doctor_of doctor_username (snd item))
                  (patient_info (db w))).

End Db.

(** ** Example transports *)

Module Examples.

(** A row without flags and a row flagged by the ECG generator. *)
Definition calm (ts : string) (v : Q) : Sample :=
  mkSample ts v 45 0.31 9.92 19.5 0.2 (-0.4) NORMAL NORMAL.

Definition arrhythmic (ts : string) (v : Q) : Sample :=
  mkSample ts v 45 0.31 9.92 19.5 0.2 (-0.4) RED_FLAG_ARRHYTHMIA NORMAL.

(** A recording sampled every 0.4 s whose amplitude peaks at 0.4 s, 1.2 s
    and 2.0 s, as (Time, ECG) rows. *)
Definition three_beats : list (Q * Q) :=
  [(0, 0); (0.4, 1); (0.8, 0); (1.2, 1); (1.6, 0); (2.0, 1); (2.4, 0)]%Q.

(** A recording with a single peak. *)
Definition one_beat : list (Q * Q) :=
  [(0, 0); (0.4, 1); (0.8, 0)]%Q.

(** One flagged row only: the file just after the first append. *)
Definition one_flagged_row : list Sample :=
  [arrhythmic "10:15:00.100" 0.6312].

(** A flagged row that is not the most recent one. *)
Definition flag_in_the_middle : list Sample :=
  [calm "10:15:00.100" 0.0213; arrhythmic "10:15:00.200" 0.9731;
   calm "10:15:00.300" (-0.1045)].

(** A flagged row followed by 50, or by 100, rows without flags. *)
Definition fifty_calm : list Sample := repeat (calm "10:15:07.000" 0.25) 50.
Definition hundred_calm : list Sample := repeat (calm "10:15:07.000" 0.25) 100.
Definition old_flag : list Sample := [arrhythmic "10:15:00.100" 0.6312].

(** A complete questionnaire entry, and one without any answer. *)
Definition good_entry : Questionnaire :=
  mkQuestionnaire (Some 2%Q) (Some 8%Q) (Some 3%Q) (Some 7.5%Q).

Definition blank_entry : Questionnaire :=
  mkQuestionnaire None None None None.

(** A small store: a doctor, his patient and a patient without doctor, and
    two appointments; nothing written to disk yet. *)
Definition clinic : Db.World unit :=
  Db.mkWorld unit
    (Db.mkDB unit
       [("dr.garcia",
         Db.mkUser "1234" "medico" "Dr. Ángel García" "2025-01-10T09:00:00" None);
        ("paciente.torn",
         Db.mkUser "1234" "paciente" "Torn Benson" "2025-01-10T09:00:01" None);
        ("paciente.nuevo",
         Db.mkUser "abcd" "paciente" "Paciente Nuevo" "2025-01-10T09:00:02" None)]
       [[("id", "appt-1"); ("patient_username", "paciente.torn");
         ("professional_username", "dr.garcia"); ("status", "scheduled")];
        [("id", "appt-2"); ("patient_username", "paciente.torn");
         ("professional_username", "dr.garcia"); ("status", "confirmed")]]
       [("paciente.torn",
         Db.mkPatientInfo "Rodilla Derecha" (Some "dr.garcia") None
           (Some "Torn Benson"))]
       [] [])
    None true.

(** The data of a new appointment, as the scheduling callback builds it. *)
Definition new_appointment : Db.Appointment :=
  [("patient_username", "paciente.nuevo");
   ("professional_username", "dr.garcia");
   ("datetime", "2025-03-01T10:30:00"); ("status", "scheduled")].

(** A painful entry: pain 9, mobility 6, fatigue 4. *)
Definition painful_entry : Questionnaire :=
  mkQuestionnaire (Some 9%Q) (Some 6%Q) (Some 4%Q) (Some 6%Q).

(** A producer at rest: the clock stands at 0 and every draw is 0; both
    formats print the integer part of what they are given. *)
Definition still_env : Environment :=
  mkEnv (fun _ => mkTick 0 "00:00:00.000" 0 0 0 0 0)
        (fun x => inject_Z (Int_part x))
        (fun x => inject_Z (Int_part x)).

(** A producer whose clock advances by 0.1 s per iteration and stamps
    iteration [i] with the numeral of [i]; every draw is 0. *)
Definition ticking_env : Environment :=
  mkEnv (fun i => mkTick (INR i * 0.1) (Db.str i) 0 0 0 0 0)
        (fun x => inject_Z (Int_part x))
        (fun x => inject_Z (Int_part x)).

End Examples.

(** * Properties *)

(** ** Lists and slices *)

Lemma slice_last_all {A} (n : nat) (xs : list A) :
  length xs <= n -> slice_last n xs = xs.
Proof.
  intros H. unfold slice_last.
  replace (length xs - n) with 0 by lia. reflexivity.
Qed.

Lemma slice_last_length {A} (n : nat) (xs : list A) :
  length (slice_last n xs) = Nat.min (length xs) n.
Proof.
  unfold slice_last. rewrite length_skipn. lia.
Qed.

Lemma slice_last_snoc {A} (n : nat) (xs : list A) (x : A) :
  slice_last (S n) (xs ++ [x]) = slice_last n xs ++ [x].
Proof.
  unfold slice_last. rewrite length_app. simpl.
  replace (length xs + 1 - S n) with (length xs - n) by lia.
  rewrite skipn_app.
  replace (length xs - n - length xs) with 0 by lia.
  reflexivity.
Qed.

Lemma slice_last_slice_last {A} (m n : nat) (xs : list A) :
  m <= n -> slice_last m (slice_last n xs) = slice_last m xs.
Proof.
  intros H. unfold slice_last.
  rewrite length_skipn, skipn_skipn. f_equal. lia.
Qed.

Lemma slice_last_cons {A} (n : nat) (x : A) (xs : list A) :
  n <= length xs -> slice_last n (x :: xs) = slice_last n xs.
Proof.
  intros H. unfold slice_last. simpl length.
  replace (S (length xs) - n) with (S (length xs - n)) by lia.
  reflexivity.
Qed.

Lemma slice_last_map {A B} (g : A -> B) (n : nat) (xs : list A) :
  slice_last n (map g xs) = map g (slice_last n xs).
Proof.
  unfold slice_last. rewrite length_map. apply skipn_map.
Qed.

Lemma produced_S (row : nat -> Sample) (n : nat) :
  produced row (S n) = produced row n ++ [row n].
Proof.
  unfold produced. rewrite seq_S, map_app. reflexivity.
Qed.

Lemma produced_length (row : nat -> Sample) (n : nat) :
  length (produced row n) = n.
Proof.
  unfold produced. rewrite length_map, length_seq. reflexivity.
Qed.

Lemma produced_nth (row : nat -> Sample) (n i : nat) :
  i < n -> nth_error (produced row n) i = Some (row i).
Proof.
  intros H. unfold produced.
  rewrite nth_error_map, nth_error_seq.
  destruct (Nat.ltb_spec i n); [reflexivity | lia].
Qed.

Lemma rows_of_lines_rows (rows : list Sample) :
  rows_of_lines (map RowLine rows) = Some rows.
Proof.
  induction rows as [|s rows IH]; simpl.
  - reflexivity.
  - rewrite IH. reflexivity.
Qed.

Lemma read_csv_rows (rows : list Sample) :
  read_csv (Some (HeaderLine :: map RowLine rows)) = Some rows.
Proof. apply rows_of_lines_rows. Qed.

(** ** The sliding window of simulator.py *)

(** One rewrite of a well-formed file of at most 250 rows keeps the header
    and the last 249 rows when there are 250, all of them otherwise, and
    adds the new row. *)
Lemma rewrite_window_rows (rows : list Sample) (s : Sample) :
  length rows <= Simulator.MAX_SAMPLES ->
  Simulator.rewrite_window (Some (HeaderLine :: map RowLine rows)) s =
  Some (Some (HeaderLine ::
              map RowLine (slice_last Simulator.MAX_SAMPLES (rows ++ [s])))).
Proof.
  intros Hlen. unfold Simulator.rewrite_window.
  do 3 f_equal.
  change Simulator.MAX_SAMPLES with 250 in *.
  replace 250 with (S 249) at 3 by reflexivity.
  rewrite slice_last_snoc, map_app. simpl map. f_equal.
  simpl length. rewrite length_map.
  destruct (Nat.ltb_spec 250 (S (length rows))) as [Hfull | Hroom].
  - simpl Nat.sub. rewrite slice_last_cons by (rewrite length_map; lia).
    apply slice_last_map.
  - simpl tl. rewrite slice_last_all by lia. reflexivity.
Qed.

(** At the default 75 beats per minute the ECG generator returns, so every
    iteration has its sample. *)
Lemma simulator_ecg_at_75 (t noise : R) :
  Simulator.generate_ecg_sample t 75 noise
  = Some (Simulator.ecg_sample (75 / 60) t noise).
Proof.
  unfold Simulator.generate_ecg_sample. cbv zeta.
  destruct (Req_dec_T (75 / 60) 0) as [E | _]; [exfalso; lra | reflexivity].
Qed.

Lemma simulator_sample_row (env : Environment) (i : nat) :
  Simulator.sample env i = Some (Simulator.row env i).
Proof.
  unfold Simulator.sample, Simulator.row. cbv zeta.
  rewrite simulator_ecg_at_75. reflexivity.
Qed.

(** The loop invariant: after [n] iterations the file is the header
    followed by the last 250 rows produced, and [sample_count] is [n]. *)
Lemma run_simulator_state (env : Environment) (n : nat) (f : StreamFile) :
  Simulator.run_simulator env n f =
  Some (mkProducer
          (Some (HeaderLine ::
                 map RowLine (slice_last Simulator.MAX_SAMPLES
                                (produced (Simulator.row env) n))))
          n).
Proof.
  unfold Simulator.run_simulator.
  induction n as [|n IH].
  - reflexivity.
  - simpl iterate. rewrite IH. simpl bind.
    unfold Simulator.loop_body. simpl stream. simpl sample_count.
    rewrite simulator_sample_row. cbn [bind].
    rewrite rewrite_window_rows.
    + simpl bind. do 4 f_equal.
      rewrite produced_S.
      change Simulator.MAX_SAMPLES with (S 249).
      rewrite !slice_last_snoc.
      rewrite slice_last_slice_last by lia. reflexivity.
    + rewrite slice_last_length. lia.
Qed.

(** After 260 rows the window starts at the row of index 10. *)
Lemma window_260_head (row : nat -> Sample) :
  hd_error (slice_last 250 (produced row 260)) = Some (row 10).
Proof.
  unfold slice_last. rewrite produced_length.
  change (260 - 250) with 10.
  rewrite <- (produced_nth row 260 10) by lia.
  generalize (produced row 260). intros l.
  rewrite <- (Nat.add_0_r 10) at 2. rewrite <- nth_error_skipn.
  destruct (skipn 10 l); reflexivity.
Qed.

(** ** The producer embedded in app.py *)

(** In app.py the heart rate follows the clock between 65 and 85 beats per
    minute, so the ECG generator returns at every iteration. *)
Lemma app_base_bpm_range (t : R) : (65 <= App.base_bpm t <= 85)%R.
Proof.
  unfold App.base_bpm. pose proof (SIN_bound (0.1 * t)). lra.
Qed.

Lemma app_ecg_at (t base_bpm noise : R) :
  base_bpm <> 0%R ->
  App.generate_ecg_sample t base_bpm noise
  = Some (App.ecg_sample (base_bpm / 60) t noise).
Proof.
  intros H. unfold App.generate_ecg_sample. cbv zeta.
  destruct (Req_dec_T (base_bpm / 60) 0) as [E | _];
    [exfalso; lra | reflexivity].
Qed.

Lemma app_sample_row (env : Environment) (i : nat) :
  App.sample env i = Some (App.row env i).
Proof.
  unfold App.sample, App.row. cbv zeta.
  rewrite app_ecg_at; [reflexivity|].
  pose proof (app_base_bpm_range (current_time (tick env i))). lra.
Qed.

(** app.py's own producer only appends: after [n] iterations the file holds
    the header and all [n] rows. *)
Lemma app_run_simulator_state (env : Environment) (n : nat) (f : StreamFile) :
  App.run_simulator env n f =
  Some (mkProducer
          (Some (HeaderLine :: map RowLine (produced (App.row env) n))) n).
Proof.
  unfold App.run_simulator.
  induction n as [|n IH].
  - reflexivity.
  - simpl iterate. rewrite IH. simpl bind.
    unfold App.loop_body. simpl stream. simpl sample_count.
    rewrite app_sample_row. cbn [bind].
    rewrite produced_S, map_app. reflexivity.
Qed.

(** C1, as the code has it. After [N] iterations of [run_simulator] of
    simulator.py, started on any file system, the rows read back from the
    stream file are the last 250 rows written: there are 250 of them when
    [N >= 250] and [N] when [N < 250]; after 260 iterations there are 250
    and the first is the 11th row written, with the timestamp of the 11th
    iteration.  The producer embedded in app.py has no capacity: after [N]
    iterations its file holds all [N] rows, the first one written still
    the first, and it is its readers that take the last 50 or 100. *)
Theorem window_holds_last_250_samples :
  forall (env : Environment) (N : nat) (f : StreamFile),
  (exists (st : ProducerState) (window : list Sample),
    Simulator.run_simulator env N f = Some st /\
    read_csv (stream st) = Some window /\
    window = slice_last Simulator.MAX_SAMPLES (produced (Simulator.row env) N) /\
    (Simulator.MAX_SAMPLES <= N -> length window = Simulator.MAX_SAMPLES) /\
    (N < Simulator.MAX_SAMPLES -> length window = N) /\
    (N = 260 ->
     length window = 250 /\
     hd_error window = Some (Simulator.row env 10) /\
     option_map timestamp (hd_error window) = Some (now (tick env 10)))) /\
  (exists (st : ProducerState) (rows : list Sample),
    App.run_simulator env N f = Some st /\
    read_csv (stream st) = Some rows /\
    rows = produced (App.row env) N /\
    length rows = N /\
    (0 < N ->
     hd_error rows = Some (App.row env 0) /\
     option_map timestamp (hd_error rows) = Some (now (tick env 0))) /\
    length (tail 50 rows) = Nat.min N 50 /\
    length (tail 100 rows) = Nat.min N 100).
Proof.
  intros env N f. split.
  - eexists; eexists.
    split; [apply run_simulator_state|].
    split; [apply read_csv_rows|].
    split; [reflexivity|].
    change Simulator.MAX_SAMPLES with 250.
    repeat split.
    + intros H. rewrite slice_last_length, produced_length. lia.
    + intros H. rewrite slice_last_length, produced_length. lia.
    + subst N. rewrite slice_last_length, produced_length. reflexivity.
    + subst N. apply window_260_head.
    + subst N. rewrite window_260_head. reflexivity.
  - eexists; eexists.
    split; [apply app_run_simulator_state|].
    split; [apply read_csv_rows|].
    split; [reflexivity|].
    split; [apply produced_length|].
    split.
    + intros HN. destruct N as [|N]; [lia|].
      unfold produced. cbn [seq map hd_error option_map]. split; reflexivity.
    + unfold tail. rewrite !slice_last_length, produced_length. split; lia.
Qed.

(** C1, as the claim states it, fails for the producer of app.py: after 260
    iterations its file holds 260 rows, not 250, and the first is the first
    row written. *)
Lemma app_transport_is_not_truncated :
  exists (st : ProducerState) (rows : list Sample),
    App.run_simulator Examples.ticking_env 260 None = Some st /\
    read_csv (stream st) = Some rows /\
    length rows = 260 /\
    length rows <> 250 /\
    hd_error rows = Some (App.row Examples.ticking_env 0) /\
    option_map timestamp (hd_error rows) = Some "0" /\
    timestamp (App.row Examples.ticking_env 10) = "10".
Proof.
  eexists; eexists.
  split; [apply app_run_simulator_state|].
  split; [apply read_csv_rows|].
  rewrite produced_length.
  split; [reflexivity|]. split; [discriminate|].
  repeat split.
Qed.

(** ** Exercise phase *)

Lemma mod2_even (k : nat) : (k mod 2 =? 0) = Nat.even k.
Proof.
  destruct (Nat.even k) eqn:E.
  - apply Nat.even_spec in E. destruct E as [m ->].
    rewrite Nat.mul_comm, Nat.Div0.mod_mul. reflexivity.
  - assert (O : Nat.odd k = true) by (unfold Nat.odd; rewrite E; reflexivity).
    apply Nat.odd_spec in O. destruct O as [m ->].
    rewrite Nat.add_comm, Nat.mul_comm, Nat.Div0.mod_add. reflexivity.
Qed.

Lemma even_div_next_period (c M : nat) :
  M <> 0 -> Nat.even ((c + M) / M) = negb (Nat.even (c / M)).
Proof.
  intros HM.
  replace (c + M) with (c + 1 * M) by lia.
  rewrite Nat.div_add by exact HM.
  rewrite Nat.add_1_r, Nat.even_succ. unfold Nat.odd. reflexivity.
Qed.

Lemma simulator_phase_formula (c : nat) :
  Simulator.exercise_phase c
  = if Nat.even (c / 100) then "extension" else "flexion".
Proof.
  unfold Simulator.exercise_phase. rewrite mod2_even. reflexivity.
Qed.

Lemma app_phase_formula (c : nat) :
  App.exercise_phase c
  = if Nat.even (c / 20) then "extension" else "flexion".
Proof.
  unfold App.exercise_phase. rewrite mod2_even. reflexivity.
Qed.

(** One more iteration is the loop body on the state reached. *)
Lemma simulator_next_iteration (env : Environment) (c : nat) (f : StreamFile)
      (st : ProducerState) :
  Simulator.run_simulator env c f = Some st ->
  Simulator.loop_body env st = Simulator.run_simulator env (S c) f.
Proof.
  unfold Simulator.run_simulator. cbn [iterate]. intros ->. reflexivity.
Qed.

Lemma app_next_iteration (env : Environment) (c : nat) (f : StreamFile)
      (st : ProducerState) :
  App.run_simulator env c f = Some st ->
  App.loop_body env st = App.run_simulator env (S c) f.
Proof.
  unfold App.run_simulator. cbn [iterate]. intros ->. reflexivity.
Qed.

(** C7. The exercise phase is computed from the running sample count only:
    it is "extension" when [c / M] is even and "flexion" when it is odd,
    with [M = 100] in simulator.py and [M = 20] in app.py, so it toggles
    every [M] samples.  In both producers the count after [c] iterations
    is [c], whatever the clock, the draws and the initial file are, and
    the next iteration calls [generate_imu_sample] with the phase of [c]
    and writes the row made of what it returns; the count is then
    [c + 1]. *)
Theorem exercise_phase_depends_on_sample_count_only :
  forall (env : Environment) (c : nat) (f : StreamFile),
    Simulator.exercise_phase c
      = (if Nat.even (c / 100) then "extension" else "flexion") /\
    App.exercise_phase c
      = (if Nat.even (c / 20) then "extension" else "flexion") /\
    Simulator.exercise_phase (c + 100) = toggle (Simulator.exercise_phase c) /\
    App.exercise_phase (c + 20) = toggle (App.exercise_phase c) /\
    (let k := tick env c in
     exists (st st' : ProducerState) (ecg_status : R * string)
            (older : list Sample),
       Simulator.run_simulator env c f = Some st /\
       sample_count st = c /\
       Simulator.generate_ecg_sample (current_time k) 75 (draw_noise k)
         = Some ecg_status /\
       Simulator.loop_body env st = Some st' /\
       sample_count st' = S c /\
       read_csv (stream st')
         = Some (older ++
                 [Simulator.writerow env c ecg_status
                    (Simulator.generate_imu_sample (current_time k)
                       (if Nat.even (c / 100) then "extension" else "flexion")
                       (draw_accel_y k) (draw_accel_z k))])) /\
    (let k := tick env c in
     exists (st st' : ProducerState) (ecg_status : R * string)
            (older : list Sample),
       App.run_simulator env c f = Some st /\
       sample_count st = c /\
       App.generate_ecg_sample (current_time k) (App.base_bpm (current_time k))
                               (draw_noise k)
         = Some ecg_status /\
       App.loop_body env st = Some st' /\
       sample_count st' = S c /\
       read_csv (stream st')
         = Some (older ++
                 [App.writerow env c ecg_status
                    (App.generate_imu_sample (current_time k)
                       (if Nat.even (c / 20) then "extension" else "flexion")
                       (draw_accel_y k) (draw_accel_z k)
                       (draw_gyro_y k) (draw_gyro_z k))])).
Proof.
  intros env c f.
  split; [apply simulator_phase_formula|].
  split; [apply app_phase_formula|].
  split.
  { rewrite !simulator_phase_formula.
    rewrite (even_div_next_period c 100) by lia.
    destruct (Nat.even (c / 100)); reflexivity. }
  split.
  { rewrite !app_phase_formula.
    rewrite (even_div_next_period c 20) by lia.
    destruct (Nat.even (c / 20)); reflexivity. }
  split.
  - cbv zeta.
    eexists; eexists; eexists;
      exists (slice_last 249 (produced (Simulator.row env) c)).
    split; [apply run_simulator_state|].
    split; [reflexivity|].
    split; [apply simulator_ecg_at_75|].
    split.
    { rewrite (simulator_next_iteration env c f _ (run_simulator_state env c f)).
      apply run_simulator_state. }
    split; [reflexivity|].
    cbn [stream]. rewrite read_csv_rows. f_equal.
    rewrite produced_S.
    change Simulator.MAX_SAMPLES with (S 249).
    rewrite slice_last_snoc. f_equal. f_equal.
    unfold Simulator.row. cbv zeta.
    rewrite simulator_phase_formula. reflexivity.
  - cbv zeta.
    eexists; eexists; eexists; exists (produced (App.row env) c).
    split; [apply app_run_simulator_state|].
    split; [reflexivity|].
    split.
    { apply app_ecg_at.
      pose proof (app_base_bpm_range (current_time (tick env c))).
      intros E. rewrite E in H. destruct H as [H _].
      apply (Rle_not_lt _ _ H). apply IZR_lt. reflexivity. }
    split.
    { rewrite (app_next_iteration env c f _ (app_run_simulator_state env c f)).
      apply app_run_simulator_state. }
    split; [reflexivity|].
    cbn [stream]. rewrite read_csv_rows. f_equal.
    rewrite produced_S. f_equal. f_equal.
    unfold App.row. cbv zeta.
    rewrite app_phase_formula. reflexivity.
Qed.

(** ** The readers of app.py *)

Lemma rows_of_lines_inv (ls : list Line) (rows : list Sample) :
  rows_of_lines ls = Some rows -> ls = map RowLine rows.
Proof.
  revert rows. induction ls as [|l ls IH]; simpl; intros rows H.
  - injection H as <-. reflexivity.
  - destruct l as [|s]; simpl in H; [discriminate|].
    destruct (rows_of_lines ls) as [ss|]; simpl in H; [|discriminate].
    injection H as <-. simpl. f_equal. apply IH. reflexivity.
Qed.

(** A file that [read_csv] accepts is a header followed by data rows. *)
Lemma read_csv_inv (f : StreamFile) (rows : list Sample) :
  read_csv f = Some rows -> f = Some (HeaderLine :: map RowLine rows).
Proof.
  destruct f as [[|[|s] ls]|]; simpl; try discriminate.
  intros H. apply rows_of_lines_inv in H. subst ls. reflexivity.
Qed.

Lemma any_arrhythmia_spec (df : list Sample) :
  any_arrhythmia df = true <->
  exists s, In s df /\ status_ecg s = RED_FLAG_ARRHYTHMIA.
Proof.
  unfold any_arrhythmia. rewrite existsb_exists.
  split; intros [s [Hin Hs]]; exists s; split; trivial;
    now apply String.eqb_eq.
Qed.

Lemma any_fatigue_spec (df : list Sample) :
  any_fatigue df = true <->
  exists s, In s df /\ status_imu s = RED_FLAG_FATIGUE.
Proof.
  unfold any_fatigue. rewrite existsb_exists.
  split; intros [s [Hin Hs]]; exists s; split; trivial;
    now apply String.eqb_eq.
Qed.

Lemma any_arrhythmia_none (df : list Sample) :
  Forall (fun s => status_ecg s <> RED_FLAG_ARRHYTHMIA) df ->
  any_arrhythmia df = false.
Proof.
  intros H. destruct (any_arrhythmia df) eqn:E; [|reflexivity].
  apply any_arrhythmia_spec in E. destruct E as [s [Hin Hs]].
  rewrite Forall_forall in H. now apply H in Hin.
Qed.

Lemma any_fatigue_none (df : list Sample) :
  Forall (fun s => status_imu s <> RED_FLAG_FATIGUE) df ->
  any_fatigue df = false.
Proof.
  intros H. destruct (any_fatigue df) eqn:E; [|reflexivity].
  apply any_fatigue_spec in E. destruct E as [s [Hin Hs]].
  rewrite Forall_forall in H. now apply H in Hin.
Qed.

Lemma tail_app_exact (k : nat) (old recent : list Sample) :
  length recent = k -> tail k (old ++ recent) = recent.
Proof.
  intros H. unfold tail, slice_last. rewrite length_app, H.
  replace (length old + k - k) with (length old + 0) by lia.
  rewrite skipn_app, Nat.add_0_r, skipn_all, Nat.sub_diag. reflexivity.
Qed.

Lemma tail_tail (k : nat) (rows : list Sample) :
  tail k (tail k rows) = tail k rows.
Proof. apply slice_last_slice_last. lia. Qed.

Lemma max_from_In (m : Q) (xs : list Q) : In (max_from m xs) (m :: xs).
Proof.
  revert m. induction xs as [|x xs IH]; intros m; simpl.
  - left. reflexivity.
  - destruct (IH (if Qlt_le_dec m x then x else m)) as [H | H].
    + destruct (Qlt_le_dec m x); rewrite <- H; auto.
    + auto.
Qed.

Lemma max_from_upper (m : Q) (xs : list Q) :
  forall y, In y (m :: xs) -> (y <= max_from m xs)%Q.
Proof.
  revert m. induction xs as [|x xs IH]; intros m y Hy; simpl.
  - destruct Hy as [Hy | []]. subst y. apply Qle_refl.
  - destruct Hy as [Hy | [Hy | Hy]].
    + subst y. eapply Qle_trans; [|apply IH; left; reflexivity].
      destruct (Qlt_le_dec m x); [now apply Qlt_le_weak | apply Qle_refl].
    + subst y. eapply Qle_trans; [|apply IH; left; reflexivity].
      destruct (Qlt_le_dec m x); [apply Qle_refl | assumption].
    + apply IH. right. assumption.
Qed.

(** [max] of a non-empty list is one of its elements and bounds them all. *)
Lemma py_max_spec (xs : list Q) :
  xs <> [] ->
  exists m, py_max xs = Some m /\ In m xs /\ forall y, In y xs -> (y <= m)%Q.
Proof.
  destruct xs as [|x xs]; [congruence|]. intros _.
  exists (max_from x xs). split; [reflexivity|].
  split; [apply max_from_In | apply max_from_upper].
Qed.

(** What the three callbacks return on a readable file, by the size of the
    window they take. *)
Lemma dashboard_on_rows (n : nat) (rows : list Sample) :
  tail 50 rows <> [] ->
  exists m,
    py_max (map ecg (tail 50 rows)) = Some m /\
    App.update_main_dashboard_auto n "/"
      (Some (HeaderLine :: map RowLine rows)) =
    App.DashUpdate
      (App.mkDashboardFigure
         (seq 0 (length (map ecg (tail 50 rows))))
         (map ecg (tail 50 rows))
         (if any_arrhythmia (tail 50 rows) then "#ef4444" else "#2ebf7f")
         (if any_arrhythmia (tail 50 rows)
          then App.AlertaArritmiaDetectada else App.RitmoCardiacoNormal))
      (format_1f (75 + m * 5)).
Proof.
  intros Hne.
  destruct (py_max_spec (map ecg (tail 50 rows))) as [m [Hm _]].
  { destruct (tail 50 rows); [congruence | discriminate]. }
  exists m. split; [exact Hm|].
  unfold App.update_main_dashboard_auto, App.dashboard_try.
  rewrite read_csv_rows. simpl bind.
  destruct (tail 50 rows) as [|s w] eqn:E; [congruence|].
  rewrite Hm. reflexivity.
Qed.

Lemma dashboard_on_empty (n : nat) (rows : list Sample) :
  tail 50 rows = [] ->
  App.update_main_dashboard_auto n "/"
    (Some (HeaderLine :: map RowLine rows)) = App.DashNoUpdate.
Proof.
  intros E.
  unfold App.update_main_dashboard_auto, App.dashboard_try.
  rewrite read_csv_rows. simpl bind. rewrite E. reflexivity.
Qed.

Lemma list_eq_dec_nil {A} (xs : list A) : {xs = []} + {xs <> []}.
Proof. destruct xs; [left; reflexivity | right; discriminate]. Qed.

Lemma monitor_on_rows (n : nat) (name : string) (rows : list Sample) :
  name <> "" ->
  App.monitor_patient_health n (Some name)
    (Some (HeaderLine :: map RowLine rows)) =
  App.MonitorUpdate
    ((if any_arrhythmia (tail 100 rows)
      then [App.AlertaCriticaArritmia name] else []) ++
     (if any_fatigue (tail 100 rows) then [App.AvisoFatiga] else []))
    (App.mkDoctorFigure (map timestamp (tail 100 rows))
       (map ecg (tail 100 rows))
       (if any_arrhythmia (tail 100 rows) then "red" else "green")).
Proof.
  intros Hname.
  unfold App.monitor_patient_health, App.monitor_try, App.falsy.
  apply String.eqb_neq in Hname. rewrite Hname.
  rewrite read_csv_rows. simpl.
  destruct (any_arrhythmia (tail 100 rows)), (any_fatigue (tail 100 rows));
    reflexivity.
Qed.

Lemma sensor_on_rows (n : nat) (rows : list Sample) :
  2 <= length (tail 50 rows) ->
  App.update_sensor_charts n true (Some (HeaderLine :: map RowLine rows)) =
  App.SensorCharts
    (App.mkLiveFigure (seq 0 50) (App.pad_front (map ecg (tail 50 rows)))
       (if any_arrhythmia (tail 50 rows) then "#ef4444" else "#10b981"))
    (App.mkLiveFigure (seq 0 50) (App.pad_front (map accel_x (tail 50 rows)))
       (if any_fatigue (tail 50 rows) then "#f59e0b" else "#3b82f6"))
    (if any_arrhythmia (tail 50 rows)
     then App.ArritmiaDetectada else App.RitmoNormal)
    (if any_fatigue (tail 50 rows)
     then App.FatigaDetectada else App.MovimientoFluido).
Proof.
  intros Hlen.
  unfold App.update_sensor_charts, App.sensor_try.
  rewrite read_csv_rows. cbn [negb orb path_exists bind].
  destruct (Nat.eqb_spec (length (tail 50 rows)) 0) as [E0 | _]; [lia|].
  destruct (Nat.ltb_spec (length (tail 50 rows)) 2) as [E2 | _]; [lia|].
  reflexivity.
Qed.

(** C3, as the code has it. On a readable transport, each reader shows the
    arrhythmia flag exactly when some row of the window it took (the last
    50 rows, the last 100 for the doctor's monitor) has [status_ecg] equal
    to RED_FLAG_ARRHYTHMIA, wherever the row is in the window; for the
    exercise modal this holds for windows of at least two rows. *)
Theorem arrhythmia_flag_is_or_over_window :
  forall (n : nat) (name : string) (f : StreamFile) (rows : list Sample),
    read_csv f = Some rows ->
    name <> "" ->
    (dashboard_reports_arrhythmia (App.update_main_dashboard_auto n "/" f) = true
     <-> exists s, In s (tail 50 rows) /\ status_ecg s = RED_FLAG_ARRHYTHMIA) /\
    (monitor_reports_arrhythmia (App.monitor_patient_health n (Some name) f) = true
     <-> exists s, In s (tail 100 rows) /\ status_ecg s = RED_FLAG_ARRHYTHMIA) /\
    (2 <= length (tail 50 rows) ->
     (sensor_reports_arrhythmia (App.update_sensor_charts n true f) = true
      <-> exists s, In s (tail 50 rows) /\ status_ecg s = RED_FLAG_ARRHYTHMIA)).
Proof.
  intros n name f rows Hread Hname.
  apply read_csv_inv in Hread. subst f.
  repeat split.
  - destruct (list_eq_dec_nil (tail 50 rows)) as [E | E].
    + rewrite dashboard_on_empty by exact E. discriminate.
    + destruct (dashboard_on_rows n rows E) as [m [_ ->]].
      cbn [dashboard_reports_arrhythmia App.dash_title]. intros H.
      apply any_arrhythmia_spec.
      destruct (any_arrhythmia (tail 50 rows)); [reflexivity | discriminate].
  - intros H.
    assert (E : tail 50 rows <> []).
    { destruct H as [s [Hin _]]. intros E. rewrite E in Hin. destruct Hin. }
    apply any_arrhythmia_spec in H.
    destruct (dashboard_on_rows n rows E) as [m [_ ->]].
    cbn [dashboard_reports_arrhythmia App.dash_title].
    rewrite H. reflexivity.
  - rewrite monitor_on_rows by exact Hname. simpl. intros H.
    apply any_arrhythmia_spec.
    destruct (any_arrhythmia (tail 100 rows)); [reflexivity|].
    destruct (any_fatigue (tail 100 rows)); discriminate.
  - intros H. apply any_arrhythmia_spec in H.
    rewrite monitor_on_rows by exact Hname. simpl. rewrite H. reflexivity.
  - rewrite sensor_on_rows by assumption. simpl. intros H0.
    apply any_arrhythmia_spec.
    destruct (any_arrhythmia (tail 50 rows)); [reflexivity | discriminate].
  - intros H0. apply any_arrhythmia_spec in H0.
    rewrite sensor_on_rows by assumption. simpl. rewrite H0. reflexivity.
Qed.

(** The flag is shown for a window of three rows whose flagged row is the
    middle one. *)
Lemma arrhythmia_flag_in_the_middle :
  read_csv (stream_of_rows Examples.flag_in_the_middle)
    = Some Examples.flag_in_the_middle /\
  "ana" <> "" /\
  dashboard_reports_arrhythmia
    (App.update_main_dashboard_auto 7 "/"
       (stream_of_rows Examples.flag_in_the_middle)) = true /\
  monitor_reports_arrhythmia
    (App.monitor_patient_health 7 (Some "ana")
       (stream_of_rows Examples.flag_in_the_middle)) = true /\
  sensor_reports_arrhythmia
    (App.update_sensor_charts 7 true
       (stream_of_rows Examples.flag_in_the_middle)) = true.
Proof.
  assert (Hread : read_csv (stream_of_rows Examples.flag_in_the_middle)
                  = Some Examples.flag_in_the_middle) by reflexivity.
  assert (Hname : "ana" <> "") by discriminate.
  assert (Hred : exists s, In s Examples.flag_in_the_middle /\
                           status_ecg s = RED_FLAG_ARRHYTHMIA).
  { exists (Examples.arrhythmic "10:15:00.200" 0.9731).
    split; [right; left; reflexivity | reflexivity]. }
  destruct (arrhythmia_flag_is_or_over_window 7 "ana" _ _ Hread Hname)
    as [Hdash [Hmon Hsens]].
  split; [exact Hread|]. split; [exact Hname|].
  split; [apply Hdash; exact Hred|].
  split; [apply Hmon; exact Hred|].
  apply Hsens; [simpl; lia | exact Hred].
Defined.

(** C3, as the claim states it, fails for the exercise modal: with a single
    row in the transport, flagged, [update_sensor_charts] answers
    "Recolectando..." and shows no flag. *)
Lemma single_flagged_row_is_not_reported :
  read_csv (stream_of_rows Examples.one_flagged_row)
    = Some Examples.one_flagged_row /\
  App.update_sensor_charts 7 true (stream_of_rows Examples.one_flagged_row)
    = App.SensorCollecting /\
  ~ (sensor_reports_arrhythmia
       (App.update_sensor_charts 7 true
          (stream_of_rows Examples.one_flagged_row)) = true
     <-> exists s, In s (tail 50 Examples.one_flagged_row) /\
                   status_ecg s = RED_FLAG_ARRHYTHMIA).
Proof.
  split; [reflexivity|]. split; [reflexivity|].
  intros [_ H].
  assert (Hred : exists s, In s (tail 50 Examples.one_flagged_row) /\
                           status_ecg s = RED_FLAG_ARRHYTHMIA).
  { eexists. split; [left; reflexivity | reflexivity]. }
  apply H in Hred. discriminate Hred.
Qed.

(** C6. When the stream file does not exist, each reader returns its
    "no data" outputs whatever its other inputs are: [dash.no_update] for
    the dashboard and the monitor, the empty figures with "Esperando
    datos..." for the exercise modal.  No reader reaches [read_csv], which
    would raise. *)
Theorem missing_transport_is_no_data :
  forall (n : nat) (pathname : string) (selected_patient : option string)
         (is_open : bool),
    App.update_main_dashboard_auto n pathname None = App.DashNoUpdate /\
    App.monitor_patient_health n selected_patient None = App.MonitorNoUpdate /\
    App.update_sensor_charts n is_open None = App.SensorWaiting.
Proof.
  intros n pathname selected_patient is_open.
  unfold App.update_main_dashboard_auto, App.monitor_patient_health,
    App.update_sensor_charts.
  simpl path_exists. simpl negb. rewrite !orb_true_r.
  repeat split.
Qed.

(** C8. The readers classify the last 50 rows of the transport (the last
    100 for the doctor's monitor) and nothing else: their output is the same
    on a transport cut down to those rows, and when none of those rows is
    flagged the status shown is the normal one, whatever flags the rows
    before them carry. *)
Theorem flags_before_the_window_are_not_seen :
  forall (n : nat) (name : string) (old recent : list Sample),
    name <> "" ->
    Forall (fun s => status_ecg s <> RED_FLAG_ARRHYTHMIA) recent ->
    Forall (fun s => status_imu s <> RED_FLAG_FATIGUE) recent ->
    (length recent = 50 ->
     (exists fig bpm,
         App.update_main_dashboard_auto n "/" (stream_of_rows (old ++ recent))
           = App.DashUpdate fig bpm /\
         App.dash_title fig = App.RitmoCardiacoNormal /\
         App.dash_line_color fig = "#2ebf7f") /\
     (exists fig_ecg fig_imu,
         App.update_sensor_charts n true (stream_of_rows (old ++ recent))
           = App.SensorCharts fig_ecg fig_imu
               App.RitmoNormal App.MovimientoFluido)) /\
    (length recent = 100 ->
     exists fig,
       App.monitor_patient_health n (Some name) (stream_of_rows (old ++ recent))
         = App.MonitorUpdate [] fig /\
       App.doctor_line_color fig = "green") /\
    (forall rows : list Sample,
        App.update_main_dashboard_auto n "/" (stream_of_rows rows)
          = App.update_main_dashboard_auto n "/" (stream_of_rows (tail 50 rows)) /\
        App.update_sensor_charts n true (stream_of_rows rows)
          = App.update_sensor_charts n true (stream_of_rows (tail 50 rows)) /\
        App.monitor_patient_health n (Some name) (stream_of_rows rows)
          = App.monitor_patient_health n (Some name)
              (stream_of_rows (tail 100 rows))).
Proof.
  intros n name old recent Hname Hecg Himu.
  unfold stream_of_rows.
  split; [|split].
  - intros Hlen.
    assert (Hw : tail 50 (old ++ recent) = recent) by now apply tail_app_exact.
    split.
    + destruct (dashboard_on_rows n (old ++ recent)) as [m [_ ->]].
      { rewrite Hw. intros E. rewrite E in Hlen. discriminate. }
      rewrite Hw, any_arrhythmia_none by exact Hecg.
      eexists; eexists. split; [reflexivity|]. split; reflexivity.
    + rewrite sensor_on_rows by (rewrite Hw; lia).
      rewrite Hw, any_arrhythmia_none, any_fatigue_none by assumption.
      eexists; eexists. reflexivity.
  - intros Hlen.
    assert (Hw : tail 100 (old ++ recent) = recent) by now apply tail_app_exact.
    rewrite monitor_on_rows by exact Hname.
    rewrite Hw, any_arrhythmia_none, any_fatigue_none by assumption.
    eexists. split; reflexivity.
  - intros rows. split; [|split].
    + unfold App.update_main_dashboard_auto, App.dashboard_try.
      rewrite !read_csv_rows. simpl bind. rewrite tail_tail. reflexivity.
    + unfold App.update_sensor_charts, App.sensor_try.
      rewrite !read_csv_rows. simpl bind. rewrite tail_tail. reflexivity.
    + rewrite !monitor_on_rows by exact Hname.
      rewrite tail_tail. reflexivity.
Qed.

Lemma repeat_Forall {A} (P : A -> Prop) (x : A) (k : nat) :
  P x -> Forall P (repeat x k).
Proof.
  intros H. induction k; simpl; constructor; assumption.
Qed.

(** A flagged row followed by 50 rows without flags: the dashboard title is
    the normal one. *)
Lemma old_flag_is_not_seen :
  "ana" <> "" /\
  Forall (fun s => status_ecg s <> RED_FLAG_ARRHYTHMIA) Examples.fifty_calm /\
  Forall (fun s => status_imu s <> RED_FLAG_FATIGUE) Examples.fifty_calm /\
  exists fig bpm,
    App.update_main_dashboard_auto 7 "/"
      (stream_of_rows (Examples.old_flag ++ Examples.fifty_calm))
      = App.DashUpdate fig bpm /\
    App.dash_title fig = App.RitmoCardiacoNormal /\
    App.dash_line_color fig = "#2ebf7f".
Proof.
  assert (Hname : "ana" <> "") by discriminate.
  assert (Hecg : Forall (fun s => status_ecg s <> RED_FLAG_ARRHYTHMIA)
                        Examples.fifty_calm)
    by (apply repeat_Forall; discriminate).
  assert (Himu : Forall (fun s => status_imu s <> RED_FLAG_FATIGUE)
                        Examples.fifty_calm)
    by (apply repeat_Forall; discriminate).
  split; [exact Hname|]. split; [exact Hecg|]. split; [exact Himu|].
  destruct (flags_before_the_window_are_not_seen 7 "ana" Examples.old_flag
              Examples.fifty_calm Hname Hecg Himu) as [H50 _].
  destruct (H50 eq_refl) as [Hdash _]. exact Hdash.
Defined.

(** *** The one-decimal format *)

Lemma round_half_even_close (x : Q) :
  (Qabs (inject_Z (round_half_even x) - x) <= 1 # 2)%Q.
Proof.
  destruct x as [n d]. unfold round_half_even. cbn [Qnum Qden].
  pose proof (Z.div_mod n (Zpos d) ltac:(discriminate)) as Hdm.
  pose proof (Z.mod_pos_bound n (Zpos d) ltac:(reflexivity)) as Hr.
  set (q := (n / Zpos d)%Z) in *. set (r := (n mod Zpos d)%Z) in *.
  assert (Hk : forall k : Z,
             (2 * Z.abs (k * Zpos d - n) <= Zpos d)%Z ->
             (Qabs (inject_Z k - (n # d)) <= 1 # 2)%Q).
  { intros k Hk. unfold Qle, Qabs, Qminus, Qplus, Qopp, inject_Z.
    cbn [Qnum Qden]. rewrite Pos.mul_1_l. lia. }
  apply Hk.
  destruct (Z.ltb_spec (2 * r) (Zpos d)); [lia|].
  destruct (Z.ltb_spec (Zpos d) (2 * r)); [lia|].
  destruct (Z.even q); lia.
Qed.

Lemma round_half_even_integer (x : Q) (k : Z) :
  (x == inject_Z k)%Q -> round_half_even x = k.
Proof.
  destruct x as [n d]. unfold Qeq, inject_Z, round_half_even.
  cbn [Qnum Qden]. rewrite Z.mul_1_r. intros ->.
  rewrite Z.div_mul, Z.mod_mul by discriminate.
  destruct (Z.ltb_spec (2 * 0) (Zpos d)); [reflexivity | lia].
Qed.

(** The decimal printed is a number of tenths, at most 0.05 away from the
    value formatted, and is that value exactly when the value is itself a
    number of tenths. *)
Lemma format_1f_spec (x : Q) :
  (exists k : Z, format_1f x = (inject_Z k / 10)%Q) /\
  (Qabs (format_1f x - x) <= 1 # 20)%Q /\
  ((format_1f x == x)%Q <-> exists k : Z, (x == inject_Z k / 10)%Q).
Proof.
  unfold format_1f. split; [eexists; reflexivity|]. split.
  - pose proof (round_half_even_close (x * 10)) as H.
    set (k := inject_Z (round_half_even (x * 10))) in *.
    apply Qabs_Qle_condition in H. apply Qabs_Qle_condition.
    destruct H as [H1 H2]. split.
    + apply Qle_minus_iff. apply Qle_minus_iff in H1.
      setoid_replace (k / 10 - x + - - (1 # 20))%Q
        with ((k - x * 10 + - - (1 # 2)) * (1 # 10))%Q by field.
      apply Qmult_le_0_compat; [exact H1 | discriminate].
    + apply Qle_minus_iff. apply Qle_minus_iff in H2.
      setoid_replace ((1 # 20) + - (k / 10 - x))%Q
        with (((1 # 2) + - (k - x * 10)) * (1 # 10))%Q by field.
      apply Qmult_le_0_compat; [exact H2 | discriminate].
  - split.
    + intros H. exists (round_half_even (x * 10)). symmetry. exact H.
    + intros [k Hk].
      rewrite (round_half_even_integer (x * 10) k).
      * symmetry. exact Hk.
      * rewrite Hk. field.
Qed.

(** C9, as the code has it. On a readable transport with at least one row,
    the number printed by the dashboard is [75 + m * 5], where [m] is the
    largest [ecg] value of the window (the last 50 rows), in the format
    [.1f]: a number of tenths at most 0.05 away from [75 + 5 * m], equal
    to it exactly when [75 + 5 * m] is itself a number of tenths.  No peak
    detection takes part. *)
Theorem dashboard_bpm_from_max_ecg :
  forall (n : nat) (f : StreamFile) (rows : list Sample),
    read_csv f = Some rows ->
    tail 50 rows <> [] ->
    exists fig m,
      App.update_main_dashboard_auto n "/" f
        = App.DashUpdate fig (format_1f (75 + m * 5)) /\
      App.dash_y fig = map ecg (tail 50 rows) /\
      In m (map ecg (tail 50 rows)) /\
      (forall y, In y (map ecg (tail 50 rows)) -> (y <= m)%Q) /\
      (exists k : Z, format_1f (75 + m * 5) = (inject_Z k / 10)%Q) /\
      (Qabs (format_1f (75 + m * 5) - (75 + 5 * m)) <= 1 # 20)%Q /\
      ((format_1f (75 + m * 5) == 75 + 5 * m)%Q
       <-> exists k : Z, (75 + 5 * m == inject_Z k / 10)%Q).
Proof.
  intros n f rows Hread Hne.
  apply read_csv_inv in Hread. subst f.
  destruct (dashboard_on_rows n rows Hne) as [m [Hm ->]].
  destruct (py_max_spec (map ecg (tail 50 rows))) as [m' [Hm' [Hin Hup]]].
  { destruct (tail 50 rows); [congruence | discriminate]. }
  rewrite Hm in Hm'. injection Hm' as <-.
  eexists; exists m. split; [reflexivity|].
  split; [reflexivity|]. split; [exact Hin|]. split; [exact Hup|].
  assert (E : (75 + 5 * m == 75 + m * 5)%Q) by ring.
  destruct (format_1f_spec (75 + m * 5)) as [Hk [Hclose Hexact]].
  split; [exact Hk|]. split; [rewrite E; exact Hclose|].
  rewrite E, Hexact. split; intros [k Hk']; exists k.
  - rewrite E. exact Hk'.
  - rewrite <- E. exact Hk'.
Qed.

(** With a largest amplitude of 0.9731 the value is 79.8655 and the number
    printed is 79.9. *)
Lemma dashboard_bpm_of_three_rows :
  read_csv (stream_of_rows Examples.flag_in_the_middle)
    = Some Examples.flag_in_the_middle /\
  tail 50 Examples.flag_in_the_middle <> [] /\
  exists fig m,
    App.update_main_dashboard_auto 7 "/"
      (stream_of_rows Examples.flag_in_the_middle)
      = App.DashUpdate fig (format_1f (75 + m * 5)) /\
    In m (map ecg (tail 50 Examples.flag_in_the_middle)) /\
    (Qabs (format_1f (75 + m * 5) - (75 + 5 * m)) <= 1 # 20)%Q.
Proof.
  assert (Hread : read_csv (stream_of_rows Examples.flag_in_the_middle)
                  = Some Examples.flag_in_the_middle) by reflexivity.
  assert (Hne : tail 50 Examples.flag_in_the_middle <> []) by discriminate.
  split; [exact Hread|]. split; [exact Hne|].
  destruct (dashboard_bpm_from_max_ecg 7 _ _ Hread Hne)
    as [fig [m [Hout [_ [Hin [_ [_ [Hclose _]]]]]]]].
  exists fig, m. split; [exact Hout|]. split; [exact Hin | exact Hclose].
Defined.

(** C9, as the claim states it, fails: on three rows whose largest amplitude
    is 0.9731 the dashboard prints 79.9, while 75 + 5 * 0.9731 is
    79.8655. *)
Lemma dashboard_bpm_is_rounded :
  read_csv (stream_of_rows Examples.flag_in_the_middle)
    = Some Examples.flag_in_the_middle /\
  py_max (map ecg (tail 50 Examples.flag_in_the_middle)) = Some 0.9731%Q /\
  (exists fig,
      App.update_main_dashboard_auto 7 "/"
        (stream_of_rows Examples.flag_in_the_middle)
      = App.DashUpdate fig 79.9%Q) /\
  ~ (79.9 == 75 + 5 * 0.9731)%Q.
Proof.
  split; [reflexivity|]. split; [reflexivity|].
  split; [eexists; reflexivity|].
  intros H. discriminate H.
Qed.

(** ** The synthesizers *)

Section SynthesizerFacts.
Local Open Scope R_scope.

Lemma Rltb_true (x y : R) : Rltb x y = true <-> x < y.
Proof.
  unfold Rltb. destruct (Rlt_dec x y); split; intros H;
    try reflexivity; try assumption; try discriminate; contradiction.
Qed.

Lemma Rltb_false (x y : R) : Rltb x y = false <-> y <= x.
Proof.
  unfold Rltb. destruct (Rlt_dec x y); split; intros H;
    try reflexivity; try discriminate; lra.
Qed.

(** The clamp of simulator.py keeps the knee angle in [0, 100],
    whatever the phase string is. *)
Lemma simulator_knee_angle_in_0_100 (t : R) (phase : string) (n_y n_z : R) :
  0 <= imu_accel_x (Simulator.generate_imu_sample t phase n_y n_z) <= 100.
Proof.
  unfold Simulator.generate_imu_sample. cbn [imu_accel_x].
  split.
  - apply Rmax_l.
  - apply Rmax_lub; [lra | apply Rmin_l].
Qed.

(** The angle of app.py: within [0, 90] in extension, within [45, 135]
    in any other phase. *)
Lemma app_knee_angle_range (t : R) (phase : string) (ay az gy gz : R) :
  let angle := imu_accel_x (App.generate_imu_sample t phase ay az gy gz) in
  (phase = "extension" -> 0 <= angle <= 90) /\
  (phase <> "extension" -> 45 <= angle <= 135).
Proof.
  unfold App.generate_imu_sample. cbn [imu_accel_x]. cbv zeta.
  pose proof (SIN_bound (0.5 * t)) as [Hlo Hhi].
  split; intros Hp.
  - subst phase. cbn [String.eqb Ascii.eqb Bool.eqb].
    rewrite Rmin_right by lra. lra.
  - apply String.eqb_neq in Hp. rewrite Hp.
    rewrite Rmax_right by lra. lra.
Qed.

(** In flexion the angle of app.py is above 100 as soon as
    [sin (0.5 * t)] is below -2/9. *)
Lemma app_flexion_angle_above_100 (t ay az gy gz : R) :
  sin (0.5 * t) < - (2 / 9) ->
  100 < imu_accel_x (App.generate_imu_sample t "flexion" ay az gy gz).
Proof.
  intros H. unfold App.generate_imu_sample. cbn [imu_accel_x]. cbv zeta.
  cbn [String.eqb Ascii.eqb Bool.eqb].
  rewrite Rmax_right by lra. lra.
Qed.

(** The lower Taylor bound of the library, written out. *)
Lemma sin_lb_explicit (a : R) :
  sin_lb a = a - a ^ 3 / 6 + a ^ 5 / 120 - a ^ 7 / 5040.
Proof.
  unfold sin_lb, sin_approx, sin_term. simpl sum_f_R0.
  unfold Nat.mul, Nat.add. simpl. field.
Qed.

(** [sin 5] is below -2/9 (it is about -0.959): 5 radians lie between
    [PI + 1] and [PI + 2]. *)
Lemma sin_5_below : sin 5 < - (2 / 9).
Proof.
  pose proof PI_4 as Hhi. pose proof PI2_3_2 as Hlo.
  replace 5 with ((5 - PI) + PI) by lra.
  rewrite neg_sin.
  set (a := 5 - PI).
  assert (Ha : 1 <= a < 2) by (unfold a; lra).
  assert (Hs : sin_lb a <= sin a) by (apply SIN; unfold a; lra).
  rewrite sin_lb_explicit in Hs.
  assert (Hp : 2 / 9 < a - a ^ 3 / 6 + a ^ 5 / 120 - a ^ 7 / 5040).
  { destruct Ha as [H1 H2].
    assert (Hu : 1 <= a * a <= 4) by nra.
    set (u := a * a) in *.
    replace (a - a ^ 3 / 6 + a ^ 5 / 120 - a ^ 7 / 5040)
      with (a * (1 - u / 6 + u * u / 120 - u * u * u / 5040))
      by (unfold u; field).
    assert (Hg : 8 / 25 <= 1 - u / 6 + u * u / 120 - u * u * u / 5040).
    { assert (u * u <= 16) by nra.
      assert (1 <= u * u) by nra.
      assert (u * u * u <= 64) by nra.
      lra. }
    nra. }
  lra.
Qed.

(** C4 fails on app.py. In flexion, [generate_imu_sample] of app.py returns
    a knee angle above 100 at [t = 10] seconds (about 133.2), and of 135 at
    [t = 3 * PI]; [max(0, ...)] does not bound it from above. *)
Theorem app_flexion_knee_angle_exceeds_100 :
  100 < imu_accel_x (App.generate_imu_sample 10 "flexion" 0.4 10.2 0.1 (-0.3)) /\
  ~ (0 <= imu_accel_x (App.generate_imu_sample 10 "flexion" 0.4 10.2 0.1 (-0.3))
     <= 100) /\
  imu_accel_x (App.generate_imu_sample (3 * PI) "flexion" 0.4 10.2 0.1 (-0.3))
    = 135.
Proof.
  assert (H : 100 < imu_accel_x
                      (App.generate_imu_sample 10 "flexion" 0.4 10.2 0.1 (-0.3))).
  { apply app_flexion_angle_above_100.
    replace (0.5 * 10) with 5 by lra. apply sin_5_below. }
  split; [exact H|]. split; [lra|].
  unfold App.generate_imu_sample. cbn [imu_accel_x]. cbv zeta.
  cbn [String.eqb Ascii.eqb Bool.eqb].
  replace (0.5 * (3 * PI)) with (3 * (PI / 2)) by lra.
  rewrite sin_3PI2. rewrite Rmax_right by lra. lra.
Qed.

Lemma app_ecg_status (heart_rate t noise : R) :
  snd (App.ecg_sample heart_rate t noise) =
  if Rltb 0.12 (Rabs noise) then RED_FLAG_ARRHYTHMIA else NORMAL.
Proof. reflexivity. Qed.

Lemma simulator_ecg_status (heart_rate t noise : R) :
  snd (Simulator.ecg_sample heart_rate t noise) = NORMAL.
Proof. reflexivity. Qed.

Lemma simulator_ecg_at (t base_bpm noise : R) :
  base_bpm <> 0 ->
  Simulator.generate_ecg_sample t base_bpm noise
  = Some (Simulator.ecg_sample (base_bpm / 60) t noise).
Proof.
  intros H. unfold Simulator.generate_ecg_sample. cbv zeta.
  destruct (Req_dec_T (base_bpm / 60) 0) as [E | _];
    [exfalso; lra | reflexivity].
Qed.

Lemma app_row_status_ecg (env : Environment) (i : nat) :
  status_ecg (App.row env i) =
  if Rltb 0.12 (Rabs (draw_noise (tick env i)))
  then RED_FLAG_ARRHYTHMIA else NORMAL.
Proof. reflexivity. Qed.

Lemma app_row_status_imu (env : Environment) (i : nat) :
  status_imu (App.row env i) =
  if Rltb 5 (Rabs (draw_accel_y (tick env i)))
     || Rltb 3 (Rabs (draw_gyro_y (tick env i)))
  then RED_FLAG_FATIGUE else NORMAL.
Proof. reflexivity. Qed.

(** C5, as the code has it. For a heart rate that is not zero, the
    generators of app.py flag a sample with RED_FLAG_ARRHYTHMIA exactly
    when the noise draw is above 0.12 in magnitude, and with
    RED_FLAG_FATIGUE exactly when [accel_y] is above 5 or [gyro_y] above 3
    in magnitude; the status is NORMAL otherwise, and the rows app.py
    writes carry these statuses.  The generators of simulator.py return
    NORMAL whatever the draws are: no threshold on the noise separates
    flagged from normal samples there, since above any threshold there is
    a draw that is not flagged. *)
Theorem status_flags_follow_draw_thresholds :
  forall (t base_bpm noise accel_y accel_z gyro_y gyro_z : R)
         (phase : string) (env : Environment) (i : nat),
    base_bpm <> 0 ->
    (exists ecg status,
        App.generate_ecg_sample t base_bpm noise = Some (ecg, status) /\
        (status = RED_FLAG_ARRHYTHMIA <-> 0.12 < Rabs noise) /\
        (status = NORMAL <-> Rabs noise <= 0.12)) /\
    (let imu :=
       App.generate_imu_sample t phase accel_y accel_z gyro_y gyro_z in
     (imu_status imu = RED_FLAG_FATIGUE
      <-> 5 < Rabs accel_y \/ 3 < Rabs gyro_y) /\
     (imu_status imu = NORMAL
      <-> Rabs accel_y <= 5 /\ Rabs gyro_y <= 3)) /\
    (status_ecg (App.row env i) = RED_FLAG_ARRHYTHMIA
     <-> 0.12 < Rabs (draw_noise (tick env i))) /\
    (status_imu (App.row env i) = RED_FLAG_FATIGUE
     <-> 5 < Rabs (draw_accel_y (tick env i))
         \/ 3 < Rabs (draw_gyro_y (tick env i))) /\
    (exists ecg,
        Simulator.generate_ecg_sample t base_bpm noise = Some (ecg, NORMAL)) /\
    imu_status (Simulator.generate_imu_sample t phase accel_y accel_z) = NORMAL /\
    status_ecg (Simulator.row env i) = NORMAL /\
    status_imu (Simulator.row env i) = NORMAL /\
    (forall threshold : R,
      exists loud ecg : R,
        threshold < Rabs loud /\
        Simulator.generate_ecg_sample t base_bpm loud = Some (ecg, NORMAL)).
Proof.
  intros t base_bpm noise accel_y accel_z gyro_y gyro_z phase env i Hbpm.
  rewrite app_row_status_ecg, app_row_status_imu.
  rewrite (app_ecg_at t base_bpm noise Hbpm).
  rewrite (simulator_ecg_at t base_bpm noise Hbpm).
  split; [|split; [|split; [|split; [|split; [|split; [|split; [|split]]]]]]].
  - exists (fst (App.ecg_sample (base_bpm / 60) t noise)).
    exists (snd (App.ecg_sample (base_bpm / 60) t noise)).
    split; [rewrite <- surjective_pairing; reflexivity|].
    rewrite app_ecg_status.
    destruct (Rltb 0.12 (Rabs noise)) eqn:E.
    + apply Rltb_true in E. split; split; try reflexivity; try discriminate.
      * intros _. exact E.
      * intros H. exfalso. lra.
    + apply Rltb_false in E. split; split; try reflexivity; try discriminate.
      * intros H. exfalso. lra.
      * intros _. exact E.
  - unfold App.generate_imu_sample. cbv zeta. cbn [imu_status].
    destruct (Rltb 5 (Rabs accel_y)) eqn:E1;
      destruct (Rltb 3 (Rabs gyro_y)) eqn:E2; cbn [orb];
      try apply Rltb_true in E1; try apply Rltb_true in E2;
      try apply Rltb_false in E1; try apply Rltb_false in E2;
      (split; split;
       [ try discriminate; try (intros _; tauto)
       | try reflexivity; intros H; exfalso; lra
       | try discriminate; try (intros _; tauto)
       | try reflexivity; intros H; exfalso; lra ]).
  - split.
    + destruct (Rltb 0.12 (Rabs (draw_noise (tick env i)))) eqn:E;
        [intros _; now apply Rltb_true | discriminate].
    + intros H. apply Rltb_true in H. rewrite H. reflexivity.
  - split.
    + destruct (Rltb 5 (Rabs (draw_accel_y (tick env i)))) eqn:E1;
        [intros _; left; now apply Rltb_true|].
      destruct (Rltb 3 (Rabs (draw_gyro_y (tick env i)))) eqn:E2;
        [intros _; right; now apply Rltb_true | discriminate].
    + intros [H | H]; apply Rltb_true in H; rewrite H;
        [|rewrite orb_true_r]; reflexivity.
  - eexists. reflexivity.
  - reflexivity.
  - reflexivity.
  - reflexivity.
  - intros threshold. exists (Rabs threshold + 1). eexists. split.
    + pose proof (Rabs_pos threshold). pose proof (Rle_abs threshold).
      rewrite (Rabs_right (Rabs threshold + 1)) by lra. lra.
    + rewrite simulator_ecg_at by exact Hbpm. reflexivity.
Qed.

(** At 75 beats per minute, a noise draw of 0.2 is flagged by app.py and
    not by simulator.py. *)
Lemma status_flags_at_75_bpm :
  (exists ecg : R,
      App.generate_ecg_sample 0 75 0.2 = Some (ecg, RED_FLAG_ARRHYTHMIA)) /\
  (exists ecg : R,
      Simulator.generate_ecg_sample 0 75 0.2 = Some (ecg, NORMAL)).
Proof.
  assert (Hbpm : 75 <> 0) by lra.
  destruct (status_flags_follow_draw_thresholds
              0 75 0.2 0 10 0 0 "extension" Examples.still_env 0 Hbpm)
    as [[ecg [status [Happ [Hred _]]]] [_ [_ [_ [Hsim _]]]]].
  split; [|exact Hsim].
  exists ecg. rewrite Happ.
  assert (Hst : status = RED_FLAG_ARRHYTHMIA).
  { apply Hred. rewrite Rabs_right by lra. lra. }
  rewrite Hst. reflexivity.
Defined.

(** C5, as the claim states it, fails for simulator.py: a noise draw of
    1000 is returned with the status NORMAL, and no threshold on the noise
    tells flagged from normal samples. *)
Lemma simulator_never_flags :
  0.12 < Rabs 1000 /\
  (exists ecg : R,
      Simulator.generate_ecg_sample 0 75 1000 = Some (ecg, NORMAL)) /\
  ~ (exists threshold : R,
        forall noise : R,
          (exists ecg : R,
              Simulator.generate_ecg_sample 0 75 noise
              = Some (ecg, RED_FLAG_ARRHYTHMIA))
          <-> threshold < Rabs noise).
Proof.
  split; [rewrite Rabs_right by lra; lra|].
  split; [rewrite simulator_ecg_at_75; eexists; reflexivity|].
  intros [threshold H].
  destruct (H (Rabs threshold + 1)) as [_ Hflag].
  destruct Hflag as [ecg Hecg].
  - pose proof (Rabs_pos threshold). pose proof (Rle_abs threshold).
    rewrite (Rabs_right (Rabs threshold + 1)) by lra. lra.
  - rewrite simulator_ecg_at_75 in Hecg.
    assert (Hst : snd (Simulator.ecg_sample (75 / 60) 0 (Rabs threshold + 1))
                  = RED_FLAG_ARRHYTHMIA)
      by (apply (f_equal (option_map snd)) in Hecg; cbn [option_map snd] in Hecg;
          congruence).
    rewrite simulator_ecg_status in Hst. discriminate Hst.
Qed.

End SynthesizerFacts.

(** ** BPM from R-R intervals *)

Example three_beats_peaks :
  Sensors.local_maxima (Sensors.center (map snd Examples.three_beats)) 50 0.5%Q
  = [1; 3; 5].
Proof. reflexivity. Qed.

Example three_beats_bpm :
  exists t ecg bpm,
    Sensors.load_ecg_and_compute_bpm Sensors.local_maxima Examples.three_beats
      = Some (t, ecg, Sensors.Finite bpm) /\ (bpm == 75)%Q.
Proof. vm_compute. eexists; eexists; eexists. split; reflexivity. Qed.

Example one_beat_bpm :
  exists t ecg,
    Sensors.load_ecg_and_compute_bpm Sensors.local_maxima Examples.one_beat
      = Some (t, ecg, Sensors.Finite 0).
Proof. vm_compute. eexists; eexists. reflexivity. Qed.

Lemma take_defined (t : list Q) (peaks : list nat) :
  Forall (fun i => i < length t) peaks ->
  exists t_peaks,
    Sensors.take t peaks = Some t_peaks /\
    length t_peaks = length peaks /\
    forall i p, nth_error peaks i = Some p ->
                nth_error t_peaks i = nth_error t p.
Proof.
  induction 1 as [|p peaks Hp _ IH].
  - exists []. repeat split. intros [|i] p H; discriminate H.
  - destruct IH as [xs [Hxs [Hlen Hnth]]].
    destruct (nth_error t p) as [x|] eqn:Ex.
    + exists (x :: xs). simpl. rewrite Ex, Hxs. simpl.
      repeat split.
      * now rewrite Hlen.
      * intros [|i] q H; simpl in H.
        -- injection H as <-. simpl. now rewrite Ex.
        -- simpl. now apply Hnth.
    + apply nth_error_None in Ex. lia.
Qed.

Lemma np_diff_length (xs : list Q) :
  length (Sensors.np_diff xs) = length xs - 1.
Proof.
  induction xs as [|a [|b xs] IH]; try reflexivity.
  change (Sensors.np_diff (a :: b :: xs))
    with ((b - a)%Q :: Sensors.np_diff (b :: xs)).
  simpl length in *. rewrite IH. lia.
Qed.

(** The [i]-th interval is the difference of the [i+1]-th and the [i]-th
    value. *)
Lemma np_diff_nth (xs : list Q) (i : nat) (a b : Q) :
  nth_error xs i = Some a -> nth_error xs (S i) = Some b ->
  nth_error (Sensors.np_diff xs) i = Some (b - a)%Q.
Proof.
  revert i. induction xs as [|x [|y xs] IH]; intros i Ha Hb.
  - destruct i; discriminate Ha.
  - destruct i as [|[|i]]; discriminate Hb.
  - change (Sensors.np_diff (x :: y :: xs))
      with ((y - x)%Q :: Sensors.np_diff (y :: xs)).
    destruct i as [|i].
    + simpl in Ha, Hb. injection Ha as ->. injection Hb as ->. reflexivity.
    + simpl. apply IH; assumption.
Qed.

Lemma calculate_bpm_nonempty (rr : list Q) :
  rr <> [] ->
  Sensors.calculate_bpm rr
  = Sensors.np_rdiv 60 (Sensors.Finite (Sensors.average rr)).
Proof.
  destruct rr as [|x rr]; [congruence|]. reflexivity.
Qed.

Lemma np_rdiv_nonzero (a q : Q) :
  ~ (q == 0)%Q ->
  Sensors.np_rdiv a (Sensors.Finite q) = Sensors.Finite (a / q).
Proof.
  intros H. unfold Sensors.np_rdiv.
  destruct (Qeq_bool q 0) eqn:E; [|reflexivity].
  apply Qeq_bool_eq in E. contradiction.
Qed.

Lemma np_rdiv_60_zero (q : Q) :
  (q == 0)%Q -> Sensors.np_rdiv 60 (Sensors.Finite q) = Sensors.PosInf.
Proof.
  intros H. unfold Sensors.np_rdiv.
  rewrite (Qeq_eq_bool _ _ H). reflexivity.
Qed.

(** C2. When the indices given by [find_peaks] are indices of the
    recording, [load_ecg_and_compute_bpm] returns (it raises nothing) and
    its BPM is: 60 divided by the mean of the R-R intervals, the differences
    of the times of consecutive peaks, when there are two peaks or more;
    exactly 0 when there are fewer than two. *)
Theorem bpm_is_60_over_mean_rr_or_zero :
  forall (find_peaks : list Q -> nat -> Q -> list nat) (df : list (Q * Q)),
    let peaks := find_peaks (Sensors.center (map snd df)) 50 0.5%Q in
    Forall (fun i => i < length df) peaks ->
    exists (t_peaks rr : list Q) (bpm : Sensors.npfloat),
      Sensors.load_ecg_and_compute_bpm find_peaks df
        = Some (map fst df, Sensors.center (map snd df), bpm) /\
      (forall i p, nth_error peaks i = Some p ->
                   nth_error t_peaks i = nth_error (map fst df) p) /\
      (forall i a b, nth_error t_peaks i = Some a ->
                     nth_error t_peaks (S i) = Some b ->
                     nth_error rr i = Some (b - a)%Q) /\
      length rr = length peaks - 1 /\
      (2 <= length peaks ->
       bpm = Sensors.np_rdiv 60 (Sensors.Finite (Sensors.average rr)) /\
       (~ (Sensors.average rr == 0)%Q ->
        bpm = Sensors.Finite (60 / Sensors.average rr))) /\
      (length peaks < 2 -> bpm = Sensors.Finite 0).
Proof.
  intros find_peaks df peaks Hidx.
  destruct (take_defined (map fst df) peaks) as [t_peaks [Htake [Hlen Hnth]]].
  { rewrite length_map. exact Hidx. }
  exists t_peaks, (Sensors.np_diff t_peaks),
    (Sensors.calculate_bpm (Sensors.np_diff t_peaks)).
  split.
  { unfold Sensors.load_ecg_and_compute_bpm. fold peaks.
    rewrite Htake. reflexivity. }
  split; [exact Hnth|].
  split; [intros i a b; apply np_diff_nth|].
  split; [rewrite np_diff_length, Hlen; reflexivity|].
  split.
  - intros H2.
    assert (Hne : Sensors.np_diff t_peaks <> []).
    { intros E. apply (f_equal (@length Q)) in E.
      rewrite np_diff_length, Hlen in E. simpl in E. lia. }
    rewrite calculate_bpm_nonempty by exact Hne.
    split; [reflexivity | apply np_rdiv_nonzero].
  - intros H2.
    assert (E : Sensors.np_diff t_peaks = []).
    { apply length_zero_iff_nil. rewrite np_diff_length, Hlen. lia. }
    rewrite E. reflexivity.
Qed.

(** Three peaks 0.8 s apart: the hypothesis holds and the theorem gives the
    result of the estimator. *)
Lemma bpm_of_three_beats :
  Forall (fun i => i < length Examples.three_beats)
    (Sensors.local_maxima (Sensors.center (map snd Examples.three_beats))
       50 0.5%Q) /\
  exists (t_peaks rr : list Q) (bpm : Sensors.npfloat),
    Sensors.load_ecg_and_compute_bpm Sensors.local_maxima Examples.three_beats
      = Some (map fst Examples.three_beats,
              Sensors.center (map snd Examples.three_beats), bpm) /\
    length rr = 2 /\
    bpm = Sensors.np_rdiv 60 (Sensors.Finite (Sensors.average rr)).
Proof.
  assert (H : Forall (fun i => i < length Examples.three_beats)
                (Sensors.local_maxima
                   (Sensors.center (map snd Examples.three_beats)) 50 0.5%Q)).
  { rewrite three_beats_peaks. simpl length. repeat constructor; lia. }
  split; [exact H|].
  destruct (bpm_is_60_over_mean_rr_or_zero Sensors.local_maxima
              Examples.three_beats H)
    as [t_peaks [rr [bpm [Hload [_ [_ [Hlen [Hmany _]]]]]]]].
  exists t_peaks, rr, bpm.
  split; [exact Hload|].
  rewrite three_beats_peaks in Hlen, Hmany.
  split; [exact Hlen|]. apply Hmany. simpl. lia.
Defined.

(** C10. [calculate_bpm] tests the length of the list and nothing else: on
    a non-empty list whose mean is positive the result is the quotient of 60
    by the mean, a finite number; on a non-empty list whose mean is zero the
    division is still made, and gives an infinity; the empty list gives
    0. *)
Theorem calculate_bpm_only_guards_empty :
  forall rr : list Q,
    rr <> [] ->
    ((0 < Sensors.average rr)%Q ->
     Sensors.calculate_bpm rr = Sensors.Finite (60 / Sensors.average rr)) /\
    ((Sensors.average rr == 0)%Q ->
     Sensors.calculate_bpm rr = Sensors.PosInf) /\
    Sensors.calculate_bpm rr
      = Sensors.np_rdiv 60 (Sensors.Finite (Sensors.average rr)) /\
    Sensors.calculate_bpm [] = Sensors.Finite 0 /\
    Sensors.calculate_bpm [0.8; -0.8]%Q = Sensors.PosInf.
Proof.
  intros rr Hne.
  rewrite calculate_bpm_nonempty by exact Hne.
  repeat split.
  - intros Hpos. apply np_rdiv_nonzero.
    intros E. rewrite E in Hpos. discriminate Hpos.
  - apply np_rdiv_60_zero.
Qed.

(** Two intervals of 0.8 s: the mean is positive and the result is
    60 / 0.8. *)
Lemma calculate_bpm_of_two_intervals :
  [0.8; 0.8]%Q <> [] /\
  (0 < Sensors.average [0.8; 0.8]%Q)%Q /\
  Sensors.calculate_bpm [0.8; 0.8]%Q
    = Sensors.Finite (60 / Sensors.average [0.8; 0.8]%Q).
Proof.
  assert (Hne : [0.8; 0.8]%Q <> []) by discriminate.
  assert (Hpos : (0 < Sensors.average [0.8; 0.8]%Q)%Q) by reflexivity.
  split; [exact Hne|]. split; [exact Hpos|].
  exact (proj1 (calculate_bpm_only_guards_empty _ Hne) Hpos).
Defined.

(** ** Concrete runs *)

(** A full window: the rewrite drops the oldest row and keeps 250. *)
Example full_window_evicts_oldest :
  Simulator.rewrite_window
    (stream_of_rows (Examples.old_flag ++ repeat (Examples.calm "10:15:07.000" 0.25) 249))
    (Examples.calm "10:15:12.000" 0.5)
  = Some (stream_of_rows
            (repeat (Examples.calm "10:15:07.000" 0.25) 249
             ++ [Examples.calm "10:15:12.000" 0.5])).
Proof. vm_compute. reflexivity. Qed.

(** The dashboard on three rows: the title is the alert and the number
    printed is 79.9, for 75 + 0.9731 * 5 = 79.8655. *)
Example dashboard_on_three_rows :
  App.update_main_dashboard_auto 7 "/" (stream_of_rows Examples.flag_in_the_middle)
  = App.DashUpdate
      (App.mkDashboardFigure [0; 1; 2] [0.0213; 0.9731; -0.1045]%Q "#ef4444"
         App.AlertaArritmiaDetectada)
      79.9%Q.
Proof. reflexivity. Qed.

(** The format on a tie, on a negative value and on a value that needs no
    rounding. *)
Example format_1f_values :
  (format_1f 79.75 = 79.8%Q) /\ (format_1f 79.25 = 79.2%Q) /\
  (format_1f (-0.26) = (-0.3)%Q) /\ (format_1f 80 = (800 # 10)%Q).
Proof. repeat split. Qed.

(** The phase switches at the counts 20 and 40 in app.py, 100 and 200 in
    simulator.py. *)
Example phase_switches :
  map App.exercise_phase [0; 19; 20; 39; 40]
    = ["extension"; "extension"; "flexion"; "flexion"; "extension"] /\
  map Simulator.exercise_phase [0; 99; 100; 199; 200]
    = ["extension"; "extension"; "flexion"; "flexion"; "extension"].
Proof. split; reflexivity. Qed.

(** Elsewhere than on the dashboard page nothing is read. *)
Example dashboard_other_page :
  App.update_main_dashboard_auto 7 "/citas"
    (stream_of_rows Examples.flag_in_the_middle)
  = App.DashNoUpdate.
Proof. reflexivity. Qed.

(** An empty file makes [read_csv] raise; the handlers answer. *)
Example readers_on_empty_file :
  App.update_main_dashboard_auto 7 "/" (Some []) = App.DashNoUpdate /\
  App.monitor_patient_health 7 (Some "ana") (Some []) = App.MonitorNoUpdate /\
  App.update_sensor_charts 7 true (Some []) = App.SensorError.
Proof. repeat split. Qed.

(** The doctor's monitor on a flagged row followed by 100 rows without
    flags: no alert, a green line. *)
Example monitor_after_hundred_calm_rows :
  exists fig,
    App.monitor_patient_health 7 (Some "ana")
      (stream_of_rows (Examples.old_flag ++ Examples.hundred_calm))
    = App.MonitorUpdate [] fig /\
    App.doctor_line_color fig = "green".
Proof. eexists. split; reflexivity. Qed.

(** With the flagged row among the last 100, the monitor raises the
    critical alert although the dashboard, which takes 50 rows, does not. *)
Example monitor_sees_further_than_dashboard :
  monitor_reports_arrhythmia
    (App.monitor_patient_health 7 (Some "ana")
       (stream_of_rows (Examples.old_flag ++ Examples.fifty_calm))) = true /\
  dashboard_reports_arrhythmia
    (App.update_main_dashboard_auto 7 "/"
       (stream_of_rows (Examples.old_flag ++ Examples.fifty_calm))) = false.
Proof. split; reflexivity. Qed.

(** Should the file vanish between the test of [os.path.exists] and the
    read, the [try] blocks raise and the [except] clauses answer with the
    no-update outputs. *)
Example try_blocks_on_missing_file :
  App.dashboard_try None = None /\
  App.monitor_try "ana" None = None /\
  App.sensor_try None = None.
Proof. repeat split. Qed.

(** ** Increasing times *)

Lemma fold_left_Qplus_pos (xs : list Q) (acc : Q) :
  (0 <= acc)%Q -> Forall (fun x => (0 < x)%Q) xs -> xs <> [] ->
  (0 < fold_left Qplus xs acc)%Q.
Proof.
  revert acc. induction xs as [|x xs IH]; intros acc Hacc Hpos Hne.
  - congruence.
  - inversion Hpos as [|? ? Hx Hxs]; subst. simpl.
    assert (Hacc' : (0 < acc + x)%Q).
    { apply Qlt_le_trans with (0 + x)%Q.
      - rewrite Qplus_0_l. exact Hx.
      - apply Qplus_le_l. exact Hacc. }
    destruct xs as [|y ys].
    + exact Hacc'.
    + apply IH; [now apply Qlt_le_weak | exact Hxs | discriminate].
Qed.

Lemma np_diff_positive (xs : list Q) :
  increasing xs -> Forall (fun d => (0 < d)%Q) (Sensors.np_diff xs).
Proof.
  induction xs as [|a [|b xs] IH]; intros Hinc; try constructor.
  - change ((0 < b + - a)%Q).
    apply -> Qlt_minus_iff. apply (Hinc 0%nat); reflexivity.
  - apply IH. intros i x y Hx Hy. apply (Hinc (S i)); assumption.
Qed.

(** On a non-empty list of positive intervals the mean is positive, so
    [calculate_bpm] divides by a non-zero number. *)
Lemma average_positive (rr : list Q) :
  rr <> [] -> Forall (fun d => (0 < d)%Q) rr -> (0 < Sensors.average rr)%Q.
Proof.
  intros Hne Hpos. unfold Sensors.average, Sensors.total.
  apply Qlt_shift_div_l.
  - destruct rr as [|x rr]; [congruence|].
    unfold Qlt. simpl. lia.
  - rewrite Qmult_0_l.
    apply fold_left_Qplus_pos; [apply Qle_refl | exact Hpos | exact Hne].
Qed.

(** With increasing times and two peaks or more, in increasing order, the
    estimator returns the finite number 60 / mean. *)
Lemma bpm_finite_on_increasing_times
      (find_peaks : list Q -> nat -> Q -> list nat) (df : list (Q * Q)) :
  let peaks := find_peaks (Sensors.center (map snd df)) 50 0.5%Q in
  Forall (fun i => i < length df) peaks ->
  (forall i j x y, i < j -> nth_error (map fst df) i = Some x ->
                   nth_error (map fst df) j = Some y -> (x < y)%Q) ->
  (forall i p q, nth_error peaks i = Some p ->
                 nth_error peaks (S i) = Some q -> p < q) ->
  2 <= length peaks ->
  exists rr,
    rr <> [] /\ (0 < Sensors.average rr)%Q /\
    Sensors.load_ecg_and_compute_bpm find_peaks df
      = Some (map fst df, Sensors.center (map snd df),
              Sensors.Finite (60 / Sensors.average rr)).
Proof.
  intros peaks Hidx Ht Hpeaks H2.
  destruct (take_defined (map fst df) peaks) as [t_peaks [Htake [Hlen Hnth]]].
  { rewrite length_map. exact Hidx. }
  assert (Hne : Sensors.np_diff t_peaks <> []).
  { intros E. apply (f_equal (@length Q)) in E.
    rewrite np_diff_length, Hlen in E. simpl in E. lia. }
  assert (Hinc : increasing t_peaks).
  { intros i a b Ha Hb.
    destruct (nth_error peaks i) as [p|] eqn:Ep.
    2:{ apply nth_error_None in Ep.
        assert (i < length t_peaks) by (apply nth_error_Some; congruence).
        lia. }
    destruct (nth_error peaks (S i)) as [q|] eqn:Eq.
    2:{ apply nth_error_None in Eq.
        assert (S i < length t_peaks) by (apply nth_error_Some; congruence).
        lia. }
    apply (Ht p q); [eapply Hpeaks; eassumption | |].
    - rewrite <- (Hnth i p Ep). exact Ha.
    - rewrite <- (Hnth (S i) q Eq). exact Hb. }
  pose proof (average_positive _ Hne (np_diff_positive _ Hinc)) as Hpos.
  exists (Sensors.np_diff t_peaks).
  split; [exact Hne|]. split; [exact Hpos|].
  unfold Sensors.load_ecg_and_compute_bpm. fold peaks.
  rewrite Htake. simpl bind.
  rewrite calculate_bpm_nonempty by exact Hne.
  rewrite np_rdiv_nonzero; [reflexivity|].
  intros E. rewrite E in Hpos. discriminate Hpos.
Qed.

(** * Further properties of the pipeline *)

(** ** The transport *)

(** X1. One rewrite of a readable file of any size leaves the header and the
    last 250 of its rows followed by the new one: an oversized file is cut
    back in one step, and the new row is always the last. *)
Theorem rewrite_window_any_size :
  forall (rows : list Sample) (s : Sample),
  exists window : list Sample,
    Simulator.rewrite_window (stream_of_rows rows) s
      = Some (stream_of_rows window) /\
    window = slice_last 250 (rows ++ [s]) /\
    length window = Nat.min (S (length rows)) 250 /\
    last window s = s /\
    nth_error window (length window - 1) = Some s.
Proof.
  intros rows s.
  exists (slice_last 250 (rows ++ [s])).
  assert (Hsnoc : slice_last 250 (rows ++ [s]) = slice_last 249 rows ++ [s])
    by apply (slice_last_snoc 249).
  split.
  { unfold Simulator.rewrite_window, stream_of_rows.
    do 3 f_equal. rewrite Hsnoc, map_app. simpl map. f_equal.
    change Simulator.MAX_SAMPLES with 250.
    simpl length. rewrite length_map.
    destruct (Nat.ltb_spec 250 (S (length rows))) as [Hfull | Hroom].
    - simpl Nat.sub. rewrite slice_last_cons by (rewrite length_map; lia).
      apply slice_last_map.
    - simpl tl. rewrite slice_last_all by lia. reflexivity. }
  split; [reflexivity|].
  split.
  { rewrite slice_last_length, length_app. simpl. lia. }
  rewrite Hsnoc. split.
  - apply last_last.
  - rewrite length_app. simpl length.
    replace (length (slice_last 249 rows) + 1 - 1)
      with (length (slice_last 249 rows) + 0) by lia.
    rewrite nth_error_app2 by lia.
    replace (length (slice_last 249 rows) + 0 - length (slice_last 249 rows))
      with 0 by lia.
    reflexivity.
Qed.

Lemma iterate_fails_on {A} (f : A -> option A) (n k : nat) (a : A) :
  iterate f n a = None -> iterate f (k + n) a = None.
Proof.
  intros H. induction k as [|k IH]; simpl.
  - exact H.
  - rewrite IH. reflexivity.
Qed.

Lemma iterate_split {A} (f : A -> option A) (n k : nat) (a : A) :
  iterate f (k + n) a = bind (iterate f n a) (iterate f k).
Proof.
  induction k as [|k IH]; simpl.
  - destruct (iterate f n a); reflexivity.
  - rewrite IH. destruct (iterate f n a); reflexivity.
Qed.

(** Membership in the last [k] of the first [n] rows produced. *)
Lemma in_last_produced (row : nat -> Sample) (k n : nat) (s : Sample) :
  In s (tail k (produced row n)) <->
  exists i, n - k <= i < n /\ s = row i.
Proof.
  unfold tail, slice_last, produced.
  rewrite length_map, length_seq, skipn_map, skipn_seq, in_map_iff.
  split.
  - intros [i [<- Hi]]. apply in_seq in Hi. exists i. split; [lia | reflexivity].
  - intros [i [Hi ->]]. exists i. split; [reflexivity|]. apply in_seq. lia.
Qed.

(** The flags shown by the readers on a readable file, as booleans. *)
Lemma dashboard_flag (n : nat) (rows : list Sample) :
  dashboard_reports_arrhythmia
    (App.update_main_dashboard_auto n "/" (stream_of_rows rows))
  = any_arrhythmia (tail 50 rows).
Proof.
  unfold stream_of_rows.
  destruct (list_eq_dec_nil (tail 50 rows)) as [E | E].
  - rewrite dashboard_on_empty by exact E. rewrite E. reflexivity.
  - destruct (dashboard_on_rows n rows E) as [m [_ ->]].
    cbn [dashboard_reports_arrhythmia App.dash_title].
    destruct (any_arrhythmia (tail 50 rows)); reflexivity.
Qed.

Lemma monitor_flags (n : nat) (name : string) (rows : list Sample) :
  name <> "" ->
  monitor_reports_arrhythmia
    (App.monitor_patient_health n (Some name) (stream_of_rows rows))
  = any_arrhythmia (tail 100 rows) /\
  monitor_reports_fatigue
    (App.monitor_patient_health n (Some name) (stream_of_rows rows))
  = any_fatigue (tail 100 rows).
Proof.
  intros Hname. unfold stream_of_rows.
  rewrite monitor_on_rows by exact Hname.
  destruct (any_arrhythmia (tail 100 rows)), (any_fatigue (tail 100 rows));
    split; reflexivity.
Qed.

Lemma sensor_on_short (n : nat) (rows : list Sample) :
  length (tail 50 rows) < 2 ->
  App.update_sensor_charts n true (stream_of_rows rows) = App.SensorCollecting.
Proof.
  intros Hlen. unfold stream_of_rows, App.update_sensor_charts, App.sensor_try.
  rewrite read_csv_rows. cbn [negb orb path_exists bind].
  destruct (Nat.eqb_spec (length (tail 50 rows)) 0) as [E0 | E0];
    [reflexivity|].
  destruct (Nat.ltb_spec (length (tail 50 rows)) 2) as [E2 | E2];
    [reflexivity | lia].
Qed.

Lemma sensor_flags (n : nat) (rows : list Sample) :
  sensor_reports_arrhythmia
    (App.update_sensor_charts n true (stream_of_rows rows))
  = (2 <=? length (tail 50 rows)) && any_arrhythmia (tail 50 rows) /\
  sensor_reports_fatigue
    (App.update_sensor_charts n true (stream_of_rows rows))
  = (2 <=? length (tail 50 rows)) && any_fatigue (tail 50 rows).
Proof.
  destruct (Nat.leb_spec 2 (length (tail 50 rows))) as [H | H].
  - unfold stream_of_rows. rewrite sensor_on_rows by exact H.
    destruct (any_arrhythmia (tail 50 rows)), (any_fatigue (tail 50 rows));
      split; reflexivity.
  - rewrite sensor_on_short by exact H. split; reflexivity.
Qed.

Lemma tail_length (k : nat) (rows : list Sample) :
  length (tail k rows) = Nat.min (length rows) k.
Proof. apply slice_last_length. Qed.

(** X2. The producer of app.py never removes a row: after [n] iterations the
    transport holds the [n] rows written, oldest first, whatever the file
    system held before. *)
Theorem app_transport_keeps_every_row :
  forall (env : Environment) (n : nat) (f : StreamFile),
  exists st : ProducerState,
    App.run_simulator env n f = Some st /\
    sample_count st = n /\
    read_csv (stream st) = Some (produced (App.row env) n) /\
    (forall i, i < n ->
       nth_error (produced (App.row env) n) i = Some (App.row env i)) /\
    length (produced (App.row env) n) = n.
Proof.
  intros env n f. eexists.
  split; [apply app_run_simulator_state|].
  split; [reflexivity|].
  split; [apply read_csv_rows|].
  split; [intros i Hi; now apply produced_nth | apply produced_length].
Qed.

Section ProducerToReaders.
Local Open Scope R_scope.

(** X3. After [n] iterations of app.py's producer, what its readers show is
    decided by the draws of the last 50 iterations (100 for the doctor's
    monitor): the arrhythmia flag is up exactly when one of those noise
    draws was above 0.12 in magnitude.  The exercise modal shows nothing
    before the second row, the dashboard nothing before the first. *)
Theorem readers_follow_recent_draws :
  forall (env : Environment) (n k : nat) (name : string) (f : StreamFile),
    name <> "" ->
    exists st : ProducerState,
      App.run_simulator env n f = Some st /\
      (dashboard_reports_arrhythmia
         (App.update_main_dashboard_auto k "/" (stream st)) = true
       <-> exists i, (n - 50 <= i < n)%nat /\
                     0.12 < Rabs (draw_noise (tick env i))) /\
      (monitor_reports_arrhythmia
         (App.monitor_patient_health k (Some name) (stream st)) = true
       <-> exists i, (n - 100 <= i < n)%nat /\
                     0.12 < Rabs (draw_noise (tick env i))) /\
      (sensor_reports_arrhythmia
         (App.update_sensor_charts k true (stream st)) = true
       <-> (2 <= n)%nat /\
           exists i, (n - 50 <= i < n)%nat /\
                     0.12 < Rabs (draw_noise (tick env i))) /\
      ((n < 2)%nat ->
       App.update_sensor_charts k true (stream st) = App.SensorCollecting) /\
      (n = 0%nat ->
       App.update_main_dashboard_auto k "/" (stream st) = App.DashNoUpdate).
Proof.
  intros env n k name f Hname. eexists.
  split; [apply app_run_simulator_state|].
  cbn [stream].
  change (Some (HeaderLine :: map RowLine (produced (App.row env) n)))
    with (stream_of_rows (produced (App.row env) n)).
  assert (Hflag : forall w,
             any_arrhythmia (tail w (produced (App.row env) n)) = true <->
             exists i, (n - w <= i < n)%nat /\
                       0.12 < Rabs (draw_noise (tick env i))).
  { intros w. rewrite any_arrhythmia_spec. split.
    - intros [s [Hin Hs]]. apply in_last_produced in Hin.
      destruct Hin as [i [Hi ->]]. exists i. split; [exact Hi|].
      rewrite app_row_status_ecg in Hs.
      destruct (Rltb 0.12 (Rabs (draw_noise (tick env i)))) eqn:E;
        [now apply Rltb_true | discriminate].
    - intros [i [Hi Hn]]. exists (App.row env i). split.
      + apply in_last_produced. exists i. split; [exact Hi | reflexivity].
      + rewrite app_row_status_ecg. apply Rltb_true in Hn. rewrite Hn.
        reflexivity. }
  split; [rewrite dashboard_flag; apply Hflag|].
  split; [rewrite (proj1 (monitor_flags k name _ Hname)); apply Hflag|].
  split.
  { rewrite (proj1 (sensor_flags k _)), andb_true_iff, Hflag.
    rewrite tail_length, produced_length, Nat.leb_le. split.
    - intros [H2 He]. split; [lia | exact He].
    - intros [H2 He]. split; [lia | exact He]. }
  split.
  - intros Hn. apply sensor_on_short.
    rewrite tail_length, produced_length. lia.
  - intros ->. apply dashboard_on_empty. reflexivity.
Qed.

Lemma readers_of_a_still_producer :
  exists st : ProducerState,
    App.run_simulator Examples.still_env 1 None = Some st /\
    App.update_sensor_charts 0 true (stream st) = App.SensorCollecting.
Proof.
  assert (Hname : "paciente.torn" <> "") by discriminate.
  destruct (readers_follow_recent_draws Examples.still_env 1 0
              "paciente.torn" None Hname)
    as [st [Hrun [_ [_ [_ [Hshort _]]]]]].
  exists st. split; [exact Hrun | apply Hshort; lia].
Defined.

End ProducerToReaders.

(** ** Shapes of the reader outputs *)

Lemma pad_front_length (ys : list Q) :
  length ys <= 50 -> length (App.pad_front ys) = 50.
Proof.
  intros H. unfold App.pad_front.
  rewrite length_app, repeat_length, length_map. lia.
Qed.

(** X4. Whenever the exercise modal draws its charts, the modal is open, the
    transport is readable and holds two rows or more, and both curves have
    exactly 50 points for the 50 abscissas: [None] in front, then the
    values of the window in order. *)
Theorem live_charts_have_fifty_points :
  forall (n : nat) (is_open : bool) (f : StreamFile)
         (fig_ecg fig_imu : App.LiveFigure)
         (ecg_msg : App.EcgMsg) (imu_msg : App.ImuMsg),
    App.update_sensor_charts n is_open f
      = App.SensorCharts fig_ecg fig_imu ecg_msg imu_msg ->
    is_open = true /\
    exists rows : list Sample,
      read_csv f = Some rows /\
      2 <= length (tail 50 rows) <= 50 /\
      App.live_x fig_ecg = seq 0 50 /\
      App.live_x fig_imu = seq 0 50 /\
      length (App.live_y fig_ecg) = 50 /\
      length (App.live_y fig_imu) = 50 /\
      App.live_y fig_ecg
        = repeat None (50 - length (tail 50 rows))
          ++ map Some (map ecg (tail 50 rows)) /\
      App.live_y fig_imu
        = repeat None (50 - length (tail 50 rows))
          ++ map Some (map accel_x (tail 50 rows)).
Proof.
  intros n is_open f fig_ecg fig_imu ecg_msg imu_msg H.
  destruct is_open; [|discriminate H]. split; [reflexivity|].
  destruct f as [ls|]; [|discriminate H].
  destruct (read_csv (Some ls)) as [rows|] eqn:Hread.
  2:{ unfold App.update_sensor_charts, App.sensor_try in H.
      rewrite Hread in H. discriminate H. }
  exists rows. split; [reflexivity|].
  assert (Hle : length (tail 50 rows) <= 50)
    by (rewrite tail_length; lia).
  apply read_csv_inv in Hread. rewrite Hread in H.
  fold (stream_of_rows rows) in H.
  destruct (Nat.lt_ge_cases (length (tail 50 rows)) 2) as [Hshort | Hlong].
  { rewrite sensor_on_short in H by exact Hshort. discriminate H. }
  split; [lia|].
  unfold stream_of_rows in H. rewrite sensor_on_rows in H by exact Hlong.
  injection H as <- <- _ _.
  cbn [App.live_x App.live_y].
  repeat split.
  - apply pad_front_length. rewrite length_map. exact Hle.
  - apply pad_front_length. rewrite length_map. exact Hle.
  - unfold App.pad_front. rewrite length_map. reflexivity.
  - unfold App.pad_front. rewrite length_map. reflexivity.
Qed.

(** Three rows give charts with 47 blanks in front. *)
Lemma live_charts_of_three_rows :
  exists fig_ecg fig_imu ecg_msg imu_msg,
    App.update_sensor_charts 7 true (stream_of_rows Examples.flag_in_the_middle)
      = App.SensorCharts fig_ecg fig_imu ecg_msg imu_msg /\
    length (App.live_y fig_ecg) = 50 /\
    length (App.live_y fig_imu) = 50.
Proof.
  eexists; eexists; eexists; eexists.
  assert (H : App.update_sensor_charts 7 true
                (stream_of_rows Examples.flag_in_the_middle)
              = App.SensorCharts
                  (App.mkLiveFigure (seq 0 50)
                     (App.pad_front (map ecg Examples.flag_in_the_middle))
                     "#ef4444")
                  (App.mkLiveFigure (seq 0 50)
                     (App.pad_front (map accel_x Examples.flag_in_the_middle))
                     "#3b82f6")
                  App.ArritmiaDetectada App.MovimientoFluido)
    by reflexivity.
  split; [exact H|].
  destruct (live_charts_have_fifty_points _ _ _ _ _ _ _ H)
    as [_ [rows [_ [_ [_ [_ [H1 [H2 _]]]]]]]].
  split; [exact H1 | exact H2].
Defined.

(** X5. The dashboard redraws only on its own page and on a readable transport
    with at least one row; the curve then has one point per row of the
    window, at most 50, numbered from 0. *)
Theorem dashboard_redraws_only_with_data :
  forall (n : nat) (pathname : string) (f : StreamFile)
         (fig : App.DashboardFigure) (bpm : Q),
    App.update_main_dashboard_auto n pathname f = App.DashUpdate fig bpm ->
    pathname = "/" /\
    exists rows : list Sample,
      read_csv f = Some rows /\
      rows <> [] /\
      App.dash_y fig = map ecg (tail 50 rows) /\
      App.dash_x fig = seq 0 (length (App.dash_y fig)) /\
      1 <= length (App.dash_y fig) <= 50 /\
      length (App.dash_y fig) = Nat.min (length rows) 50.
Proof.
  intros n pathname f fig bpm H.
  destruct (String.eqb_spec pathname "/") as [-> | Hp].
  2:{ unfold App.update_main_dashboard_auto in H.
      apply String.eqb_neq in Hp. rewrite Hp in H. discriminate H. }
  split; [reflexivity|].
  destruct f as [ls|]; [|discriminate H].
  destruct (read_csv (Some ls)) as [rows|] eqn:Hread.
  2:{ unfold App.update_main_dashboard_auto, App.dashboard_try in H.
      rewrite Hread in H. discriminate H. }
  exists rows. split; [reflexivity|].
  apply read_csv_inv in Hread. rewrite Hread in H.
  destruct (list_eq_dec_nil (tail 50 rows)) as [E | E].
  { rewrite dashboard_on_empty in H by exact E. discriminate H. }
  destruct (dashboard_on_rows n rows E) as [m [_ E']].
  rewrite E' in H. injection H as <- _.
  cbn [App.dash_x App.dash_y].
  assert (Hlen : length (tail 50 rows) = Nat.min (length rows) 50)
    by apply tail_length.
  assert (Hpos : length (tail 50 rows) <> 0).
  { intros E0. apply E. now apply length_zero_iff_nil. }
  split.
  { intros ->. apply E. reflexivity. }
  rewrite !length_map. repeat split; lia.
Qed.

Lemma dashboard_redraw_of_three_rows :
  exists fig bpm,
    App.update_main_dashboard_auto 7 "/"
      (stream_of_rows Examples.flag_in_the_middle) = App.DashUpdate fig bpm /\
    length (App.dash_y fig) = 3.
Proof.
  eexists; eexists.
  assert (H : App.update_main_dashboard_auto 7 "/"
                (stream_of_rows Examples.flag_in_the_middle)
              = App.DashUpdate
                  (App.mkDashboardFigure [0; 1; 2]
                     [0.0213; 0.9731; -0.1045]%Q "#ef4444"
                     App.AlertaArritmiaDetectada)
                  79.9%Q)
    by reflexivity.
  split; [exact H|].
  destruct (dashboard_redraws_only_with_data _ _ _ _ _ H)
    as [_ [rows [_ [_ [_ [_ [_ Hlen]]]]]]].
  reflexivity.
Defined.

(** ** Fatigue flags and the alerts of the monitor *)

(** X6. The fatigue flag is, like the arrhythmia flag, an OR over the window:
    the doctor's monitor raises its fatigue notice exactly when some row of
    the last 100 has [status_imu] equal to RED_FLAG_FATIGUE, and the
    exercise modal shows "FATIGA DETECTADA" exactly when the window has two
    rows or more and some row of the last 50 has it. *)
Theorem fatigue_flag_is_or_over_window :
  forall (n : nat) (name : string) (rows : list Sample),
    name <> "" ->
    (monitor_reports_fatigue
       (App.monitor_patient_health n (Some name) (stream_of_rows rows)) = true
     <-> exists s, In s (tail 100 rows) /\ status_imu s = RED_FLAG_FATIGUE) /\
    (sensor_reports_fatigue
       (App.update_sensor_charts n true (stream_of_rows rows)) = true
     <-> 2 <= length (tail 50 rows) /\
         exists s, In s (tail 50 rows) /\ status_imu s = RED_FLAG_FATIGUE).
Proof.
  intros n name rows Hname. split.
  - rewrite (proj2 (monitor_flags n name rows Hname)). apply any_fatigue_spec.
  - rewrite (proj2 (sensor_flags n rows)), andb_true_iff, Nat.leb_le.
    rewrite any_fatigue_spec. reflexivity.
Qed.

(** X7. The doctor's monitor, once a patient is selected, answers on every
    readable transport, an empty one included: at most one alert of each
    kind, the critical one first and naming the patient, a red line exactly
    when the critical alert is there, and one point per row of the
    window. *)
Theorem monitor_alerts_shape :
  forall (n : nat) (name : string) (rows : list Sample),
    name <> "" ->
    exists (alerts : list App.Alert) (fig : App.DoctorFigure),
      App.monitor_patient_health n (Some name) (stream_of_rows rows)
        = App.MonitorUpdate alerts fig /\
      (alerts = [] \/ alerts = [App.AlertaCriticaArritmia name] \/
       alerts = [App.AvisoFatiga] \/
       alerts = [App.AlertaCriticaArritmia name; App.AvisoFatiga]) /\
      (App.doctor_line_color fig = "red"
       <-> In (App.AlertaCriticaArritmia name) alerts) /\
      (App.doctor_line_color fig = "green"
       <-> ~ In (App.AlertaCriticaArritmia name) alerts) /\
      App.doctor_x fig = map timestamp (tail 100 rows) /\
      App.doctor_y fig = map ecg (tail 100 rows) /\
      length (App.doctor_x fig) = Nat.min (length rows) 100.
Proof.
  intros n name rows Hname.
  unfold stream_of_rows. rewrite monitor_on_rows by exact Hname.
  eexists; eexists. split; [reflexivity|].
  cbn [App.doctor_line_color App.doctor_x App.doctor_y].
  rewrite length_map, tail_length.
  assert (Hno : forall rest : list App.Alert,
             (forall a, In a rest -> a = App.AvisoFatiga) ->
             ~ In (App.AlertaCriticaArritmia name) rest).
  { intros rest Hrest Hin. apply Hrest in Hin. discriminate Hin. }
  destruct (any_arrhythmia (tail 100 rows)), (any_fatigue (tail 100 rows));
    cbn [app].
  - split; [auto|]. split; [split; [intros _; left; reflexivity | reflexivity]|].
    split; [split; [discriminate | intros H; exfalso; apply H; left; reflexivity]|].
    repeat split.
  - split; [auto|]. split; [split; [intros _; left; reflexivity | reflexivity]|].
    split; [split; [discriminate | intros H; exfalso; apply H; left; reflexivity]|].
    repeat split.
  - assert (H1 : ~ In (App.AlertaCriticaArritmia name) [App.AvisoFatiga]).
    { apply Hno. intros a [<- | []]. reflexivity. }
    split; [auto|]. split; [split; [discriminate | intros H; contradiction]|].
    split; [split; [intros _; exact H1 | reflexivity]|].
    repeat split.
  - split; [auto|]. split; [split; [discriminate | intros []]|].
    split; [split; [intros _ [] | reflexivity]|].
    repeat split.
Qed.

Lemma monitor_alerts_of_three_rows :
  "ana" <> "" /\
  exists alerts fig,
    App.monitor_patient_health 7 (Some "ana")
      (stream_of_rows Examples.flag_in_the_middle)
      = App.MonitorUpdate alerts fig /\
    (App.doctor_line_color fig = "red"
     <-> In (App.AlertaCriticaArritmia "ana") alerts).
Proof.
  assert (Hname : "ana" <> "") by discriminate.
  split; [exact Hname|].
  destruct (monitor_alerts_shape 7 "ana" Examples.flag_in_the_middle Hname)
    as [alerts [fig [H [_ [Hred _]]]]].
  exists alerts, fig. split; [exact H | exact Hred].
Defined.

Lemma fatigue_flag_of_three_rows :
  "ana" <> "" /\
  (sensor_reports_fatigue
     (App.update_sensor_charts 7 true
        (stream_of_rows Examples.flag_in_the_middle)) = true
   <-> 2 <= length (tail 50 Examples.flag_in_the_middle) /\
       exists s, In s (tail 50 Examples.flag_in_the_middle) /\
                 status_imu s = RED_FLAG_FATIGUE).
Proof.
  assert (Hname : "ana" <> "") by discriminate.
  split; [exact Hname|].
  exact (proj2 (fatigue_flag_is_or_over_window 7 "ana"
                  Examples.flag_in_the_middle Hname)).
Defined.

(** ** Waveforms *)

Section Waveforms.
Local Open Scope R_scope.

Lemma Rleb_true (x y : R) : Rleb x y = true <-> x <= y.
Proof.
  unfold Rleb. destruct (Rle_dec x y); split; intros H;
    try reflexivity; try assumption; try discriminate; contradiction.
Qed.

(** Half a sine arch: non-negative and at most 1. *)
Lemma sin_half_arch (p : R) : 0 <= p <= 1 -> 0 <= sin (PI * p) <= 1.
Proof.
  intros [H0 H1]. pose proof PI_RGT_0 as Hpi. split.
  - apply sin_ge_0; nra.
  - apply SIN_bound.
Qed.

Lemma exp_nonpos_le_1 (y : R) : y <= 0 -> 0 < exp y <= 1.
Proof.
  intros H. split; [apply exp_pos|].
  destruct H as [H | ->].
  - rewrite <- exp_0. left. now apply exp_increasing.
  - rewrite exp_0. lra.
Qed.

Lemma simulator_ecg_sample_bounds (heart_rate t noise : R) :
  - 0.1 <= fst (Simulator.ecg_sample heart_rate t noise) - noise <= 1.
Proof.
  unfold Simulator.ecg_sample. cbv zeta. cbn [fst].
  set (nt := fmod t (1 / heart_rate) / (1 / heart_rate)).
  destruct (Rleb 0 nt && Rltb nt 0.12) eqn:EP.
  { apply andb_true_iff in EP. destruct EP as [H0 H1].
    apply Rleb_true in H0. apply Rltb_true in H1.
    pose proof (sin_half_arch (nt / 0.12)) as Hs.
    assert (Hp : 0 <= nt / 0.12 <= 1) by (split; lra).
    specialize (Hs Hp). lra. }
  destruct (Rleb 0.15 nt && Rltb nt 0.30) eqn:EQ.
  { apply andb_true_iff in EQ. destruct EQ as [H0 H1].
    apply Rleb_true in H0. apply Rltb_true in H1.
    set (qrs := (nt - 0.15) / 0.15).
    assert (Hq : 0 <= qrs < 1) by (unfold qrs; split; lra).
    destruct (Rltb qrs 0.1) eqn:E1.
    { apply Rltb_true in E1.
      pose proof (sin_half_arch (qrs / 0.1)) as Hs.
      assert (Hp : 0 <= qrs / 0.1 <= 1) by (split; lra).
      specialize (Hs Hp). lra. }
    apply Rltb_false in E1.
    destruct (Rltb qrs 0.4) eqn:E2.
    { apply Rltb_true in E2.
      pose proof (sin_half_arch ((qrs - 0.1) / 0.3)) as Hs.
      assert (Hp : 0 <= (qrs - 0.1) / 0.3 <= 1) by (split; lra).
      specialize (Hs Hp). lra. }
    apply Rltb_false in E2.
    pose proof (sin_half_arch ((qrs - 0.4) / 0.6)) as Hs.
    assert (Hp : 0 <= (qrs - 0.4) / 0.6 <= 1) by (split; lra).
    specialize (Hs Hp). lra. }
  destruct (Rleb 0.40 nt && Rltb nt 0.65) eqn:ET.
  { apply andb_true_iff in ET. destruct ET as [H0 H1].
    apply Rleb_true in H0. apply Rltb_true in H1.
    pose proof (sin_half_arch ((nt - 0.40) / 0.25)) as Hs.
    assert (Hp : 0 <= (nt - 0.40) / 0.25 <= 1) by (split; lra).
    specialize (Hs Hp). lra. }
  lra.
Qed.

Lemma ecg_fails_at_zero (t noise : R) :
  Simulator.generate_ecg_sample t 0 noise = None /\
  App.generate_ecg_sample t 0 noise = None.
Proof.
  unfold Simulator.generate_ecg_sample, App.generate_ecg_sample. cbv zeta.
  destruct (Req_dec_T (0 / 60) 0) as [_ | H]; [split; reflexivity|].
  exfalso. apply H. lra.
Qed.

(** X8. For a heart rate that is not zero, [generate_ecg_sample] of
    simulator.py returns, and its ECG is the noise draw plus a waveform
    that stays between -0.1 (the S wave) and 1 (the R wave), at every
    time; at [base_bpm = 0] it raises. *)
Theorem simulator_ecg_waveform_bounds :
  forall t base_bpm noise : R,
    base_bpm <> 0 ->
    (exists (ecg : R) (status : string),
        Simulator.generate_ecg_sample t base_bpm noise = Some (ecg, status) /\
        - 0.1 <= ecg - noise <= 1) /\
    Simulator.generate_ecg_sample t 0 noise = None.
Proof.
  intros t base_bpm noise Hbpm.
  split; [|apply ecg_fails_at_zero].
  rewrite simulator_ecg_at by exact Hbpm.
  exists (fst (Simulator.ecg_sample (base_bpm / 60) t noise)).
  exists (snd (Simulator.ecg_sample (base_bpm / 60) t noise)).
  split; [rewrite <- surjective_pairing; reflexivity|].
  apply simulator_ecg_sample_bounds.
Qed.

Lemma simulator_ecg_bounds_at_75_bpm :
  exists (ecg : R) (status : string),
    Simulator.generate_ecg_sample 1.3 75 0.004 = Some (ecg, status) /\
    - 0.1 <= ecg - 0.004 <= 1.
Proof.
  assert (Hbpm : 75 <> 0) by lra.
  exact (proj1 (simulator_ecg_waveform_bounds 1.3 75 0.004 Hbpm)).
Defined.

Lemma app_ecg_sample_bounds (heart_rate t noise : R) :
  - 0.5 <= fst (App.ecg_sample heart_rate t noise) - noise <= 1.3.
Proof.
  unfold App.ecg_sample. cbv zeta. cbn [fst].
  pose proof (SIN_bound (2 * PI * heart_rate * t)) as [Hlo Hhi].
  set (q := fmod t (1 / heart_rate)).
  destruct (Rltb 0.1 q && Rltb q 0.2).
  - assert (He : 0 < exp (- (q - 0.15) ^ 2 / 0.001) <= 1).
    { apply exp_nonpos_le_1.
      assert (0 <= (q - 0.15) ^ 2) by (apply pow2_ge_0).
      unfold Rdiv. assert (0 < / 0.001) by (apply Rinv_0_lt_compat; lra).
      nra. }
    lra.
  - lra.
Qed.

(** X9. For a heart rate that is not zero, [generate_ecg_sample] of app.py
    returns, and its ECG is the noise draw plus a waveform between -0.5
    and 1.3: a sine of amplitude 0.5 and, inside the QRS window, a
    positive bump of at most 0.8; at [base_bpm = 0] it raises. *)
Theorem app_ecg_waveform_bounds :
  forall t base_bpm noise : R,
    base_bpm <> 0 ->
    (exists (ecg : R) (status : string),
        App.generate_ecg_sample t base_bpm noise = Some (ecg, status) /\
        - 0.5 <= ecg - noise <= 1.3) /\
    App.generate_ecg_sample t 0 noise = None.
Proof.
  intros t base_bpm noise Hbpm.
  split; [|apply ecg_fails_at_zero].
  rewrite app_ecg_at by exact Hbpm.
  exists (fst (App.ecg_sample (base_bpm / 60) t noise)).
  exists (snd (App.ecg_sample (base_bpm / 60) t noise)).
  split; [rewrite <- surjective_pairing; reflexivity|].
  apply app_ecg_sample_bounds.
Qed.

Lemma app_ecg_bounds_at_75_bpm :
  exists (ecg : R) (status : string),
    App.generate_ecg_sample 1.3 75 0.004 = Some (ecg, status) /\
    - 0.5 <= ecg - 0.004 <= 1.3.
Proof.
  assert (Hbpm : 75 <> 0) by lra.
  exact (proj1 (app_ecg_waveform_bounds 1.3 75 0.004 Hbpm)).
Defined.

(** X10. In simulator.py the clamp to [0, 100] never acts: the knee angle is the
    sinusoid itself, between 30 and 60 degrees in extension and between 25
    and 95 in any other phase; the gyroscope reads 0 and the status is
    NORMAL. *)
Theorem simulator_knee_angle_ranges :
  forall (t : R) (phase : string) (n_y n_z : R),
    let imu := Simulator.generate_imu_sample t phase n_y n_z in
    (phase = "extension" ->
     imu_accel_x imu = 45 + 15 * sin (2 * PI * (t * 0.3)) /\
     30 <= imu_accel_x imu <= 60) /\
    (phase <> "extension" ->
     imu_accel_x imu = 60 + 35 * sin (2 * PI * (t * 0.3)) /\
     25 <= imu_accel_x imu <= 95) /\
    imu_accel_y imu = n_y /\
    imu_accel_z imu = 9.81 + n_z /\
    imu_gyro_x imu = 0 /\ imu_gyro_y imu = 0 /\ imu_gyro_z imu = 0.
Proof.
  intros t phase n_y n_z.
  unfold Simulator.generate_imu_sample. cbv zeta.
  cbn [imu_accel_x imu_accel_y imu_accel_z imu_gyro_x imu_gyro_y imu_gyro_z].
  pose proof (SIN_bound (2 * PI * (t * 0.3))) as [Hlo Hhi].
  split; [|split; [|repeat split]].
  - intros ->. cbn [String.eqb Ascii.eqb Bool.eqb].
    rewrite Rmin_right by lra. rewrite Rmax_right by lra.
    split; [reflexivity | lra].
  - intros Hp. apply String.eqb_neq in Hp. rewrite Hp.
    rewrite Rmin_right by lra. rewrite Rmax_right by lra.
    split; [reflexivity | lra].
Qed.

(** X11. In app.py the knee angle is within [0, 90] in extension and within
    [45, 135] in any other phase, neither [min(90, .)] nor [max(0, .)]
    ever acting; the angular rate [gyro_x] is within [-20, 20]; the four
    drawn axes are returned as drawn. *)
Theorem app_imu_ranges :
  forall (t : R) (phase : string) (accel_y accel_z gyro_y gyro_z : R),
    let imu := App.generate_imu_sample t phase accel_y accel_z gyro_y gyro_z in
    (phase = "extension" ->
     imu_accel_x imu = 45 * sin (0.5 * t) + 45 /\ 0 <= imu_accel_x imu <= 90) /\
    (phase <> "extension" ->
     imu_accel_x imu = 90 - 45 * sin (0.5 * t) /\ 45 <= imu_accel_x imu <= 135) /\
    - 20 <= imu_gyro_x imu <= 20 /\
    imu_accel_y imu = accel_y /\ imu_accel_z imu = accel_z /\
    imu_gyro_y imu = gyro_y /\ imu_gyro_z imu = gyro_z.
Proof.
  intros t phase accel_y accel_z gyro_y gyro_z.
  unfold App.generate_imu_sample. cbv zeta.
  cbn [imu_accel_x imu_accel_y imu_accel_z imu_gyro_x imu_gyro_y imu_gyro_z].
  pose proof (SIN_bound (0.5 * t)) as [Hlo Hhi].
  pose proof (COS_bound (0.5 * t)) as [Clo Chi].
  split; [|split; [|repeat split; lra]].
  - intros ->. cbn [String.eqb Ascii.eqb Bool.eqb].
    rewrite Rmin_right by lra. split; [reflexivity | lra].
  - intros Hp. apply String.eqb_neq in Hp. rewrite Hp.
    rewrite Rmax_right by lra. split; [reflexivity | lra].
Qed.

Lemma Int_part_succ (x : R) : Int_part (x + 1) = (Int_part x + 1)%Z.
Proof.
  symmetry. apply Int_part_spec.
  destruct (base_Int_part x) as [H1 H2].
  rewrite plus_IZR. simpl. lra.
Qed.

Lemma fmod_period (t y : R) : y <> 0 -> fmod (t + y) y = fmod t y.
Proof.
  intros Hy. unfold fmod.
  replace ((t + y) / y) with (t / y + 1) by (field; lra).
  rewrite Int_part_succ, plus_IZR. simpl. lra.
Qed.

Lemma fmod_range (t y : R) : 0 < y -> 0 <= fmod t y < y.
Proof.
  intros Hy. unfold fmod.
  destruct (base_Int_part (t / y)) as [H1 H2].
  set (k := IZR (Int_part (t / y))) in *.
  assert (E : t = y * (t / y)) by (field; lra).
  split.
  - assert (y * k <= y * (t / y)) by (apply Rmult_le_compat_l; lra). lra.
  - assert (y * (t / y) < y * (k + 1)) by (apply Rmult_lt_compat_l; lra). lra.
Qed.

(** X12. With a fixed positive heart rate both ECG generators return and
    repeat from beat to beat: a sample taken one beat period,
    [60 / base_bpm] seconds, later, with the same noise draw, is the same
    sample. *)
Theorem ecg_repeats_every_beat :
  forall t base_bpm noise : R,
    0 < base_bpm ->
    Simulator.generate_ecg_sample (t + 60 / base_bpm) base_bpm noise
      = Simulator.generate_ecg_sample t base_bpm noise /\
    App.generate_ecg_sample (t + 60 / base_bpm) base_bpm noise
      = App.generate_ecg_sample t base_bpm noise /\
    (exists s, Simulator.generate_ecg_sample t base_bpm noise = Some s) /\
    (exists s, App.generate_ecg_sample t base_bpm noise = Some s).
Proof.
  intros t base_bpm noise Hb.
  assert (Hper : 1 / (base_bpm / 60) = 60 / base_bpm) by (field; lra).
  assert (Hne : 60 / base_bpm <> 0).
  { assert (0 < 60 / base_bpm) by (apply Rdiv_lt_0_compat; lra). lra. }
  assert (Hbpm : base_bpm <> 0) by lra.
  rewrite !simulator_ecg_at, !app_ecg_at by exact Hbpm.
  split; [|split; [|split; eexists; reflexivity]]; f_equal.
  - unfold Simulator.ecg_sample. cbv zeta.
    rewrite Hper, fmod_period by exact Hne. reflexivity.
  - unfold App.ecg_sample. cbv zeta.
    rewrite Hper, fmod_period by exact Hne.
    replace (2 * PI * (base_bpm / 60) * (t + 60 / base_bpm))
      with (2 * PI * (base_bpm / 60) * t + 2 * PI) by (field; lra).
    rewrite sin_plus, sin_2PI, cos_2PI.
    replace (sin (2 * PI * (base_bpm / 60) * t) * 1
             + cos (2 * PI * (base_bpm / 60) * t) * 0)
      with (sin (2 * PI * (base_bpm / 60) * t)) by lra.
    reflexivity.
Qed.

(** At 75 beats per minute the period is 0.8 s. *)
Lemma ecg_repeats_at_75_bpm :
  0 < 75 /\
  Simulator.generate_ecg_sample (1.3 + 60 / 75) 75 0.004
    = Simulator.generate_ecg_sample 1.3 75 0.004.
Proof.
  assert (H : 0 < 75) by lra.
  split; [exact H|].
  exact (proj1 (ecg_repeats_every_beat 1.3 75 0.004 H)).
Defined.

(** X13. The position in the beat, [normalized_t], is in [0, 1) for a positive
    heart rate, so exactly one of the segments P, PR, QRS, ST, T or
    baseline applies; on the isoelectric segments the sample is the noise
    draw alone. *)
Theorem simulator_ecg_isoelectric_segments :
  forall t base_bpm noise : R,
    0 < base_bpm ->
    let beat_period := 60 / base_bpm in
    let normalized_t := fmod t beat_period / beat_period in
    0 <= normalized_t < 1 /\
    (0.12 <= normalized_t < 0.15 \/ 0.30 <= normalized_t < 0.40 \/
     0.65 <= normalized_t ->
     option_map fst (Simulator.generate_ecg_sample t base_bpm noise)
       = Some noise).
Proof.
  intros t base_bpm noise Hb beat_period normalized_t.
  assert (Hper : 1 / (base_bpm / 60) = beat_period)
    by (unfold beat_period; field; lra).
  assert (Hpos : 0 < beat_period)
    by (unfold beat_period; apply Rdiv_lt_0_compat; lra).
  pose proof (fmod_range t beat_period Hpos) as [Hlo Hhi].
  assert (Hnt : 0 <= normalized_t < 1).
  { unfold normalized_t. split.
    - apply Rle_mult_inv_pos; assumption.
    - apply Rmult_lt_reg_r with beat_period; [exact Hpos|].
      unfold Rdiv. rewrite Rmult_assoc, Rinv_l by lra. lra. }
  split; [exact Hnt|].
  intros Hseg.
  rewrite simulator_ecg_at by lra. cbn [option_map]. f_equal.
  unfold Simulator.ecg_sample. cbv zeta. cbn [fst].
  rewrite Hper. fold normalized_t.
  assert (EP : Rleb 0 normalized_t && Rltb normalized_t 0.12 = false).
  { apply andb_false_iff. right. apply Rltb_false. lra. }
  assert (EQ : Rleb 0.15 normalized_t && Rltb normalized_t 0.30 = false).
  { apply andb_false_iff.
    destruct Hseg as [H | [H | H]];
      [left | right; apply Rltb_false; lra | right; apply Rltb_false; lra].
    destruct (Rleb 0.15 normalized_t) eqn:E; [|reflexivity].
    apply Rleb_true in E. lra. }
  assert (ET : Rleb 0.40 normalized_t && Rltb normalized_t 0.65 = false).
  { apply andb_false_iff.
    destruct Hseg as [H | [H | H]];
      [left | left | right; apply Rltb_false; lra];
      (destruct (Rleb 0.40 normalized_t) eqn:E; [|reflexivity];
       apply Rleb_true in E; lra). }
  rewrite EP, EQ, ET. lra.
Qed.

(** At 75 beats per minute and 0.56 s the beat is at 0.7 of its period,
    on the baseline. *)
Lemma simulator_ecg_segments_at_75_bpm :
  0 < 75 /\
  0 <= fmod 0.56 (60 / 75) / (60 / 75) < 1 /\
  option_map fst (Simulator.generate_ecg_sample 0.56 75 0.004) = Some 0.004.
Proof.
  assert (H : 0 < 75) by lra.
  split; [exact H|].
  destruct (simulator_ecg_isoelectric_segments 0.56 75 0.004 H)
    as [Hrange Hflat].
  split; [exact Hrange|].
  apply Hflat. right. right.
  assert (E : Int_part (0.56 / (60 / 75)) = 0%Z).
  { symmetry. apply Int_part_spec. split; lra. }
  unfold fmod. rewrite E. lra.
Defined.

End Waveforms.

(** ** Scores, risk and recommendations *)

Lemma max2_spec (a b : Q) : (a <= max2 a b /\ b <= max2 a b)%Q /\
                             (max2 a b = a \/ max2 a b = b).
Proof.
  unfold max2. destruct (Qlt_le_dec a b) as [H | H].
  - split; [split; [now apply Qlt_le_weak | apply Qle_refl] | now right].
  - split; [split; [apply Qle_refl | exact H] | now left].
Qed.

Lemma min2_spec (a b : Q) : (min2 a b <= a /\ min2 a b <= b)%Q /\
                             (min2 a b = a \/ min2 a b = b).
Proof.
  unfold min2. destruct (Qlt_le_dec b a) as [H | H].
  - split; [split; [now apply Qlt_le_weak | apply Qle_refl] | now right].
  - split; [split; [apply Qle_refl | exact H] | now left].
Qed.

(** A clamped component [max(0, 100 - 10 x)] is between 0 and 100 when
    [x] is not negative, and at least 0 always. *)
Lemma clamped_component (x : Q) :
  (0 <= max2 0 (100 - x * 10))%Q /\
  ((0 <= x)%Q -> (max2 0 (100 - x * 10) <= 100)%Q).
Proof.
  destruct (max2_spec 0 (100 - x * 10)) as [[H0 H1] [E | E]].
  - split; [exact H0|]. intros _. rewrite E. discriminate.
  - split; [exact H0|]. intros Hx. rewrite E. lra.
Qed.

Lemma sleep_component (s : Q) :
  (0 <= max2 0 (min2 100 (100 - Qabs (8 - s) * 12.5)) <= 100)%Q.
Proof.
  destruct (max2_spec 0 (min2 100 (100 - Qabs (8 - s) * 12.5)))
    as [[H0 H1] [E | E]].
  - rewrite E. split; [apply Qle_refl | discriminate].
  - split; [exact H0|]. rewrite E.
    apply (min2_spec 100 (100 - Qabs (8 - s) * 12.5)).
Qed.

(** The weighted total is the mobility share, [3.5 * avg_mobility], plus a
    part between 0 and 65 when pain and fatigue are not negative: only the
    mobility answer is not clamped. *)
Lemma total_score_bounds (p m f s : Q) :
  (0 <= p)%Q -> (0 <= f)%Q ->
  (3.5 * m <= total_score p m f s <= 3.5 * m + 65)%Q.
Proof.
  intros Hp Hf. unfold total_score.
  destruct (clamped_component p) as [P0 P1]. specialize (P1 Hp).
  destruct (clamped_component f) as [F0 F1]. specialize (F1 Hf).
  destruct (sleep_component s) as [S0 S1].
  set (ps := max2 0 (100 - p * 10)) in *.
  set (fs := max2 0 (100 - f * 10)) in *.
  set (ss := max2 0 (min2 100 (100 - Qabs (8 - s) * 12.5))) in *.
  split; lra.
Qed.

Lemma fold_left_Qplus_bounds (lo hi : Q) (xs : list Q) (acc : Q) :
  Forall (fun x => (lo <= x <= hi)%Q) xs ->
  (acc + lo * inject_Z (Z.of_nat (length xs)) <= fold_left Qplus xs acc
   <= acc + hi * inject_Z (Z.of_nat (length xs)))%Q.
Proof.
  intros H. revert acc. induction H as [|x xs [Hlo Hhi] _ IH]; intros acc.
  - cbn [fold_left length Z.of_nat]. change (inject_Z 0) with 0%Q.
    split; lra.
  - cbn [fold_left length]. specialize (IH (acc + x)%Q).
    rewrite Znat.Nat2Z.inj_succ, <- Z.add_1_r, inject_Z_plus.
    change (inject_Z 1) with 1%Q.
    set (k := inject_Z (Z.of_nat (length xs))) in *.
    destruct IH as [IH1 IH2]. split; lra.
Qed.

(** A mean lies between the bounds of the values. *)
Lemma average_between (lo hi : Q) (xs : list Q) :
  xs <> [] -> Forall (fun x => (lo <= x <= hi)%Q) xs ->
  (lo <= Sensors.average xs <= hi)%Q.
Proof.
  intros Hne H. unfold Sensors.average, Sensors.total.
  pose proof (fold_left_Qplus_bounds lo hi xs 0 H) as [H1 H2].
  assert (Hk : (0 < inject_Z (Z.of_nat (length xs)))%Q).
  { destruct xs as [|x xs]; [congruence|]. unfold Qlt. simpl. lia. }
  set (k := inject_Z (Z.of_nat (length xs))) in *.
  split.
  - apply Qle_shift_div_l; [exact Hk | lra].
  - apply Qle_shift_div_r; [exact Hk | lra].
Qed.

Lemma column_defined (key : Questionnaire -> option Q) (P : Q -> Prop)
      (qs : list Questionnaire) :
  Forall (fun q => exists x, key q = Some x /\ P x) qs ->
  exists xs, column key qs = Some xs /\ length xs = length qs /\ Forall P xs.
Proof.
  induction 1 as [|q qs [x [Hx Px]] _ [xs [Hxs [Hlen HP]]]].
  - exists []. repeat split. constructor.
  - exists (x :: xs). simpl. rewrite Hx, Hxs. simpl.
    repeat split; [now rewrite Hlen | now constructor].
Qed.

Lemma column_fails (key : Questionnaire -> option Q) (qs : list Questionnaire) :
  column key qs = None <-> exists q, In q qs /\ key q = None.
Proof.
  induction qs as [|q qs IH]; simpl.
  - split; [discriminate | intros [q [[] _]]].
  - destruct (key q) as [x|] eqn:E; simpl.
    + destruct (column key qs) as [xs|]; simpl.
      * split; [discriminate|]. intros [q' [[<- | Hin] Hq']]; [congruence|].
        assert (None = None :> option (list Q)) as _ by reflexivity.
        destruct IH as [_ IH]. discriminate IH. exists q'. auto.
      * split; [|reflexivity]. intros _.
        destruct IH as [IH _]. destruct (IH eq_refl) as [q' [Hin Hq']].
        exists q'. auto.
    + split; [|reflexivity]. intros _. exists q. auto.
Qed.

Lemma classify_levels (total : Q) :
  In (fst (classify total))
     ["Excelente progreso"; "Buen progreso"; "Progreso moderado";
      "Progreso lento"; "Requiere atención"].
Proof.
  unfold classify.
  destruct (Qle_bool 80 total); [simpl; auto|].
  destruct (Qle_bool 60 total); [simpl; auto|].
  destruct (Qle_bool 40 total); [simpl; auto|].
  destruct (Qle_bool 20 total); simpl; auto 6.
Qed.

Lemma means_defined (qs : list Questionnaire) :
  qs <> [] ->
  Forall (fun q => exists p m f s,
              q = mkQuestionnaire (Some p) (Some m) (Some f) (Some s) /\
              (0 <= p)%Q /\ (0 <= m <= 10)%Q /\ (0 <= f)%Q) qs ->
  exists p m f s,
    means qs = Some (p, m, f, s) /\
    (0 <= p)%Q /\ (0 <= m <= 10)%Q /\ (0 <= f)%Q.
Proof.
  intros Hne H.
  destruct (column_defined q_pain (fun x => (0 <= x <= x)%Q) qs)
    as [ps [Eps [Lps Hps]]].
  { eapply Forall_impl; [|exact H].
    intros q [p [m [f [s [-> [Hp _]]]]]]. exists p.
    split; [reflexivity | split; [exact Hp | apply Qle_refl]]. }
  destruct (column_defined q_mobility (fun x => (0 <= x <= 10)%Q) qs)
    as [ms [Ems [Lms Hms]]].
  { eapply Forall_impl; [|exact H].
    intros q [p [m [f [s [-> [_ [Hm _]]]]]]]. exists m.
    split; [reflexivity | exact Hm]. }
  destruct (column_defined q_fatigue (fun x => (0 <= x <= x)%Q) qs)
    as [fs [Efs [Lfs Hfs]]].
  { eapply Forall_impl; [|exact H].
    intros q [p [m [f [s [-> [_ [_ Hf]]]]]]]. exists f.
    split; [reflexivity | split; [exact Hf | apply Qle_refl]]. }
  destruct (column_defined q_sleep (fun _ => True) qs)
    as [ss [Ess [Lss _]]].
  { eapply Forall_impl; [|exact H].
    intros q [p [m [f [s [-> _]]]]]. exists s. split; [reflexivity | exact I]. }
  assert (Hn : forall xs : list Q, length xs = length qs -> xs <> []).
  { intros xs Hl E. subst xs. destruct qs; [congruence | discriminate Hl]. }
  exists (Sensors.average ps), (Sensors.average ms),
    (Sensors.average fs), (Sensors.average ss).
  split.
  { unfold means. rewrite Eps, Ems, Efs, Ess. reflexivity. }
  assert (Hnonneg : forall xs : list Q,
             xs <> [] -> Forall (fun x => (0 <= x <= x)%Q) xs ->
             (0 <= Sensors.average xs)%Q).
  { intros xs Hx HF. unfold Sensors.average, Sensors.total.
    assert (Hk : (0 < inject_Z (Z.of_nat (length xs)))%Q).
    { destruct xs as [|x xs]; [congruence|]. unfold Qlt. simpl. lia. }
    apply Qle_shift_div_l; [exact Hk|]. rewrite Qmult_0_l.
    assert (HF0 : Forall (fun x => (0 <= x <= x)%Q) xs) by exact HF.
    clear - HF0.
    assert (G : forall acc, (0 <= acc)%Q -> (0 <= fold_left Qplus xs acc)%Q).
    { induction HF0 as [|x xs [Hx _] _ IH]; intros acc Hacc; simpl.
      - exact Hacc.
      - apply IH. lra. }
    apply G. apply Qle_refl. }
  split; [apply Hnonneg; auto|].
  split; [apply average_between; auto|].
  apply Hnonneg; auto.
Qed.

(** X14. With every answer present in the five most recent entries, pain and
    fatigue not negative and mobility between 0 and 10, both versions of
    [calculate_rehabilitation_score] return the same result; its score is
    the rounding of a total between 0 and 100, and its level is one of the
    five progress levels. *)
Theorem rehabilitation_score_between_0_and_100 :
  forall (round1 : Q -> Q) (patient_data : option PatientData),
    no_questionnaires patient_data = false ->
    Forall (fun q => exists p m f s,
                q = mkQuestionnaire (Some p) (Some m) (Some f) (Some s) /\
                (0 <= p)%Q /\ (0 <= m <= 10)%Q /\ (0 <= f)%Q)
           (firstn 5 (history patient_data)) ->
    exists (total : Q) (r : ScoreResult),
      SensorsScores.calculate_rehabilitation_score round1 patient_data = Some r /\
      Utils.calculate_rehabilitation_score round1 patient_data = r /\
      score r = round1 total /\
      (0 <= total <= 100)%Q /\
      In (level r)
         ["Excelente progreso"; "Buen progreso"; "Progreso moderado";
          "Progreso lento"; "Requiere atención"].
Proof.
  intros round1 pd Hdata Hall.
  assert (Hne : firstn 5 (history pd) <> []).
  { destruct pd as [[[[|q qs]|]]|]; try discriminate Hdata. discriminate. }
  destruct (means_defined _ Hne Hall) as [p [m [f [s [Hm [Hp [Hmob Hf]]]]]]].
  exists (total_score p m f s), (score_result round1 p m f s).
  unfold SensorsScores.calculate_rehabilitation_score,
    Utils.calculate_rehabilitation_score.
  rewrite Hdata, Hm. cbn [bind].
  split; [reflexivity|]. split; [reflexivity|].
  pose proof (total_score_bounds p m f s Hp Hf) as [Hlo Hhi].
  pose proof (classify_levels (total_score p m f s)) as Hlev.
  unfold score_result.
  destruct (classify (total_score p m f s)) as [lv cl]. cbn [score level].
  split; [reflexivity|].
  split; [split; lra | exact Hlev].
Qed.

Lemma firstn_firstn_same {A} (k : nat) (xs : list A) :
  firstn k (firstn k xs) = firstn k xs.
Proof. rewrite firstn_firstn, Nat.min_id. reflexivity. Qed.

Lemma means_fails (qs : list Questionnaire) :
  means qs = None <->
  exists q, In q qs /\
            (q_pain q = None \/ q_mobility q = None \/
             q_fatigue q = None \/ q_sleep q = None).
Proof.
  unfold means. split.
  - intros H.
    destruct (column q_pain qs) eqn:E1;
      [|apply column_fails in E1; destruct E1 as [q [Hin Hq]]; exists q; auto].
    destruct (column q_mobility qs) eqn:E2;
      [|apply column_fails in E2; destruct E2 as [q [Hin Hq]]; exists q; auto].
    destruct (column q_fatigue qs) eqn:E3;
      [|apply column_fails in E3; destruct E3 as [q [Hin Hq]]; exists q; auto].
    destruct (column q_sleep qs) eqn:E4;
      [|apply column_fails in E4; destruct E4 as [q [Hin Hq]]; exists q; auto 6].
    discriminate H.
  - intros [q [Hin [H | [H | [H | H]]]]].
    + assert (E : column q_pain qs = None) by (apply column_fails; eauto).
      rewrite E. reflexivity.
    + assert (E : column q_mobility qs = None) by (apply column_fails; eauto).
      rewrite E. destruct (column q_pain qs); reflexivity.
    + assert (E : column q_fatigue qs = None) by (apply column_fails; eauto).
      rewrite E.
      destruct (column q_pain qs), (column q_mobility qs); reflexivity.
    + assert (E : column q_sleep qs = None) by (apply column_fails; eauto).
      rewrite E.
      destruct (column q_pain qs), (column q_mobility qs),
        (column q_fatigue qs); reflexivity.
Qed.

(** X15. Only the first five entries of the history count, and a missing answer
    among them is an error: sensors.py raises, utils.py returns the result
    "Error en datos" with score 0; an entry beyond the fifth may miss
    anything. *)
Theorem rehabilitation_score_reads_five_entries :
  forall (round1 : Q -> Q) (qs : list Questionnaire),
    qs <> [] ->
    let data := Some (mkPatientData (Some qs)) in
    let recent := Some (mkPatientData (Some (firstn 5 qs))) in
    Utils.calculate_rehabilitation_score round1 data
      = Utils.calculate_rehabilitation_score round1 recent /\
    SensorsScores.calculate_rehabilitation_score round1 data
      = SensorsScores.calculate_rehabilitation_score round1 recent /\
    ((exists q, In q (firstn 5 qs) /\
                (q_pain q = None \/ q_mobility q = None \/
                 q_fatigue q = None \/ q_sleep q = None))
     <-> SensorsScores.calculate_rehabilitation_score round1 data = None) /\
    (SensorsScores.calculate_rehabilitation_score round1 data = None ->
     Utils.calculate_rehabilitation_score round1 data
       = mkScoreResult 0 "Error en datos" None None) /\
    (forall r,
        SensorsScores.calculate_rehabilitation_score round1 data = Some r ->
        Utils.calculate_rehabilitation_score round1 data = r).
Proof.
  intros round1 qs Hne data recent.
  assert (Hd : no_questionnaires data = false)
    by (destruct qs; [congruence | reflexivity]).
  assert (Hr : no_questionnaires recent = false)
    by (destruct qs; [congruence | reflexivity]).
  unfold Utils.calculate_rehabilitation_score,
    SensorsScores.calculate_rehabilitation_score.
  rewrite Hd, Hr. cbn [history data recent questionnaires].
  rewrite firstn_firstn_same.
  split; [reflexivity|]. split; [reflexivity|].
  destruct (means (firstn 5 qs)) as [[[[p m] f] s]|] eqn:E; cbn [bind].
  - split.
    { split; [|discriminate]. intros H. apply means_fails in H. congruence. }
    split; [discriminate|]. intros r [= <-]. reflexivity.
  - split.
    { split; [reflexivity|]. intros _. now apply means_fails. }
    split; [reflexivity | discriminate].
Qed.

Lemma rehabilitation_score_with_blank_entry :
  [Examples.good_entry; Examples.blank_entry] <> [] /\
  Utils.calculate_rehabilitation_score (fun x => x)
    (Some (mkPatientData (Some [Examples.good_entry; Examples.blank_entry])))
  = mkScoreResult 0 "Error en datos" None None.
Proof.
  assert (Hne : [Examples.good_entry; Examples.blank_entry] <> [])
    by discriminate.
  split; [exact Hne|].
  destruct (rehabilitation_score_reads_five_entries (fun x => x) _ Hne)
    as [_ [_ [_ [Herr _]]]].
  apply Herr. reflexivity.
Defined.

Lemma rehabilitation_score_of_good_entry :
  no_questionnaires (Some (mkPatientData (Some [Examples.good_entry]))) = false /\
  exists (total : Q) (r : ScoreResult),
    Utils.calculate_rehabilitation_score (fun x => x)
      (Some (mkPatientData (Some [Examples.good_entry]))) = r /\
    score r = total /\ (0 <= total <= 100)%Q.
Proof.
  assert (Hd : no_questionnaires
                 (Some (mkPatientData (Some [Examples.good_entry]))) = false)
    by reflexivity.
  split; [exact Hd|].
  assert (Hall : Forall (fun q => exists p m f s,
                   q = mkQuestionnaire (Some p) (Some m) (Some f) (Some s) /\
                   (0 <= p)%Q /\ (0 <= m <= 10)%Q /\ (0 <= f)%Q)
                 (firstn 5 (history
                    (Some (mkPatientData (Some [Examples.good_entry])))))).
  { constructor; [|constructor].
    exists 2%Q, 8%Q, 3%Q, 7.5%Q.
    split; [reflexivity|]. repeat split; discriminate. }
  destruct (rehabilitation_score_between_0_and_100 (fun x => x) _ Hd Hall)
    as [total [r [_ [Hu [Hs [Hb _]]]]]].
  exists total, r. split; [exact Hu|]. split; [exact Hs | exact Hb].
Defined.

Lemma Qle_bool_false (x y : Q) : Qle_bool x y = false <-> (y < x)%Q.
Proof.
  split; intros H.
  - apply Qnot_le_lt. intros Hle. apply Qle_bool_iff in Hle. congruence.
  - destruct (Qle_bool x y) eqn:E; [|reflexivity].
    apply Qle_bool_iff in E. apply Qlt_not_le in H. contradiction.
Qed.

Ltac qle_cases :=
  repeat match goal with
         | H : Qle_bool _ _ = true |- _ => apply Qle_bool_iff in H
         | H : Qle_bool _ _ = false |- _ => apply Qle_bool_false in H
         | H : _ || _ = true |- _ => apply orb_true_iff in H; destruct H as [H | H]
         | H : _ || _ = false |- _ => apply orb_false_iff in H; destruct H
         | H : _ && _ = true |- _ => apply andb_true_iff in H; destruct H
         | H : _ && _ = false |- _ =>
             apply andb_false_iff in H; destruct H as [H | H]
         end.

Lemma risk_for_monotone (msg : string) (p p' m m' f f' : Q) :
  (p <= p')%Q -> (m' <= m)%Q -> (f <= f')%Q ->
  risk_rank (risk_for msg p m f) <= risk_rank (risk_for msg p' m' f').
Proof.
  intros Hp Hm Hf. unfold risk_for.
  destruct (Qle_bool 8 p || Qle_bool m 2) eqn:E1;
    destruct (Qle_bool 8 p' || Qle_bool m' 2) eqn:E1';
    try (destruct (Qle_bool 6 p || Qle_bool m 4 || Qle_bool 8 f) eqn:E2);
    try (destruct (Qle_bool 6 p' || Qle_bool m' 4 || Qle_bool 8 f') eqn:E2');
    cbn; try lia; exfalso; qle_cases; lra.
Qed.

(** X16. Worse answers never lower the risk: with more pain, less mobility and
    more fatigue in the latest entry (a missing answer counting as 5),
    [get_risk_level] of utils.py gives a level at least as high. *)
Theorem risk_level_never_lowers :
  forall (q q' : Questionnaire) (rest rest' : list Questionnaire),
    (get_or_5 (q_pain q) <= get_or_5 (q_pain q'))%Q ->
    (get_or_5 (q_mobility q') <= get_or_5 (q_mobility q))%Q ->
    (get_or_5 (q_fatigue q) <= get_or_5 (q_fatigue q'))%Q ->
    risk_rank (Utils.get_risk_level (Some (mkPatientData (Some (q :: rest)))))
    <= risk_rank
         (Utils.get_risk_level (Some (mkPatientData (Some (q' :: rest'))))).
Proof.
  intros q q' rest rest' Hp Hm Hf.
  unfold Utils.get_risk_level. cbn [no_questionnaires questionnaires history].
  now apply risk_for_monotone.
Qed.

Lemma risk_of_painful_entry_not_lower :
  risk_rank (Utils.get_risk_level
               (Some (mkPatientData (Some [Examples.good_entry]))))
  <= risk_rank (Utils.get_risk_level
                  (Some (mkPatientData (Some [Examples.painful_entry])))).
Proof.
  apply risk_level_never_lowers; cbn; discriminate.
Defined.

Lemma risk_for_high (msg : string) (p m f : Q) :
  risk_level (risk_for msg p m f) = "high" ->
  exercises_for p m = gentle_exercises.
Proof.
  unfold risk_for, exercises_for.
  destruct (Qle_bool 8 p || Qle_bool m 2) eqn:E1.
  - intros _.
    destruct (Qle_bool p 3 && Qle_bool 7 m) eqn:E2;
      [exfalso; qle_cases; lra|].
    destruct (Qle_bool p 5 && Qle_bool 5 m) eqn:E3;
      [exfalso; qle_cases; lra | reflexivity].
  - destruct (Qle_bool 6 p || Qle_bool m 4 || Qle_bool 8 f); discriminate.
Qed.

(** X17. A patient rated at high risk is never given the intermediate or the
    advanced exercises: in both files the recommendations are then the
    three gentlest ones. *)
Theorem high_risk_gets_gentle_exercises :
  forall patient_data : option PatientData,
    (risk_level (Utils.get_risk_level patient_data) = "high" ->
     Utils.generate_exercise_recommendations patient_data = gentle_exercises) /\
    (forall r, SensorsScores.get_risk_level patient_data = Some r ->
               risk_level r = "high" ->
               SensorsScores.generate_exercise_recommendations patient_data
                 = Some gentle_exercises).
Proof.
  intros pd. split.
  - unfold Utils.get_risk_level, Utils.generate_exercise_recommendations.
    destruct (no_questionnaires pd); [discriminate|].
    destruct (history pd) as [|q qs]; [discriminate|].
    apply risk_for_high.
  - intros r.
    unfold SensorsScores.get_risk_level,
      SensorsScores.generate_exercise_recommendations.
    destruct (no_questionnaires pd).
    { intros [= <-]. discriminate. }
    destruct (history pd) as [|q qs]; [discriminate|].
    destruct (q_pain q) as [p|]; [|discriminate].
    destruct (q_mobility q) as [m|]; [|discriminate].
    destruct (q_fatigue q) as [f|]; [|discriminate].
    cbn [bind]. intros [= <-] H. f_equal. eapply risk_for_high. exact H.
Qed.

Lemma exercises_for_tiers (p m : Q) :
  length (exercises_for p m) = 3 /\
  (exercises_for p m = advanced_exercises \/
   exercises_for p m = intermediate_exercises \/
   exercises_for p m = gentle_exercises).
Proof.
  unfold exercises_for.
  destruct (Qle_bool p 3 && Qle_bool 7 m); [split; [reflexivity | auto]|].
  destruct (Qle_bool p 5 && Qle_bool 5 m); split; try reflexivity; auto.
Qed.

(** X18. [generate_exercise_recommendations] of utils.py returns the empty list
    exactly when there is no questionnaire; otherwise it returns the three
    exercises of one tier, chosen by the latest entry alone.  The version
    of sensors.py raises exactly when that entry lacks the pain or the
    mobility answer, and otherwise returns the same list. *)
Theorem exercise_recommendations_shape :
  forall patient_data : option PatientData,
    (Utils.generate_exercise_recommendations patient_data = []
     <-> no_questionnaires patient_data = true) /\
    (forall q rest,
        history patient_data = q :: rest ->
        no_questionnaires patient_data = false /\
        length (Utils.generate_exercise_recommendations patient_data) = 3 /\
        Utils.generate_exercise_recommendations patient_data
          = Utils.generate_exercise_recommendations
              (Some (mkPatientData (Some [q]))) /\
        (SensorsScores.generate_exercise_recommendations patient_data = None
         <-> q_pain q = None \/ q_mobility q = None) /\
        (forall l,
            SensorsScores.generate_exercise_recommendations patient_data
              = Some l ->
            Utils.generate_exercise_recommendations patient_data = l)).
Proof.
  intros pd. split.
  - unfold Utils.generate_exercise_recommendations.
    destruct (no_questionnaires pd) eqn:E; [split; reflexivity|].
    destruct (history pd) as [|q qs] eqn:Eh.
    { destruct pd as [[[[|q qs]|]]|]; discriminate. }
    destruct (exercises_for_tiers (get_or_5 (q_pain q))
                (get_or_5 (q_mobility q))) as [Hlen _].
    split; [|discriminate]. intros H. rewrite H in Hlen. discriminate Hlen.
  - intros q rest Hh.
    assert (E : no_questionnaires pd = false).
    { destruct pd as [[[[|q0 qs]|]]|]; try discriminate Hh. reflexivity. }
    split; [exact E|].
    unfold Utils.generate_exercise_recommendations,
      SensorsScores.generate_exercise_recommendations.
    rewrite E, Hh. cbn [no_questionnaires questionnaires history].
    split; [apply exercises_for_tiers|]. split; [reflexivity|].
    destruct (q_pain q) as [p|]; cbn [bind get_or_5].
    + destruct (q_mobility q) as [m|]; cbn [bind get_or_5].
      * split; [split; [discriminate | intros [H | H]; discriminate H]|].
        intros l [= <-]. reflexivity.
      * split; [split; [auto | reflexivity] | discriminate].
    + split; [split; [auto | reflexivity] | discriminate].
Qed.

(** X19. Where sensors.py's [get_risk_level] returns on a history, utils.py's
    gives the same level, colour and recommendations; the messages differ
    for the high level only; without data the result of sensors.py has no
    ["recommendations"] while utils.py has an empty list. *)
Theorem risk_level_in_both_files :
  forall patient_data : option PatientData,
    (no_questionnaires patient_data = true ->
     SensorsScores.get_risk_level patient_data
       = Some (mkRiskResult "unknown" "Sin datos suficientes" "#6b7280" None) /\
     Utils.get_risk_level patient_data
       = mkRiskResult "unknown" "Sin datos suficientes" "#6b7280" (Some [])) /\
    (no_questionnaires patient_data = false ->
     forall r, SensorsScores.get_risk_level patient_data = Some r ->
       let u := Utils.get_risk_level patient_data in
       risk_level r = risk_level u /\
       risk_color r = risk_color u /\
       risk_recommendations r = risk_recommendations u /\
       In (risk_level r) ["high"; "medium"; "low"] /\
       (exists recs, risk_recommendations r = Some recs /\ length recs = 3) /\
       (risk_level r <> "high" -> r = u) /\
       (risk_level r = "high" -> risk_message r <> risk_message u)).
Proof.
  intros pd. split.
  - intros E. unfold SensorsScores.get_risk_level, Utils.get_risk_level.
    rewrite E. split; reflexivity.
  - intros E r.
    unfold SensorsScores.get_risk_level, Utils.get_risk_level.
    rewrite E.
    destruct (history pd) as [|q qs]; [discriminate|].
    destruct (q_pain q) as [p|]; [|discriminate].
    destruct (q_mobility q) as [m|]; [|discriminate].
    destruct (q_fatigue q) as [f|]; [|discriminate].
    cbn [bind get_or_5]. intros [= <-]. unfold risk_for.
    destruct (Qle_bool 8 p || Qle_bool m 2).
    { cbn. repeat split; auto.
      - eexists. split; reflexivity.
      - intros H. congruence.
      - intros _. discriminate. }
    destruct (Qle_bool 6 p || Qle_bool m 4 || Qle_bool 8 f).
    { cbn. repeat split; auto.
      - eexists. split; reflexivity.
      - discriminate. }
    cbn. repeat split; auto.
    + eexists. split; reflexivity.
    + discriminate.
Qed.

(** ** The store of app.py *)

Section DictFacts.
Context {V : Type}.

Lemma get_set_same (d : Db.Dict V) (k : string) (v : V) :
  Db.get (Db.set d k v) k = Some v.
Proof.
  induction d as [|[k' v'] d IH]; simpl.
  - rewrite String.eqb_refl. reflexivity.
  - destruct (String.eqb_spec k' k) as [-> | Hne]; simpl.
    + rewrite String.eqb_refl. reflexivity.
    + apply String.eqb_neq in Hne. rewrite Hne. exact IH.
Qed.

Lemma get_set_other (d : Db.Dict V) (k k' : string) (v : V) :
  k' <> k -> Db.get (Db.set d k v) k' = Db.get d k'.
Proof.
  intros Hne. induction d as [|[k0 v0] d IH]; simpl.
  - destruct (String.eqb_spec k k'); [congruence | reflexivity].
  - destruct (String.eqb_spec k0 k) as [-> | H0]; simpl.
    + destruct (String.eqb_spec k k'); [congruence | reflexivity].
    + destruct (String.eqb_spec k0 k'); [reflexivity | exact IH].
Qed.

Lemma get_del_same (d : Db.Dict V) (k : string) :
  Db.get (Db.del d k) k = None.
Proof.
  induction d as [|[k' v'] d IH]; simpl; [reflexivity|].
  destruct (String.eqb_spec k' k) as [-> | Hne]; simpl; [exact IH|].
  apply String.eqb_neq in Hne. rewrite Hne. exact IH.
Qed.

Lemma get_del_other (d : Db.Dict V) (k k' : string) :
  k' <> k -> Db.get (Db.del d k) k' = Db.get d k'.
Proof.
  intros Hne. induction d as [|[k0 v0] d IH]; simpl; [reflexivity|].
  destruct (String.eqb_spec k0 k) as [-> | H0]; simpl.
  - destruct (String.eqb_spec k k'); [congruence | exact IH].
  - destruct (String.eqb_spec k0 k'); [reflexivity | exact IH].
Qed.

Lemma get_In (d : Db.Dict V) (k : string) (v : V) :
  Db.get d k = Some v -> In (k, v) d.
Proof.
  induction d as [|[k' v'] d IH]; simpl; [discriminate|].
  destruct (String.eqb_spec k' k) as [-> | Hne].
  - intros [= ->]. left. reflexivity.
  - intros H. right. now apply IH.
Qed.

(** In a dictionary, whose keys are distinct, an item is what [get]
    returns. *)
Lemma In_get (d : Db.Dict V) (k : string) (v : V) :
  NoDup (map fst d) -> In (k, v) d -> Db.get d k = Some v.
Proof.
  induction d as [|[k' v'] d IH]; simpl; intros Hnd Hin; [destruct Hin|].
  inversion Hnd as [|? ? Hnotin Hnd']; subst.
  destruct Hin as [[= -> ->] | Hin].
  - rewrite String.eqb_refl. reflexivity.
  - destruct (String.eqb_spec k' k) as [-> | Hne].
    + exfalso. apply Hnotin. apply (in_map fst) in Hin. exact Hin.
    + now apply IH.
Qed.

Lemma In_get_some (d : Db.Dict V) (k : string) (v : V) :
  In (k, v) d -> Db.get d k <> None.
Proof.
  induction d as [|[a b] d IH]; simpl; [intros []|].
  intros [[= -> ->] | Hin].
  - rewrite String.eqb_refl. discriminate.
  - destruct (String.eqb_spec a k); [discriminate | now apply IH].
Qed.

Lemma set_keys_NoDup (d : Db.Dict V) (k : string) (v : V) :
  NoDup (map fst d) -> NoDup (map fst (Db.set d k v)).
Proof.
  induction d as [|[k' v'] d IH]; simpl; intros Hnd.
  - constructor; [intros [] | constructor].
  - inversion Hnd as [|? ? Hnotin Hnd']; subst.
    destruct (String.eqb_spec k' k) as [-> | Hne]; simpl.
    + constructor; assumption.
    + constructor; [|now apply IH].
      intros Hin. apply in_map_iff in Hin. destruct Hin as [[k0 v0] [E Hin]].
      simpl in E. subst k0. apply Hnotin.
      pose proof (In_get_some _ _ _ Hin) as G.
      rewrite get_set_other in G by exact Hne.
      destruct (Db.get d k') as [x|] eqn:E; [|congruence].
      apply get_In in E. apply (in_map fst) in E. exact E.
Qed.

End DictFacts.

Section StoreFacts.
Context {Entry : Type}.
Implicit Types w : Db.World Entry.

Lemma users_after_save w : Db.users (Db.db (Db.save_data w)) = Db.users (Db.db w).
Proof. unfold Db.save_data. destruct (Db.writable w); reflexivity. Qed.

Lemma db_after_save w : Db.db (Db.save_data w) = Db.db w.
Proof. unfold Db.save_data. destruct (Db.writable w); reflexivity. Qed.

Lemma users_after_add_user w (u p r name now : string) (save : bool) :
  Db.get (Db.users (Db.db w)) u = None ->
  Db.users (Db.db (Db.add_user w u p r name now save))
  = Db.set (Db.users (Db.db w)) u (Db.mkUser p r name now None).
Proof.
  intros H. unfold Db.add_user. rewrite H.
  destruct save; [rewrite db_after_save|]; reflexivity.
Qed.

(** X20. A user added under a free name logs in with the password and the role
    it was added with, and with no other password or role under that name;
    the other accounts authenticate as before. *)
Theorem added_user_logs_in :
  forall w (u p r name now : string) (save : bool) (n : nat),
    Db.get (Db.users (Db.db w)) u = None ->
    u <> "" -> p <> "" -> r <> "" ->
    let w' := Db.add_user w u p r name now save in
    Db.login w' (Some (S n)) (Some u) (Some p) (Some r) = Db.LoginAccepted u r /\
    (forall p', p' <> p ->
       Db.login w' (Some (S n)) (Some u) (Some p') (Some r) <> Db.LoginAccepted u r) /\
    (forall r', r' <> r ->
       Db.login w' (Some (S n)) (Some u) (Some p) (Some r') <> Db.LoginAccepted u r') /\
    (forall u' p', u' <> u ->
       Db.authenticate_user w' u' p' = Db.authenticate_user w u' p').
Proof.
  intros w u p r name now save n Hfree Hu Hp Hr w'.
  assert (Husers : Db.users (Db.db w')
                   = Db.set (Db.users (Db.db w)) u (Db.mkUser p r name now None))
    by (apply users_after_add_user; exact Hfree).
  assert (Hauth : forall p', Db.authenticate_user w' u p'
                             = if (p =? p')%string
                               then Some (Db.mkUser p r name now None) else None).
  { intros p'. unfold Db.authenticate_user.
    rewrite Husers, get_set_same. reflexivity. }
  apply String.eqb_neq in Hu, Hp, Hr.
  split; [|split; [|split]].
  - unfold Db.login, Db.blank. rewrite Hu, Hp, Hr. cbn [orb].
    rewrite Hauth, String.eqb_refl. cbn [Db.role].
    rewrite String.eqb_refl. reflexivity.
  - intros p' Hp'. unfold Db.login, Db.blank. rewrite Hu, Hr.
    destruct (p' =? "")%string; [discriminate|]. cbn [orb].
    rewrite Hauth.
    destruct (String.eqb_spec p p'); [congruence | discriminate].
  - intros r' Hr'. unfold Db.login, Db.blank. rewrite Hu, Hp.
    destruct (r' =? "")%string; [discriminate|]. cbn [orb].
    rewrite Hauth, String.eqb_refl. cbn [Db.role].
    destruct (String.eqb_spec r r'); [congruence | discriminate].
  - intros u' p' Hne. unfold Db.authenticate_user.
    rewrite Husers, get_set_other by exact Hne. reflexivity.
Qed.

(** X21. [add_user] never replaces an account: under a name already in the
    store it changes neither memory nor disk, so the credentials of that
    name stay what they were. *)
Theorem existing_user_is_not_replaced :
  forall w (u p r name now : string) (save : bool) (user : Db.User),
    Db.get (Db.users (Db.db w)) u = Some user ->
    Db.add_user w u p r name now save = w /\
    (forall u' p',
        Db.authenticate_user (Db.add_user w u p r name now save) u' p'
        = Db.authenticate_user w u' p') /\
    (p <> Db.password user ->
     Db.authenticate_user (Db.add_user w u p r name now save) u p = None).
Proof.
  intros w u p r name now save user H.
  assert (E : Db.add_user w u p r name now save = w)
    by (unfold Db.add_user; rewrite H; reflexivity).
  rewrite E. split; [reflexivity|]. split; [reflexivity|].
  intros Hp. unfold Db.authenticate_user. rewrite H.
  destruct (String.eqb_spec (Db.password user) p); [congruence | reflexivity].
Qed.

End StoreFacts.

Lemma new_user_logs_in_at_the_clinic :
  Db.get (Db.users (Db.db Examples.clinic)) "fisio.lopez" = None /\
  Db.login (Db.add_user Examples.clinic "fisio.lopez" "s3cret" "medico"
              "Laura López" "2025-02-01T08:00:00" true)
           (Some 1) (Some "fisio.lopez") (Some "s3cret") (Some "medico")
  = Db.LoginAccepted "fisio.lopez" "medico".
Proof.
  assert (H : Db.get (Db.users (Db.db Examples.clinic)) "fisio.lopez" = None)
    by reflexivity.
  split; [exact H|].
  refine (proj1 (added_user_logs_in Examples.clinic "fisio.lopez" "s3cret"
                   "medico" "Laura López" "2025-02-01T08:00:00" true 0
                   H _ _ _)); discriminate.
Defined.

Lemma known_user_is_not_replaced_at_the_clinic :
  Db.get (Db.users (Db.db Examples.clinic)) "paciente.torn"
    = Some (Db.mkUser "1234" "paciente" "Torn Benson" "2025-01-10T09:00:01" None) /\
  Db.add_user Examples.clinic "paciente.torn" "intruso" "medico" "Otro"
    "2025-02-01T08:00:00" true = Examples.clinic.
Proof.
  assert (H : Db.get (Db.users (Db.db Examples.clinic)) "paciente.torn"
              = Some (Db.mkUser "1234" "paciente" "Torn Benson"
                        "2025-01-10T09:00:01" None)) by reflexivity.
  split; [exact H|].
  exact (proj1 (existing_user_is_not_replaced Examples.clinic "paciente.torn"
                  "intruso" "medico" "Otro" "2025-02-01T08:00:00" true _ H)).
Defined.

(** *** Appointments *)

Section AppointmentFacts.
Context {Entry : Type}.
Implicit Types w : Db.World Entry.
Implicit Types apps : list Db.Appointment.

Lemma appointments_after_save w :
  Db.appointments (Db.db (Db.save_data w)) = Db.appointments (Db.db w).
Proof. now rewrite db_after_save. Qed.

Lemma scheduled_list w (data : Db.Appointment) :
  Db.appointments (Db.db (Db.schedule_appointment w data))
  = Db.appointments (Db.db w)
    ++ [Db.set (Db.set data "id"
                  (String.append "appt-"
                     (Db.str (length (Db.appointments (Db.db w)) + 1))))
               "status"
               (match Db.get (Db.set data "id"
                                (String.append "appt-"
                                   (Db.str (length (Db.appointments (Db.db w)) + 1))))
                             "status" with
                | Some s => s
                | None => "scheduled"
                end)].
Proof.
  unfold Db.schedule_appointment. rewrite appointments_after_save. reflexivity.
Qed.

Lemma scheduled_appointment_fields_aux w (data : Db.Appointment) :
  exists appt : Db.Appointment,
    Db.appointments (Db.db (Db.schedule_appointment w data))
      = Db.appointments (Db.db w) ++ [appt] /\
    Db.get appt "id"
      = Some (String.append "appt-"
                (Db.str (length (Db.appointments (Db.db w)) + 1))).
Proof.
  eexists. split; [apply scheduled_list|].
  rewrite get_set_other by discriminate. apply get_set_same.
Qed.

(** X22. [schedule_appointment] appends one appointment and touches no other:
    its id is "appt-" followed by the new length of the list, its status is
    the one given or "scheduled", its other fields are those given; when
    the file can be written the disk then holds the whole store. *)
Theorem scheduled_appointment_fields :
  forall w (data : Db.Appointment),
  exists appt : Db.Appointment,
    Db.appointments (Db.db (Db.schedule_appointment w data))
      = Db.appointments (Db.db w) ++ [appt] /\
    Db.get appt "id"
      = Some (String.append "appt-"
                (Db.str (length (Db.appointments (Db.db w)) + 1))) /\
    Db.get appt "status"
      = Some (match Db.get data "status" with
              | Some s => s
              | None => "scheduled"
              end) /\
    (forall k, k <> "id" -> k <> "status" -> Db.get appt k = Db.get data k) /\
    Db.users (Db.db (Db.schedule_appointment w data)) = Db.users (Db.db w) /\
    Db.patient_info (Db.db (Db.schedule_appointment w data))
      = Db.patient_info (Db.db w) /\
    Db.disk (Db.schedule_appointment w data)
      = (if Db.writable w
         then Some (Db.db (Db.schedule_appointment w data))
         else Db.disk w).
Proof.
  intros w data. eexists. split; [apply scheduled_list|].
  split.
  { rewrite get_set_other by discriminate. apply get_set_same. }
  split.
  { rewrite get_set_same. rewrite get_set_other by discriminate. reflexivity. }
  split.
  { intros k Hid Hst. rewrite !get_set_other by assumption. reflexivity. }
  unfold Db.schedule_appointment, Db.save_data, Db.with_appointments,
    Db.with_db.
  cbn [Db.writable Db.db Db.disk].
  destruct (Db.writable w); cbn [Db.db Db.disk Db.users Db.patient_info];
    repeat split.
Qed.

Lemma without_id_filter apps (i : string) :
  Db.all_have_id apps ->
  Db.without_id apps i = Some (filter (fun a => negb (Db.has_id i a)) apps).
Proof.
  induction 1 as [|a apps Ha _ IH]; [reflexivity|].
  cbn [Db.without_id filter]. unfold Db.has_id at 1.
  destruct (Db.get a "id") as [j|]; [|congruence].
  rewrite IH. destruct (j =? i)%string; reflexivity.
Qed.

Lemma filter_split_length {A} (f : A -> bool) (l : list A) :
  length (filter f l) + length (filter (fun a => negb (f a)) l) = length l.
Proof.
  induction l as [|a l IH]; [reflexivity|].
  simpl. destruct (f a); simpl; lia.
Qed.

Lemma str_inj (n n' : nat) : Db.str n = Db.str n' -> n = n'.
Proof.
  unfold Db.str. intros H.
  apply DecimalNat.Unsigned.to_uint_inj.
  assert (Hnn : forall k, Nat.to_uint k <> Decimal.Nil).
  { intros k. rewrite <- (DecimalNat.Unsigned.of_to k) at 1.
    rewrite DecimalNat.Unsigned.to_of. unfold Decimal.unorm.
    destruct (Decimal.nzhead (Nat.to_uint k)); discriminate. }
  pose proof (DecimalString.NilZero.usu _ (Hnn n)) as E.
  pose proof (DecimalString.NilZero.usu _ (Hnn n')) as E'.
  rewrite H in E. rewrite E in E'. now injection E'.
Qed.

Lemma appt_id_inj (n n' : nat) :
  String.append "appt-" (Db.str n) = String.append "appt-" (Db.str n') ->
  n = n'.
Proof.
  cbn [String.append]. intros H. injection H as H. now apply str_inj.
Qed.

End AppointmentFacts.

Section AppointmentIds.
Context {Entry : Type}.
Implicit Types w : Db.World Entry.
Implicit Types apps : list Db.Appointment.

Lemma NoDup_map_injective {A B} (g : A -> B) (l : list A) :
  (forall a b, g a = g b -> a = b) -> NoDup l -> NoDup (map g l).
Proof.
  intros Hinj. induction 1 as [|a l Hnotin _ IH]; simpl; constructor.
  - intros Hin. apply in_map_iff in Hin. destruct Hin as [b [E Hb]].
    apply Hinj in E. subst b. contradiction.
  - exact IH.
Qed.

Lemma schedule_all_snoc w (datas : list Db.Appointment) (data : Db.Appointment) :
  Db.schedule_all w (datas ++ [data])
  = Db.schedule_appointment (Db.schedule_all w datas) data.
Proof. unfold Db.schedule_all. rewrite fold_left_app. reflexivity. Qed.

Lemma ids_after_schedule w (data : Db.Appointment) :
  Db.ids (Db.appointments (Db.db (Db.schedule_appointment w data)))
  = Db.ids (Db.appointments (Db.db w))
    ++ [Some (String.append "appt-"
                (Db.str (length (Db.appointments (Db.db w)) + 1)))].
Proof.
  destruct (scheduled_appointment_fields_aux w data) as [appt [E Hid]].
  rewrite E. unfold Db.ids. rewrite map_app. simpl. rewrite Hid. reflexivity.
Qed.

(** X23. As long as appointments are only scheduled, starting from an empty
    list, the k-th one has the id "appt-k" and no two ids are equal. *)
Theorem appointment_ids_distinct_without_deletion :
  forall w (datas : list Db.Appointment),
    Db.appointments (Db.db w) = [] ->
    Db.ids (Db.appointments (Db.db (Db.schedule_all w datas)))
      = map (fun k => Some (String.append "appt-" (Db.str k)))
            (seq 1 (length datas)) /\
    NoDup (Db.ids (Db.appointments (Db.db (Db.schedule_all w datas)))) /\
    length (Db.appointments (Db.db (Db.schedule_all w datas))) = length datas.
Proof.
  intros w datas Hempty.
  assert (Hids : Db.ids (Db.appointments (Db.db (Db.schedule_all w datas)))
                 = map (fun k => Some (String.append "appt-" (Db.str k)))
                       (seq 1 (length datas))).
  { induction datas as [|data datas IH] using rev_ind.
    - unfold Db.schedule_all. simpl. rewrite Hempty. reflexivity.
    - assert (L : length (Db.appointments (Db.db (Db.schedule_all w datas)))
                  = length datas).
      { apply (f_equal (@length _)) in IH. unfold Db.ids in IH.
        rewrite !length_map, length_seq in IH. exact IH. }
      rewrite schedule_all_snoc, ids_after_schedule, IH, L.
      rewrite length_app. cbn [length]. rewrite seq_app, map_app.
      cbn [seq map]. rewrite (Nat.add_comm 1 (length datas)). reflexivity. }
  split; [exact Hids|]. split.
  - rewrite Hids. apply NoDup_map_injective; [|apply seq_NoDup].
    intros a b H. apply appt_id_inj. congruence.
  - apply (f_equal (@length _)) in Hids. unfold Db.ids in Hids.
    rewrite !length_map, length_seq in Hids. exact Hids.
Qed.

End AppointmentIds.

Lemma three_appointments_have_distinct_ids :
  NoDup (Db.ids (Db.appointments
                   (Db.db (Db.schedule_all
                             (Db.with_appointments Examples.clinic [])
                             [Examples.new_appointment;
                              Examples.new_appointment;
                              Examples.new_appointment])))).
Proof.
  exact (proj1 (proj2 (appointment_ids_distinct_without_deletion
                         (Db.with_appointments Examples.clinic [])
                         [Examples.new_appointment; Examples.new_appointment;
                          Examples.new_appointment] eq_refl))).
Defined.


Section AppointmentChanges.
Context {Entry : Type}.
Implicit Types w : Db.World Entry.
Implicit Types apps : list Db.Appointment.

Lemma has_id_true (i : string) (a : Db.Appointment) :
  Db.has_id i a = true <-> Db.get a "id" = Some i.
Proof.
  unfold Db.has_id. destruct (Db.get a "id") as [j|].
  - destruct (String.eqb_spec j i) as [-> | Hne]; split; intros H;
      try reflexivity; try discriminate. congruence.
  - split; discriminate.
Qed.

Lemma filter_negb_shorter {A} (f : A -> bool) (l : list A) :
  length (filter (fun a => negb (f a)) l) < length l <->
  exists a, In a l /\ f a = true.
Proof.
  induction l as [|a l IH]; simpl.
  - split; [lia | intros [a [[] _]]].
  - pose proof (filter_length_le (fun a => negb (f a)) l) as Hle.
    destruct (f a) eqn:E; simpl.
    + split; [intros _; exists a; auto | intros _; lia].
    + split.
      * intros H. assert (H' : length (filter (fun a => negb (f a)) l) < length l)
          by lia.
        apply IH in H'. destruct H' as [b [Hb Hfb]]. exists b. auto.
      * intros [b [[<- | Hb] Hfb]]; [congruence|].
        assert (H' : length (filter (fun a => negb (f a)) l) < length l)
          by (apply IH; eauto).
        lia.
Qed.

Lemma filter_negb_idem {A} (f : A -> bool) (l : list A) :
  filter (fun a => negb (f a)) (filter (fun a => negb (f a)) l)
  = filter (fun a => negb (f a)) l.
Proof.
  induction l as [|a l IH]; simpl; [reflexivity|].
  destruct (f a) eqn:E; simpl; [exact IH|]. rewrite E. simpl. now rewrite IH.
Qed.

Lemma all_have_id_filter apps (f : Db.Appointment -> bool) :
  Db.all_have_id apps -> Db.all_have_id (filter f apps).
Proof.
  unfold Db.all_have_id. rewrite !Forall_forall. intros H a Ha.
  apply filter_In in Ha. now apply H.
Qed.

(** X24. When every stored appointment has an id, [delete_appointment] raises
    nothing, removes the appointments with the given id and only those,
    keeps the others in their order, and answers [True] exactly when there
    was one to remove; deleting the same id again removes nothing and
    answers [False]. *)
Theorem delete_appointment_removes_that_id_only :
  forall w (i : string),
    Db.all_have_id (Db.appointments (Db.db w)) ->
    exists (w' : Db.World Entry) (removed : bool),
      Db.delete_appointment w i = Some (w', removed) /\
      Db.appointments (Db.db w')
        = filter (fun a => negb (Db.has_id i a)) (Db.appointments (Db.db w)) /\
      (removed = true <->
       exists a, In a (Db.appointments (Db.db w)) /\ Db.get a "id" = Some i) /\
      (forall a, In a (Db.appointments (Db.db w')) <->
                 In a (Db.appointments (Db.db w)) /\ Db.get a "id" <> Some i) /\
      Db.users (Db.db w') = Db.users (Db.db w) /\
      Db.patient_info (Db.db w') = Db.patient_info (Db.db w) /\
      exists w'' : Db.World Entry,
        Db.delete_appointment w' i = Some (w'', false) /\
        Db.db w'' = Db.db w'.
Proof.
  intros w i Hall.
  set (apps := Db.appointments (Db.db w)) in *.
  set (kept := filter (fun a => negb (Db.has_id i a)) apps).
  assert (Hin : forall a, In a kept <-> In a apps /\ Db.get a "id" <> Some i).
  { intros a. unfold kept. rewrite filter_In. split; intros [H1 H2];
      (split; [exact H1|]).
    - intros E. apply has_id_true in E. rewrite E in H2. discriminate.
    - destruct (Db.has_id i a) eqn:E; [|reflexivity].
      apply has_id_true in E. contradiction. }
  assert (Hshort : length kept < length apps <->
                   exists a, In a apps /\ Db.get a "id" = Some i).
  { unfold kept. rewrite filter_negb_shorter.
    split; intros [a [Ha E]]; exists a; (split; [exact Ha|]);
      now apply has_id_true. }
  assert (Hagain : forall w1 : Db.World Entry,
             Db.appointments (Db.db w1) = kept ->
             exists w'' : Db.World Entry,
               Db.delete_appointment w1 i = Some (w'', false) /\
               Db.db w'' = Db.db w1).
  { intros w1 E1. destruct w1 as [[us ap pi qh eh] dk wr].
    cbn [Db.db Db.appointments] in E1. subst ap.
    unfold Db.delete_appointment. cbn [Db.db Db.appointments].
    rewrite without_id_filter by (apply all_have_id_filter; exact Hall).
    replace (filter (fun a => negb (Db.has_id i a)) kept) with kept
      by (unfold kept; now rewrite filter_negb_idem).
    rewrite Nat.ltb_irrefl. eexists. split; reflexivity. }
  assert (Hdel : Db.delete_appointment w i
                 = if length kept <? length apps
                   then Some (Db.save_data (Db.with_appointments w kept), true)
                   else Some (Db.with_appointments w kept, false)).
  { unfold Db.delete_appointment. fold apps.
    rewrite without_id_filter by exact Hall. reflexivity. }
  rewrite Hdel.
  destruct (Nat.ltb_spec (length kept) (length apps)) as [Hlt | Hge].
  - exists (Db.save_data (Db.with_appointments w kept)), true.
    assert (Eapps : Db.appointments
                      (Db.db (Db.save_data (Db.with_appointments w kept)))
                    = kept) by (rewrite db_after_save; reflexivity).
    split; [reflexivity|]. split; [exact Eapps|].
    split; [split; [intros _; now apply Hshort | reflexivity]|].
    split; [intros a; rewrite Eapps; apply Hin|].
    split; [rewrite db_after_save; reflexivity|].
    split; [rewrite db_after_save; reflexivity|].
    apply Hagain. exact Eapps.
  - exists (Db.with_appointments w kept), false.
    assert (Eapps : Db.appointments (Db.db (Db.with_appointments w kept))
                    = kept) by reflexivity.
    split; [reflexivity|]. split; [exact Eapps|].
    split; [split; [discriminate | intros H; apply Hshort in H; lia]|].
    split; [intros a; rewrite Eapps; apply Hin|].
    split; [reflexivity|]. split; [reflexivity|].
    apply Hagain. exact Eapps.
Qed.

Lemma all_have_id_app apps (a : Db.Appointment) :
  Db.all_have_id apps -> Db.get a "id" <> None -> Db.all_have_id (apps ++ [a]).
Proof.
  intros H Ha. apply Forall_app. split; [exact H|]. constructor; [exact Ha|].
  constructor.
Qed.

(** X25. The id of a new appointment depends on the length of the list only, so
    ids repeat after a deletion: schedule one appointment, delete an older
    one, and the next appointment scheduled receives the id of the first. *)
Theorem appointment_ids_repeat_after_deletion :
  forall w (data1 data2 : Db.Appointment) (old_id : string),
    Db.all_have_id (Db.appointments (Db.db w)) ->
    length (filter (Db.has_id old_id) (Db.appointments (Db.db w))) = 1 ->
    old_id <> String.append "appt-"
                (Db.str (length (Db.appointments (Db.db w)) + 1)) ->
    exists (w2 : Db.World Entry) (kept : list Db.Appointment)
           (a1 a2 : Db.Appointment),
      Db.delete_appointment (Db.schedule_appointment w data1) old_id
        = Some (w2, true) /\
      Db.appointments (Db.db (Db.schedule_appointment w2 data2))
        = kept ++ [a1; a2] /\
      Db.get a1 "id" = Db.get a2 "id" /\
      Db.get a2 "id"
        = Some (String.append "appt-"
                  (Db.str (length (Db.appointments (Db.db w)) + 1))) /\
      ~ NoDup (Db.ids (Db.appointments
                         (Db.db (Db.schedule_appointment w2 data2)))).
Proof.
  intros w data1 data2 old_id Hall Hone Hnew.
  set (apps := Db.appointments (Db.db w)) in *.
  set (new_id := String.append "appt-" (Db.str (length apps + 1))) in *.
  destruct (scheduled_appointment_fields_aux w data1) as [a1 [E1 Hid1]].
  fold apps in E1. fold apps new_id in Hid1.
  set (w1 := Db.schedule_appointment w data1) in *.
  set (kept := filter (fun a => negb (Db.has_id old_id a)) apps).
  assert (Hk : length kept + 1 = length apps).
  { pose proof (filter_split_length (Db.has_id old_id) apps) as H.
    fold kept in H. lia. }
  assert (Ha1 : Db.has_id old_id a1 = false).
  { destruct (Db.has_id old_id a1) eqn:E; [|reflexivity].
    apply has_id_true in E. congruence. }
  assert (Hall1 : Db.all_have_id (Db.appointments (Db.db w1))).
  { rewrite E1. apply all_have_id_app; [exact Hall | congruence]. }
  assert (Hdel : Db.delete_appointment w1 old_id
                 = Some (Db.save_data (Db.with_appointments w1 (kept ++ [a1])),
                         true)).
  { unfold Db.delete_appointment.
    rewrite without_id_filter by exact Hall1.
    rewrite E1, filter_app. cbn [filter]. rewrite Ha1. cbn [negb].
    fold kept.
    destruct (Nat.ltb_spec (length (kept ++ [a1])) (length (apps ++ [a1])))
      as [_ | Hge]; [reflexivity|].
    rewrite !length_app in Hge. simpl in Hge. lia. }
  set (w2 := Db.save_data (Db.with_appointments w1 (kept ++ [a1]))) in *.
  assert (E2 : Db.appointments (Db.db w2) = kept ++ [a1]).
  { unfold w2. rewrite db_after_save. reflexivity. }
  destruct (scheduled_appointment_fields_aux w2 data2) as [a2 [E3 Hid2]].
  rewrite E2 in E3, Hid2.
  assert (Hlen : length (kept ++ [a1]) = length apps)
    by (rewrite length_app; simpl; lia).
  rewrite Hlen in Hid2. fold new_id in Hid2.
  exists w2, kept, a1, a2.
  split; [exact Hdel|].
  split; [rewrite E3, <- app_assoc; reflexivity|].
  split; [congruence|]. split; [exact Hid2|].
  rewrite E3. unfold Db.ids. rewrite !map_app. cbn [map].
  rewrite Hid1, Hid2. intros Hnd.
  apply NoDup_remove_2 in Hnd. apply Hnd.
  rewrite app_nil_r. apply in_or_app. right. left. reflexivity.
Qed.

End AppointmentChanges.

Lemma clinic_ids_repeat :
  exists w2 kept a1 a2,
    Db.delete_appointment
      (Db.schedule_appointment Examples.clinic Examples.new_appointment)
      "appt-1" = Some (w2, true) /\
    Db.appointments
      (Db.db (Db.schedule_appointment w2 Examples.new_appointment))
      = kept ++ [a1; a2] /\
    Db.get a1 "id" = Db.get a2 "id".
Proof.
  assert (Hall : Db.all_have_id (Db.appointments (Db.db Examples.clinic))).
  { repeat constructor; discriminate. }
  destruct (appointment_ids_repeat_after_deletion Examples.clinic
              Examples.new_appointment Examples.new_appointment "appt-1"
              Hall eq_refl)
    as [w2 [kept [a1 [a2 [H1 [H2 [H3 _]]]]]]].
  { discriminate. }
  exists w2, kept, a1, a2. split; [exact H1|]. split; [exact H2 | exact H3].
Defined.

Lemma clinic_delete_twice :
  exists w' removed,
    Db.delete_appointment Examples.clinic "appt-2" = Some (w', removed) /\
    removed = true /\
    exists w'', Db.delete_appointment w' "appt-2" = Some (w'', false).
Proof.
  assert (Hall : Db.all_have_id (Db.appointments (Db.db Examples.clinic))).
  { repeat constructor; discriminate. }
  destruct (delete_appointment_removes_that_id_only Examples.clinic "appt-2"
              Hall)
    as [w' [removed [H1 [_ [H3 [_ [_ [_ [w'' [H7 _]]]]]]]]]].
  exists w', removed. split; [exact H1|]. split.
  - apply H3. eexists. split; [right; left; reflexivity | reflexivity].
  - exists w''. exact H7.
Defined.

Section Updates.
Context {Entry : Type}.
Implicit Types w : Db.World Entry.
Implicit Types apps : list Db.Appointment.

Lemma get_update_other (a new : Db.Dict string) (k : string) :
  ~ In k (map fst new) -> Db.get (Db.update a new) k = Db.get a k.
Proof.
  unfold Db.update. revert a.
  induction new as [|[k' v'] new IH]; intros a Hk; [reflexivity|].
  cbn [fold_left fst snd]. rewrite IH.
  - apply get_set_other. intros ->. apply Hk. left. reflexivity.
  - intros Hin. apply Hk. right. exact Hin.
Qed.

Lemma get_update_new (a new : Db.Dict string) (k v : string) :
  NoDup (map fst new) -> In (k, v) new ->
  Db.get (Db.update a new) k = Some v.
Proof.
  unfold Db.update. revert a.
  induction new as [|[k' v'] new IH]; intros a Hnd Hin; [destruct Hin|].
  inversion Hnd as [|? ? Hnotin Hnd']; subst.
  cbn [fold_left fst snd]. destruct Hin as [[= -> ->] | Hin].
  - fold (Db.update (Db.set a k v) new).
    rewrite get_update_other by exact Hnotin. apply get_set_same.
  - now apply IH.
Qed.

Lemma update_first_spec apps (i : string) (new : Db.Dict string) :
  Db.all_have_id apps ->
  (Forall (fun a => Db.get a "id" <> Some i) apps /\
   Db.update_first apps i new = Some None) \/
  (exists pre a post,
      apps = pre ++ a :: post /\
      Forall (fun x => Db.get x "id" <> Some i) pre /\
      Db.get a "id" = Some i /\
      Db.update_first apps i new = Some (Some (pre ++ Db.update a new :: post))).
Proof.
  induction 1 as [|a apps Ha _ IH].
  - left. split; [constructor | reflexivity].
  - cbn [Db.update_first].
    destruct (Db.get a "id") as [j|] eqn:Ej; [|congruence].
    destruct (String.eqb_spec j i) as [-> | Hne].
    + right. exists [], a, apps. repeat split; [constructor | exact Ej].
    + destruct IH as [[Hnone ->] | [pre [b [post [-> [Hpre [Hb ->]]]]]]].
      * left. split; [|reflexivity]. constructor; [|exact Hnone].
        rewrite Ej. congruence.
      * right. exists (a :: pre), b, post.
        repeat split; [|exact Hb].
        constructor; [rewrite Ej; congruence | exact Hpre].
Qed.

(** X26. When every stored appointment has an id, [update_appointment] raises
    nothing and changes at most one appointment: the first with the given
    id, whose fields named in the update take the new values while the
    others keep theirs; the list keeps its length and order, and without a
    match nothing changes and nothing is saved. *)
Theorem update_appointment_changes_first_match :
  forall w (i : string) (new : Db.Dict string),
    Db.all_have_id (Db.appointments (Db.db w)) ->
    exists w' : Db.World Entry,
      Db.update_appointment w i new = Some w' /\
      length (Db.appointments (Db.db w')) = length (Db.appointments (Db.db w)) /\
      ((forall a, In a (Db.appointments (Db.db w)) -> Db.get a "id" <> Some i) ->
       w' = w) /\
      (forall pre a post,
          Db.appointments (Db.db w) = pre ++ a :: post ->
          (forall x, In x pre -> Db.get x "id" <> Some i) ->
          Db.get a "id" = Some i ->
          Db.appointments (Db.db w') = pre ++ Db.update a new :: post /\
          (forall k, ~ In k (map fst new) ->
                     Db.get (Db.update a new) k = Db.get a k) /\
          (NoDup (map fst new) ->
           forall k v, In (k, v) new -> Db.get (Db.update a new) k = Some v) /\
          Db.disk w' = (if Db.writable w then Some (Db.db w') else Db.disk w)).
Proof.
  intros w i new Hall.
  unfold Db.update_appointment.
  destruct (update_first_spec _ i new Hall)
    as [[Hnone ->] | [pre [a [post [E [Hpre [Ha ->]]]]]]].
  - exists w. split; [reflexivity|]. split; [reflexivity|].
    split; [reflexivity|].
    intros pre a post E _ Ha. exfalso.
    rewrite Forall_forall in Hnone. apply (Hnone a); [|exact Ha].
    rewrite E. apply in_or_app. right. left. reflexivity.
  - eexists. split; [reflexivity|].
    rewrite db_after_save. cbn [Db.with_appointments Db.with_db Db.db
                                  Db.appointments].
    split; [rewrite E, !length_app; reflexivity|].
    split.
    { intros Hnone. exfalso. apply (Hnone a); [|exact Ha].
      rewrite E. apply in_or_app. right. left. reflexivity. }
    intros pre' a' post' E' Hpre' Ha'.
    assert (Hsame : pre' = pre /\ a' = a /\ post' = post).
    { rewrite E in E'. clear - E' Hpre Hpre' Ha Ha'.
      rewrite Forall_forall in Hpre.
      revert pre' E' Hpre'.
      induction pre as [|x pre IH]; intros [|y pre'] E' Hpre'.
      - injection E' as <- <-. auto.
      - injection E' as -> _. exfalso. apply (Hpre' y); [left; reflexivity|].
        exact Ha.
      - injection E' as -> _. exfalso. apply (Hpre a'); [left; reflexivity|].
        exact Ha'.
      - injection E' as -> E'.
        destruct (IH (fun z Hz => Hpre z (or_intror Hz)) pre' E'
                     (fun z Hz => Hpre' z (or_intror Hz)))
          as [-> [-> ->]].
        auto. }
    destruct Hsame as [-> [-> ->]].
    split; [reflexivity|].
    split; [intros k; apply get_update_other|].
    split; [intros Hnd k v; now apply get_update_new|].
    unfold Db.save_data, Db.with_appointments, Db.with_db.
    cbn [Db.writable Db.db Db.disk].
    destruct (Db.writable w); reflexivity.
Qed.

End Updates.

Lemma clinic_confirm_first_appointment :
  exists w',
    Db.update_appointment Examples.clinic "appt-1" [("status", "confirmed")]
      = Some w' /\
    length (Db.appointments (Db.db w')) = 2.
Proof.
  assert (Hall : Db.all_have_id (Db.appointments (Db.db Examples.clinic))).
  { repeat constructor; discriminate. }
  destruct (update_appointment_changes_first_match Examples.clinic "appt-1"
              [("status", "confirmed")] Hall) as [w' [H1 [H2 _]]].
  exists w'. split; [exact H1 | exact H2].
Defined.

(** ** Patients and their doctors *)

Section PatientFacts.
Context {Entry : Type}.
Implicit Types w : Db.World Entry.

Lemma candidate_spec w (d : string) (c : Db.Candidate) :
  In c (Db.get_unassigned_patients_or_unassigned_to_doctor w d) <->
  exists user,
    In (Db.cand_username c, user) (Db.users (Db.db w)) /\
    Db.role user = "paciente" /\
    Db.cand_full_name c = Db.full_name user /\
    match Db.get (Db.patient_info (Db.db w)) (Db.cand_username c) with
    | None => Db.is_unassigned c = true
    | Some info =>
        match Db.doctor_user info with
        | None => Db.is_unassigned c = true
        | Some d0 => d0 <> d /\ Db.is_unassigned c = false
        end
    end.
Proof.
  unfold Db.get_unassigned_patients_or_unassigned_to_doctor.
  rewrite in_flat_map. split.
  - intros [[name user] [Hin Hc]].
    destruct (String.eqb_spec (Db.role user) "paciente") as [Hrole|]; [|destruct Hc].
    exists user.
    destruct (Db.get (Db.patient_info (Db.db w)) name) as [info|] eqn:Einfo.
    + destruct (Db.doctor_user info) as [d0|] eqn:Edoc.
      * destruct (String.eqb_spec d0 d) as [|Hne]; [destruct Hc|].
        destruct Hc as [<- | []]. cbn. rewrite Einfo, Edoc. auto.
      * destruct Hc as [<- | []]. cbn. rewrite Einfo, Edoc. auto.
    + destruct Hc as [<- | []]. cbn. rewrite Einfo. auto.
  - intros [user [Hin [Hrole [Hname Hc]]]].
    exists (Db.cand_username c, user). split; [exact Hin|].
    rewrite Hrole. cbn [String.eqb Ascii.eqb Bool.eqb].
    destruct c as [cu cn ci]. cbn in *. subst cn.
    destruct (Db.get (Db.patient_info (Db.db w)) cu) as [info|].
    + destruct (Db.doctor_user info) as [d0|].
      * destruct Hc as [Hne ->].
        destruct (String.eqb_spec d0 d); [contradiction|]. left. reflexivity.
      * subst ci. left. reflexivity.
    + subst ci. left. reflexivity.
Qed.

Lemma assigned_are_listed w (d u : string) (info : Db.PatientInfo) :
  In (u, info) (Db.patient_info (Db.db w)) ->
  Db.doctor_user info = Some d ->
  In (u, Db.info_full_name info) (Db.get_all_patients_for_doctor w d).
Proof.
  intros Hin Hdoc. unfold Db.get_all_patients_for_doctor.
  assert (H : In (u, Db.info_full_name info)
                 (map (fun item : string * Db.PatientInfo =>
                         (fst item, Db.info_full_name (snd item)))
                      (filter (fun item => Db.is_doctor_of d (snd item))
                              (Db.patient_info (Db.db w))))).
  { apply in_map_iff. exists (u, info). split; [reflexivity|].
    apply filter_In. split; [exact Hin|].
    unfold Db.is_doctor_of. cbn. rewrite Hdoc. apply String.eqb_refl. }
  destruct (map _ _); [destruct H | exact H].
Qed.

Lemma listed_are_assigned w (d u : string) (n : option string) :
  In (u, n) (Db.get_all_patients_for_doctor w d) ->
  (exists info, In (u, info) (Db.patient_info (Db.db w)) /\
                Db.doctor_user info = Some d /\ n = Db.info_full_name info) \/
  (d = "dr.garcia" /\ u = "paciente.torn" /\ n = Some "Torn Benson" /\
   forall u' info, In (u', info) (Db.patient_info (Db.db w)) ->
                   Db.doctor_user info <> Some d).
Proof.
  unfold Db.get_all_patients_for_doctor.
  set (own := filter (fun item : string * Db.PatientInfo =>
                        Db.is_doctor_of d (snd item))
                     (Db.patient_info (Db.db w))).
  assert (Hown : forall x, In x own ->
                           In x (Db.patient_info (Db.db w)) /\
                           Db.doctor_user (snd x) = Some d).
  { intros x Hx. apply filter_In in Hx. destruct Hx as [Hx Hd].
    split; [exact Hx|]. unfold Db.is_doctor_of in Hd.
    destruct (Db.doctor_user (snd x)) as [d0|]; [|discriminate].
    apply String.eqb_eq in Hd. now subst. }
  assert (Hreal : In (u, n) (map (fun item : string * Db.PatientInfo =>
                                    (fst item, Db.info_full_name (snd item)))
                                 own) ->
                  exists info, In (u, info) (Db.patient_info (Db.db w)) /\
                               Db.doctor_user info = Some d /\
                               n = Db.info_full_name info).
  { intros H. apply in_map_iff in H. destruct H as [[u' info] [Heq Hx]].
    cbn in Heq. injection Heq as <- <-.
    apply Hown in Hx. exists info. cbn in Hx. tauto. }
  destruct own as [|x own'] eqn:Eown.
  - cbn [map]. destruct (String.eqb_spec d "dr.garcia") as [-> | _];
      [|intros []].
    intros [[= <- <-] | []]. right. repeat split.
    intros u' info Hin Hdoc.
    assert (Hx : In (u', info) own).
    { apply filter_In. split; [exact Hin|].
      unfold Db.is_doctor_of. cbn. rewrite Hdoc. reflexivity. }
    rewrite Eown in Hx. destruct Hx.
  - intros H. left. apply Hreal. exact H.
Qed.

Lemma patient_info_after_add_patient w (u diag : string)
      (doc physio : option string) (save : bool) :
  Db.patient_info (Db.db (Db.add_patient w u diag doc physio save))
  = Db.set (Db.patient_info (Db.db w)) u
      (Db.mkPatientInfo diag doc physio
         (option_map Db.full_name (Db.get (Db.users (Db.db w)) u))) /\
  Db.users (Db.db (Db.add_patient w u diag doc physio save))
  = Db.users (Db.db w).
Proof.
  unfold Db.add_patient.
  destruct save; [rewrite db_after_save|]; split; reflexivity.
Qed.

(** X27. After [add_patient] has associated a patient with a doctor, the
    patient is on that doctor's list, under the name of the user record,
    and is no longer offered to that doctor for association; any other
    doctor is offered the patient, marked as already assigned. *)
Theorem associated_patient_is_listed_not_offered :
  forall w (u diag d : string) (physio : option string) (save : bool),
    let w' := Db.add_patient w u diag (Some d) physio save in
    In (u, option_map Db.full_name (Db.get (Db.users (Db.db w)) u))
       (Db.get_all_patients_for_doctor w' d) /\
    (forall c, In c (Db.get_unassigned_patients_or_unassigned_to_doctor w' d) ->
               Db.cand_username c <> u) /\
    (forall d' user,
        d' <> d -> In (u, user) (Db.users (Db.db w)) ->
        Db.role user = "paciente" ->
        In (Db.mkCandidate u (Db.full_name user) false)
           (Db.get_unassigned_patients_or_unassigned_to_doctor w' d')).
Proof.
  intros w u diag d physio save w'.
  destruct (patient_info_after_add_patient w u diag (Some d) physio save)
    as [Hinfo Husers].
  fold w' in Hinfo, Husers.
  set (info := Db.mkPatientInfo diag (Some d) physio
                 (option_map Db.full_name (Db.get (Db.users (Db.db w)) u)))
    in Hinfo.
  assert (Hget : Db.get (Db.patient_info (Db.db w')) u = Some info)
    by (rewrite Hinfo; apply get_set_same).
  split; [|split].
  - apply (assigned_are_listed w' d u info); [|reflexivity].
    apply get_In. exact Hget.
  - intros c Hc Hu. apply candidate_spec in Hc.
    destruct Hc as [user [_ [_ [_ Hc]]]].
    rewrite Hu, Hget in Hc. cbn in Hc. destruct Hc as [Hne _]. now apply Hne.
  - intros d' user Hne Hin Hrole. apply candidate_spec.
    exists user. cbn [Db.cand_username Db.cand_full_name Db.is_unassigned].
    rewrite Husers, Hget. cbn. repeat split; auto.
Qed.

(** X28. [disassociate_patient] answers whether the patient had a record; after
    it the patient has none, is offered to every doctor as unassigned when
    a user with the patient role, and is on no doctor's list, except that
    dr.garcia, left without patients, is shown paciente.torn whatever the
    store says. *)
Theorem disassociated_patient_is_offered_again :
  forall w (u d : string),
    let w' := fst (Db.disassociate_patient w u) in
    snd (Db.disassociate_patient w u)
      = (match Db.get (Db.patient_info (Db.db w)) u with
         | Some _ => true
         | None => false
         end) /\
    Db.get (Db.patient_info (Db.db w')) u = None /\
    (forall user,
        In (u, user) (Db.users (Db.db w)) -> Db.role user = "paciente" ->
        In (Db.mkCandidate u (Db.full_name user) true)
           (Db.get_unassigned_patients_or_unassigned_to_doctor w' d)) /\
    (forall n, In (u, n) (Db.get_all_patients_for_doctor w' d) ->
               d = "dr.garcia" /\ u = "paciente.torn" /\
               Db.get_all_patients_for_doctor w' d
                 = [("paciente.torn", Some "Torn Benson")]).
Proof.
  intros w u d w'.
  assert (Hnone : Db.get (Db.patient_info (Db.db w')) u = None).
  { subst w'. unfold Db.disassociate_patient.
    destruct (Db.get (Db.patient_info (Db.db w)) u) eqn:E; cbn [fst].
    - rewrite db_after_save. apply get_del_same.
    - exact E. }
  assert (Husers : Db.users (Db.db w') = Db.users (Db.db w)).
  { subst w'. unfold Db.disassociate_patient.
    destruct (Db.get (Db.patient_info (Db.db w)) u); cbn [fst];
      [rewrite db_after_save|]; reflexivity. }
  split; [|split; [exact Hnone | split]].
  - unfold Db.disassociate_patient.
    destruct (Db.get (Db.patient_info (Db.db w)) u); reflexivity.
  - intros user Hin Hrole. apply candidate_spec. exists user.
    cbn [Db.cand_username Db.cand_full_name Db.is_unassigned].
    rewrite Husers, Hnone. auto.
  - intros n Hin.
    destruct (listed_are_assigned w' d u n Hin)
      as [[info [Hinfo _]] | [-> [-> [_ Hothers]]]].
    + exfalso. apply In_get_some in Hinfo. contradiction.
    + repeat split. unfold Db.get_all_patients_for_doctor.
      replace (filter _ _) with (@nil (string * Db.PatientInfo));
        [reflexivity|].
      symmetry.
      destruct (filter _ _) as [|[u' info] rest] eqn:E; [reflexivity|].
      exfalso.
      assert (Hx : In (u', info)
                      (filter (fun item : string * Db.PatientInfo =>
                                 Db.is_doctor_of "dr.garcia" (snd item))
                              (Db.patient_info (Db.db w'))))
        by (rewrite E; left; reflexivity).
      apply filter_In in Hx. destruct Hx as [Hx Hd].
      apply (Hothers u' info Hx).
      unfold Db.is_doctor_of in Hd. cbn in Hd.
      destruct (Db.doctor_user info) as [d0|]; [|discriminate].
      apply String.eqb_eq in Hd. now subst.
Qed.

(** X29. In a store whose patient records have distinct keys, nobody is at the
    same time offered to a doctor for association and among the patients
    the store assigns to that doctor; the only name the doctor's list can
    share with the offer is the paciente.torn shown to dr.garcia when the
    store assigns nobody to dr.garcia. *)
Theorem offered_patients_are_not_listed :
  forall w (d : string) (c : Db.Candidate) (n : option string),
    NoDup (map fst (Db.patient_info (Db.db w))) ->
    In c (Db.get_unassigned_patients_or_unassigned_to_doctor w d) ->
    In (Db.cand_username c, n) (Db.get_all_patients_for_doctor w d) ->
    d = "dr.garcia" /\ Db.cand_username c = "paciente.torn" /\
    Db.get_all_patients_for_doctor w d = [("paciente.torn", Some "Torn Benson")].
Proof.
  intros w d c n Hnd Hc Hl.
  apply candidate_spec in Hc. destruct Hc as [user [_ [_ [_ Hc]]]].
  destruct (listed_are_assigned w d _ n Hl)
    as [[info [Hinfo [Hdoc _]]] | [-> [Hu [_ Hothers]]]].
  - exfalso. apply In_get in Hinfo; [|exact Hnd].
    rewrite Hinfo, Hdoc in Hc. destruct Hc as [Hne _]. now apply Hne.
  - repeat split; [exact Hu|].
    unfold Db.get_all_patients_for_doctor.
    destruct (filter _ _) as [|[u' info] rest] eqn:E; [reflexivity|].
    exfalso.
    assert (Hx : In (u', info)
                    (filter (fun item : string * Db.PatientInfo =>
                               Db.is_doctor_of "dr.garcia" (snd item))
                            (Db.patient_info (Db.db w))))
      by (rewrite E; left; reflexivity).
    apply filter_In in Hx. destruct Hx as [Hx Hd].
    apply (Hothers u' info Hx).
    unfold Db.is_doctor_of in Hd. cbn in Hd.
    destruct (Db.doctor_user info) as [d0|]; [|discriminate].
    apply String.eqb_eq in Hd. now subst.
Qed.

End PatientFacts.

Lemma torn_is_offered_and_shown_to_garcia :
  Db.get_all_patients_for_doctor
    (fst (Db.disassociate_patient Examples.clinic "paciente.torn")) "dr.garcia"
  = [("paciente.torn", Some "Torn Benson")].
Proof.
  set (w := fst (Db.disassociate_patient Examples.clinic "paciente.torn")).
  assert (Hnd : NoDup (map fst (Db.patient_info (Db.db w)))) by constructor.
  assert (Hc : In (Db.mkCandidate "paciente.torn" "Torn Benson" true)
                  (Db.get_unassigned_patients_or_unassigned_to_doctor
                     w "dr.garcia"))
    by (left; reflexivity).
  assert (Hl : In ("paciente.torn", Some "Torn Benson")
                  (Db.get_all_patients_for_doctor w "dr.garcia"))
    by (left; reflexivity).
  exact (proj2 (proj2 (offered_patients_are_not_listed
                         w "dr.garcia" _ _ Hnd Hc Hl))).
Defined.
